(** * ProperDuel: the combat core, embedded in Rocq

    A shallow embedding of the combat simulation of the ProperDuel
    fighting game ([src/game/sprite_system.py], [src/game/character.py],
    [src/game/scenes.py]) together with the properties that its
    specification states about it.

    Conventions of the embedding.
    - Python [float] values (positions, velocities, timers, stamina once it
      regenerates) are exact rationals [Q]; Python [int] values (health,
      attack ids, sizes) are [Z]; frame indices are [nat].
    - Every method that mutates [self] becomes a function returning the new
      object.  A method that can raise (an attribute access on [None])
      returns [option]; [None] is the exception.
    - Audio playback, rendering and [print] are left out: they neither read
      nor write the combat state.
    - [Animation] objects live in a store and are referred to by index, so
      that two names of one animator can share one object, as ["idle"] and
      ["block"] do. *)

From Stdlib Require Import ZArith QArith Qround Bool List String Lia Lqa.
Import ListNotations.

Local Open Scope Q_scope.

(** ** Python numerics on [Q] *)

Definition Qleb (a b : Q) : bool := Qle_bool a b.
Definition Qltb (a b : Q) : bool := negb (Qle_bool b a).

(** [max(a, b)] and [min(a, b)] as Python evaluates them: the first
    argument is kept unless the second is strictly better. *)
Definition py_max (a b : Q) : Q := if Qltb a b then b else a.
Definition py_min (a b : Q) : Q := if Qltb b a then b else a.

(** [abs] on floats. *)
Definition py_abs (a : Q) : Q := if Qltb a 0 then - a else a.

(** Truncation towards zero, which [pygame.Rect] applies to float
    coordinates. *)
Definition Qtrunc (q : Q) : Z := Z.quot (Qnum q) (Zpos (Qden q)).

Notation "x <- e ;; k" :=
  (match e with Some x => k | None => None end)
  (at level 61, e at next level, right associativity).

(** ** sprite_system.py *)

(** [Animation]: [frames] is [len(self.frames)]; the surfaces themselves
    belong to the presentation layer. *)
Record Animation : Type := mkAnimation {
  frames : nat;
  frame_duration : Q;
  current_frame : nat;
  time_since_last_frame : Q;
  is_playing : bool;
  loop : bool
}.

(** [Animation.__init__(frames, frame_duration)]. *)
Definition Animation_init (n : nat) (d : Q) : Animation :=
  mkAnimation n d 0%nat 0 true true.

Definition set_loop (b : bool) (a : Animation) : Animation :=
  mkAnimation (frames a) (frame_duration a) (current_frame a)
              (time_since_last_frame a) (is_playing a) b.

(** [Animation.update(dt)]. *)
Definition Animation_update (dt : Q) (a : Animation) : Animation :=
  if negb (is_playing a) || Nat.eqb (frames a) 0 then a
  else
    let t := time_since_last_frame a + dt in
    if Qleb (frame_duration a) t then
      let cf := S (current_frame a) in
      if Nat.leb (frames a) cf then
        if loop a then
          mkAnimation (frames a) (frame_duration a) 0%nat 0 (is_playing a) (loop a)
        else
          mkAnimation (frames a) (frame_duration a) (frames a - 1)%nat 0 false (loop a)
      else
        mkAnimation (frames a) (frame_duration a) cf 0 (is_playing a) (loop a)
    else
      mkAnimation (frames a) (frame_duration a) (current_frame a) t
                  (is_playing a) (loop a).

(** [Animation.reset()]. *)
Definition Animation_reset (a : Animation) : Animation :=
  mkAnimation (frames a) (frame_duration a) 0%nat 0 true (loop a).

(** [Animation.play()]. *)
Definition Animation_play (a : Animation) : Animation :=
  mkAnimation (frames a) (frame_duration a) (current_frame a)
              (time_since_last_frame a) true (loop a).

(** [Animation.is_finished()]. *)
Definition Animation_is_finished (a : Animation) : bool :=
  negb (loop a) && negb (is_playing a).

(** [n] calls of [update], one per tick. *)
Fixpoint Animation_updates (dts : list Q) (a : Animation) : Animation :=
  match dts with
  | [] => a
  | dt :: rest => Animation_updates rest (Animation_update dt a)
  end.

(** [SpriteAnimator].  [store] holds the [Animation] objects, [animations]
    is the dictionary from names to objects (as indices into the store,
    latest binding first), [current_animation] the object being played. *)
Record SpriteAnimator : Type := mkSpriteAnimator {
  store : list Animation;
  animations : list (string * nat);
  current_animation : option nat;
  current_animation_name : string
}.

Definition SpriteAnimator_init : SpriteAnimator :=
  mkSpriteAnimator [] [] None EmptyString.

Fixpoint lookup (name : string) (d : list (string * nat)) : option nat :=
  match d with
  | [] => None
  | (k, v) :: rest => if String.eqb k name then Some v else lookup name rest
  end.

(** In-place mutation of the object at index [i]. *)
Fixpoint modify (i : nat) (f : Animation -> Animation) (s : list Animation)
  : list Animation :=
  match s, i with
  | [], _ => []
  | a :: rest, O => f a :: rest
  | a :: rest, S j => a :: modify j f rest
  end.

(** [animator.add_animation(name, Animation(...))] with a freshly created
    object. *)
Definition add_animation (name : string) (a : Animation) (sa : SpriteAnimator)
  : SpriteAnimator :=
  let id := List.length (store sa) in
  mkSpriteAnimator
    (store sa ++ [a])
    ((name, id) :: animations sa)
    (match current_animation sa with Some c => Some c | None => Some id end)
    (match current_animation sa with
     | Some _ => current_animation_name sa
     | None => name
     end).

(** [animator.add_animation(name, animator.animations[other])]: a second
    name for an object already in the animator. *)
Definition add_alias (name other : string) (sa : SpriteAnimator) : SpriteAnimator :=
  match lookup other (animations sa) with
  | Some id =>
      mkSpriteAnimator (store sa) ((name, id) :: animations sa)
        (match current_animation sa with Some c => Some c | None => Some id end)
        (match current_animation sa with
         | Some _ => current_animation_name sa
         | None => name
         end)
  | None => sa
  end.

(** [animator.play_animation(name, reset)]. *)
Definition play_animation (name : string) (reset : bool) (sa : SpriteAnimator)
  : SpriteAnimator :=
  match lookup name (animations sa) with
  | Some id =>
      if negb (String.eqb (current_animation_name sa) name) || reset then
        let s1 := if reset then modify id Animation_reset (store sa) else store sa in
        mkSpriteAnimator (modify id Animation_play s1) (animations sa) (Some id) name
      else sa
  | None => sa
  end.

(** [animator.update(dt)]. *)
Definition SpriteAnimator_update (dt : Q) (sa : SpriteAnimator) : SpriteAnimator :=
  match current_animation sa with
  | Some id =>
      mkSpriteAnimator (modify id (Animation_update dt) (store sa))
        (animations sa) (current_animation sa) (current_animation_name sa)
  | None => sa
  end.

(** [animator.current_animation.<attr>]: fails when there is no current
    animation. *)
Definition current_object (sa : SpriteAnimator) : option Animation :=
  id <- current_animation sa ;; nth_error (store sa) id.

(** ** input_handler.py *)

(** [PlayerInput]: the intent of one actor for one tick. *)
Record PlayerInput : Type := mkPlayerInput {
  left : bool;
  right : bool;
  up : bool;
  down : bool;
  attack : bool;
  block : bool;
  special : bool
}.

(** [PlayerInput()]. *)
Definition PlayerInput_init : PlayerInput :=
  mkPlayerInput false false false false false false false.

(** ** character.py *)

Record Character : Type := mkCharacter {
  x : Q;
  y : Q;
  velocity_x : Q;
  velocity_y : Q;
  facing_right : bool;
  health : Z;
  speed : Q;
  is_attacking : bool;
  is_blocking : bool;
  is_dead : bool;
  is_hit : bool;
  hit_duration : Q;
  attack_cooldown : Q;
  attack_duration : Q;
  current_attack_id : Z;
  can_hit : bool;
  is_special_attacking : bool;
  special_attack_cooldown : Q;
  special_attack_duration : Q;
  special_attack_cooldown_time : Q;
  current_special_attack_id : Z;
  can_special_hit : bool;
  stamina : Q;
  god_mode : bool;
  is_stunned : bool;
  stun_duration : Q;
  last_block_time : Q;
  ground_y : Q;
  on_ground : bool;
  width : Z;
  height : Z;
  animator : SpriteAnimator;
  last_attack_id : Z;
  last_special_attack_id : Z
}.

Definition set_x (v : Q) (c : Character) : Character :=
  mkCharacter v (y c) (velocity_x c) (velocity_y c) (facing_right c) (health c) (speed c)
  (is_attacking c) (is_blocking c) (is_dead c) (is_hit c) (hit_duration c) (attack_cooldown c)
  (attack_duration c) (current_attack_id c) (can_hit c) (is_special_attacking c)
  (special_attack_cooldown c) (special_attack_duration c) (special_attack_cooldown_time c)
  (current_special_attack_id c) (can_special_hit c) (stamina c) (god_mode c) (is_stunned c)
  (stun_duration c) (last_block_time c) (ground_y c) (on_ground c) (width c) (height c) (animator
  c) (last_attack_id c) (last_special_attack_id c).
Definition set_y (v : Q) (c : Character) : Character :=
  mkCharacter (x c) v (velocity_x c) (velocity_y c) (facing_right c) (health c) (speed c)
  (is_attacking c) (is_blocking c) (is_dead c) (is_hit c) (hit_duration c) (attack_cooldown c)
  (attack_duration c) (current_attack_id c) (can_hit c) (is_special_attacking c)
  (special_attack_cooldown c) (special_attack_duration c) (special_attack_cooldown_time c)
  (current_special_attack_id c) (can_special_hit c) (stamina c) (god_mode c) (is_stunned c)
  (stun_duration c) (last_block_time c) (ground_y c) (on_ground c) (width c) (height c) (animator
  c) (last_attack_id c) (last_special_attack_id c).
Definition set_velocity_x (v : Q) (c : Character) : Character :=
  mkCharacter (x c) (y c) v (velocity_y c) (facing_right c) (health c) (speed c) (is_attacking c)
  (is_blocking c) (is_dead c) (is_hit c) (hit_duration c) (attack_cooldown c) (attack_duration c)
  (current_attack_id c) (can_hit c) (is_special_attacking c) (special_attack_cooldown c)
  (special_attack_duration c) (special_attack_cooldown_time c) (current_special_attack_id c)
  (can_special_hit c) (stamina c) (god_mode c) (is_stunned c) (stun_duration c) (last_block_time
  c) (ground_y c) (on_ground c) (width c) (height c) (animator c) (last_attack_id c)
  (last_special_attack_id c).
Definition set_velocity_y (v : Q) (c : Character) : Character :=
  mkCharacter (x c) (y c) (velocity_x c) v (facing_right c) (health c) (speed c) (is_attacking c)
  (is_blocking c) (is_dead c) (is_hit c) (hit_duration c) (attack_cooldown c) (attack_duration c)
  (current_attack_id c) (can_hit c) (is_special_attacking c) (special_attack_cooldown c)
  (special_attack_duration c) (special_attack_cooldown_time c) (current_special_attack_id c)
  (can_special_hit c) (stamina c) (god_mode c) (is_stunned c) (stun_duration c) (last_block_time
  c) (ground_y c) (on_ground c) (width c) (height c) (animator c) (last_attack_id c)
  (last_special_attack_id c).
Definition set_facing_right (v : bool) (c : Character) : Character :=
  mkCharacter (x c) (y c) (velocity_x c) (velocity_y c) v (health c) (speed c) (is_attacking c)
  (is_blocking c) (is_dead c) (is_hit c) (hit_duration c) (attack_cooldown c) (attack_duration c)
  (current_attack_id c) (can_hit c) (is_special_attacking c) (special_attack_cooldown c)
  (special_attack_duration c) (special_attack_cooldown_time c) (current_special_attack_id c)
  (can_special_hit c) (stamina c) (god_mode c) (is_stunned c) (stun_duration c) (last_block_time
  c) (ground_y c) (on_ground c) (width c) (height c) (animator c) (last_attack_id c)
  (last_special_attack_id c).
Definition set_health (v : Z) (c : Character) : Character :=
  mkCharacter (x c) (y c) (velocity_x c) (velocity_y c) (facing_right c) v (speed c) (is_attacking
  c) (is_blocking c) (is_dead c) (is_hit c) (hit_duration c) (attack_cooldown c) (attack_duration
  c) (current_attack_id c) (can_hit c) (is_special_attacking c) (special_attack_cooldown c)
  (special_attack_duration c) (special_attack_cooldown_time c) (current_special_attack_id c)
  (can_special_hit c) (stamina c) (god_mode c) (is_stunned c) (stun_duration c) (last_block_time
  c) (ground_y c) (on_ground c) (width c) (height c) (animator c) (last_attack_id c)
  (last_special_attack_id c).
Definition set_is_attacking (v : bool) (c : Character) : Character :=
  mkCharacter (x c) (y c) (velocity_x c) (velocity_y c) (facing_right c) (health c) (speed c) v
  (is_blocking c) (is_dead c) (is_hit c) (hit_duration c) (attack_cooldown c) (attack_duration c)
  (current_attack_id c) (can_hit c) (is_special_attacking c) (special_attack_cooldown c)
  (special_attack_duration c) (special_attack_cooldown_time c) (current_special_attack_id c)
  (can_special_hit c) (stamina c) (god_mode c) (is_stunned c) (stun_duration c) (last_block_time
  c) (ground_y c) (on_ground c) (width c) (height c) (animator c) (last_attack_id c)
  (last_special_attack_id c).
Definition set_is_blocking (v : bool) (c : Character) : Character :=
  mkCharacter (x c) (y c) (velocity_x c) (velocity_y c) (facing_right c) (health c) (speed c)
  (is_attacking c) v (is_dead c) (is_hit c) (hit_duration c) (attack_cooldown c) (attack_duration
  c) (current_attack_id c) (can_hit c) (is_special_attacking c) (special_attack_cooldown c)
  (special_attack_duration c) (special_attack_cooldown_time c) (current_special_attack_id c)
  (can_special_hit c) (stamina c) (god_mode c) (is_stunned c) (stun_duration c) (last_block_time
  c) (ground_y c) (on_ground c) (width c) (height c) (animator c) (last_attack_id c)
  (last_special_attack_id c).
Definition set_is_dead (v : bool) (c : Character) : Character :=
  mkCharacter (x c) (y c) (velocity_x c) (velocity_y c) (facing_right c) (health c) (speed c)
  (is_attacking c) (is_blocking c) v (is_hit c) (hit_duration c) (attack_cooldown c)
  (attack_duration c) (current_attack_id c) (can_hit c) (is_special_attacking c)
  (special_attack_cooldown c) (special_attack_duration c) (special_attack_cooldown_time c)
  (current_special_attack_id c) (can_special_hit c) (stamina c) (god_mode c) (is_stunned c)
  (stun_duration c) (last_block_time c) (ground_y c) (on_ground c) (width c) (height c) (animator
  c) (last_attack_id c) (last_special_attack_id c).
Definition set_is_hit (v : bool) (c : Character) : Character :=
  mkCharacter (x c) (y c) (velocity_x c) (velocity_y c) (facing_right c) (health c) (speed c)
  (is_attacking c) (is_blocking c) (is_dead c) v (hit_duration c) (attack_cooldown c)
  (attack_duration c) (current_attack_id c) (can_hit c) (is_special_attacking c)
  (special_attack_cooldown c) (special_attack_duration c) (special_attack_cooldown_time c)
  (current_special_attack_id c) (can_special_hit c) (stamina c) (god_mode c) (is_stunned c)
  (stun_duration c) (last_block_time c) (ground_y c) (on_ground c) (width c) (height c) (animator
  c) (last_attack_id c) (last_special_attack_id c).
Definition set_hit_duration (v : Q) (c : Character) : Character :=
  mkCharacter (x c) (y c) (velocity_x c) (velocity_y c) (facing_right c) (health c) (speed c)
  (is_attacking c) (is_blocking c) (is_dead c) (is_hit c) v (attack_cooldown c) (attack_duration
  c) (current_attack_id c) (can_hit c) (is_special_attacking c) (special_attack_cooldown c)
  (special_attack_duration c) (special_attack_cooldown_time c) (current_special_attack_id c)
  (can_special_hit c) (stamina c) (god_mode c) (is_stunned c) (stun_duration c) (last_block_time
  c) (ground_y c) (on_ground c) (width c) (height c) (animator c) (last_attack_id c)
  (last_special_attack_id c).
Definition set_attack_cooldown (v : Q) (c : Character) : Character :=
  mkCharacter (x c) (y c) (velocity_x c) (velocity_y c) (facing_right c) (health c) (speed c)
  (is_attacking c) (is_blocking c) (is_dead c) (is_hit c) (hit_duration c) v (attack_duration c)
  (current_attack_id c) (can_hit c) (is_special_attacking c) (special_attack_cooldown c)
  (special_attack_duration c) (special_attack_cooldown_time c) (current_special_attack_id c)
  (can_special_hit c) (stamina c) (god_mode c) (is_stunned c) (stun_duration c) (last_block_time
  c) (ground_y c) (on_ground c) (width c) (height c) (animator c) (last_attack_id c)
  (last_special_attack_id c).
Definition set_attack_duration (v : Q) (c : Character) : Character :=
  mkCharacter (x c) (y c) (velocity_x c) (velocity_y c) (facing_right c) (health c) (speed c)
  (is_attacking c) (is_blocking c) (is_dead c) (is_hit c) (hit_duration c) (attack_cooldown c) v
  (current_attack_id c) (can_hit c) (is_special_attacking c) (special_attack_cooldown c)
  (special_attack_duration c) (special_attack_cooldown_time c) (current_special_attack_id c)
  (can_special_hit c) (stamina c) (god_mode c) (is_stunned c) (stun_duration c) (last_block_time
  c) (ground_y c) (on_ground c) (width c) (height c) (animator c) (last_attack_id c)
  (last_special_attack_id c).
Definition set_current_attack_id (v : Z) (c : Character) : Character :=
  mkCharacter (x c) (y c) (velocity_x c) (velocity_y c) (facing_right c) (health c) (speed c)
  (is_attacking c) (is_blocking c) (is_dead c) (is_hit c) (hit_duration c) (attack_cooldown c)
  (attack_duration c) v (can_hit c) (is_special_attacking c) (special_attack_cooldown c)
  (special_attack_duration c) (special_attack_cooldown_time c) (current_special_attack_id c)
  (can_special_hit c) (stamina c) (god_mode c) (is_stunned c) (stun_duration c) (last_block_time
  c) (ground_y c) (on_ground c) (width c) (height c) (animator c) (last_attack_id c)
  (last_special_attack_id c).
Definition set_can_hit (v : bool) (c : Character) : Character :=
  mkCharacter (x c) (y c) (velocity_x c) (velocity_y c) (facing_right c) (health c) (speed c)
  (is_attacking c) (is_blocking c) (is_dead c) (is_hit c) (hit_duration c) (attack_cooldown c)
  (attack_duration c) (current_attack_id c) v (is_special_attacking c) (special_attack_cooldown c)
  (special_attack_duration c) (special_attack_cooldown_time c) (current_special_attack_id c)
  (can_special_hit c) (stamina c) (god_mode c) (is_stunned c) (stun_duration c) (last_block_time
  c) (ground_y c) (on_ground c) (width c) (height c) (animator c) (last_attack_id c)
  (last_special_attack_id c).
Definition set_is_special_attacking (v : bool) (c : Character) : Character :=
  mkCharacter (x c) (y c) (velocity_x c) (velocity_y c) (facing_right c) (health c) (speed c)
  (is_attacking c) (is_blocking c) (is_dead c) (is_hit c) (hit_duration c) (attack_cooldown c)
  (attack_duration c) (current_attack_id c) (can_hit c) v (special_attack_cooldown c)
  (special_attack_duration c) (special_attack_cooldown_time c) (current_special_attack_id c)
  (can_special_hit c) (stamina c) (god_mode c) (is_stunned c) (stun_duration c) (last_block_time
  c) (ground_y c) (on_ground c) (width c) (height c) (animator c) (last_attack_id c)
  (last_special_attack_id c).
Definition set_special_attack_cooldown (v : Q) (c : Character) : Character :=
  mkCharacter (x c) (y c) (velocity_x c) (velocity_y c) (facing_right c) (health c) (speed c)
  (is_attacking c) (is_blocking c) (is_dead c) (is_hit c) (hit_duration c) (attack_cooldown c)
  (attack_duration c) (current_attack_id c) (can_hit c) (is_special_attacking c) v
  (special_attack_duration c) (special_attack_cooldown_time c) (current_special_attack_id c)
  (can_special_hit c) (stamina c) (god_mode c) (is_stunned c) (stun_duration c) (last_block_time
  c) (ground_y c) (on_ground c) (width c) (height c) (animator c) (last_attack_id c)
  (last_special_attack_id c).
Definition set_special_attack_duration (v : Q) (c : Character) : Character :=
  mkCharacter (x c) (y c) (velocity_x c) (velocity_y c) (facing_right c) (health c) (speed c)
  (is_attacking c) (is_blocking c) (is_dead c) (is_hit c) (hit_duration c) (attack_cooldown c)
  (attack_duration c) (current_attack_id c) (can_hit c) (is_special_attacking c)
  (special_attack_cooldown c) v (special_attack_cooldown_time c) (current_special_attack_id c)
  (can_special_hit c) (stamina c) (god_mode c) (is_stunned c) (stun_duration c) (last_block_time
  c) (ground_y c) (on_ground c) (width c) (height c) (animator c) (last_attack_id c)
  (last_special_attack_id c).
Definition set_current_special_attack_id (v : Z) (c : Character) : Character :=
  mkCharacter (x c) (y c) (velocity_x c) (velocity_y c) (facing_right c) (health c) (speed c)
  (is_attacking c) (is_blocking c) (is_dead c) (is_hit c) (hit_duration c) (attack_cooldown c)
  (attack_duration c) (current_attack_id c) (can_hit c) (is_special_attacking c)
  (special_attack_cooldown c) (special_attack_duration c) (special_attack_cooldown_time c) v
  (can_special_hit c) (stamina c) (god_mode c) (is_stunned c) (stun_duration c) (last_block_time
  c) (ground_y c) (on_ground c) (width c) (height c) (animator c) (last_attack_id c)
  (last_special_attack_id c).
Definition set_can_special_hit (v : bool) (c : Character) : Character :=
  mkCharacter (x c) (y c) (velocity_x c) (velocity_y c) (facing_right c) (health c) (speed c)
  (is_attacking c) (is_blocking c) (is_dead c) (is_hit c) (hit_duration c) (attack_cooldown c)
  (attack_duration c) (current_attack_id c) (can_hit c) (is_special_attacking c)
  (special_attack_cooldown c) (special_attack_duration c) (special_attack_cooldown_time c)
  (current_special_attack_id c) v (stamina c) (god_mode c) (is_stunned c) (stun_duration c)
  (last_block_time c) (ground_y c) (on_ground c) (width c) (height c) (animator c) (last_attack_id
  c) (last_special_attack_id c).
Definition set_stamina (v : Q) (c : Character) : Character :=
  mkCharacter (x c) (y c) (velocity_x c) (velocity_y c) (facing_right c) (health c) (speed c)
  (is_attacking c) (is_blocking c) (is_dead c) (is_hit c) (hit_duration c) (attack_cooldown c)
  (attack_duration c) (current_attack_id c) (can_hit c) (is_special_attacking c)
  (special_attack_cooldown c) (special_attack_duration c) (special_attack_cooldown_time c)
  (current_special_attack_id c) (can_special_hit c) v (god_mode c) (is_stunned c) (stun_duration
  c) (last_block_time c) (ground_y c) (on_ground c) (width c) (height c) (animator c)
  (last_attack_id c) (last_special_attack_id c).
Definition set_is_stunned (v : bool) (c : Character) : Character :=
  mkCharacter (x c) (y c) (velocity_x c) (velocity_y c) (facing_right c) (health c) (speed c)
  (is_attacking c) (is_blocking c) (is_dead c) (is_hit c) (hit_duration c) (attack_cooldown c)
  (attack_duration c) (current_attack_id c) (can_hit c) (is_special_attacking c)
  (special_attack_cooldown c) (special_attack_duration c) (special_attack_cooldown_time c)
  (current_special_attack_id c) (can_special_hit c) (stamina c) (god_mode c) v (stun_duration c)
  (last_block_time c) (ground_y c) (on_ground c) (width c) (height c) (animator c) (last_attack_id
  c) (last_special_attack_id c).
Definition set_stun_duration (v : Q) (c : Character) : Character :=
  mkCharacter (x c) (y c) (velocity_x c) (velocity_y c) (facing_right c) (health c) (speed c)
  (is_attacking c) (is_blocking c) (is_dead c) (is_hit c) (hit_duration c) (attack_cooldown c)
  (attack_duration c) (current_attack_id c) (can_hit c) (is_special_attacking c)
  (special_attack_cooldown c) (special_attack_duration c) (special_attack_cooldown_time c)
  (current_special_attack_id c) (can_special_hit c) (stamina c) (god_mode c) (is_stunned c) v
  (last_block_time c) (ground_y c) (on_ground c) (width c) (height c) (animator c) (last_attack_id
  c) (last_special_attack_id c).
Definition set_last_block_time (v : Q) (c : Character) : Character :=
  mkCharacter (x c) (y c) (velocity_x c) (velocity_y c) (facing_right c) (health c) (speed c)
  (is_attacking c) (is_blocking c) (is_dead c) (is_hit c) (hit_duration c) (attack_cooldown c)
  (attack_duration c) (current_attack_id c) (can_hit c) (is_special_attacking c)
  (special_attack_cooldown c) (special_attack_duration c) (special_attack_cooldown_time c)
  (current_special_attack_id c) (can_special_hit c) (stamina c) (god_mode c) (is_stunned c)
  (stun_duration c) v (ground_y c) (on_ground c) (width c) (height c) (animator c) (last_attack_id
  c) (last_special_attack_id c).
Definition set_ground_y (v : Q) (c : Character) : Character :=
  mkCharacter (x c) (y c) (velocity_x c) (velocity_y c) (facing_right c) (health c) (speed c)
  (is_attacking c) (is_blocking c) (is_dead c) (is_hit c) (hit_duration c) (attack_cooldown c)
  (attack_duration c) (current_attack_id c) (can_hit c) (is_special_attacking c)
  (special_attack_cooldown c) (special_attack_duration c) (special_attack_cooldown_time c)
  (current_special_attack_id c) (can_special_hit c) (stamina c) (god_mode c) (is_stunned c)
  (stun_duration c) (last_block_time c) v (on_ground c) (width c) (height c) (animator c)
  (last_attack_id c) (last_special_attack_id c).
Definition set_on_ground (v : bool) (c : Character) : Character :=
  mkCharacter (x c) (y c) (velocity_x c) (velocity_y c) (facing_right c) (health c) (speed c)
  (is_attacking c) (is_blocking c) (is_dead c) (is_hit c) (hit_duration c) (attack_cooldown c)
  (attack_duration c) (current_attack_id c) (can_hit c) (is_special_attacking c)
  (special_attack_cooldown c) (special_attack_duration c) (special_attack_cooldown_time c)
  (current_special_attack_id c) (can_special_hit c) (stamina c) (god_mode c) (is_stunned c)
  (stun_duration c) (last_block_time c) (ground_y c) v (width c) (height c) (animator c)
  (last_attack_id c) (last_special_attack_id c).
Definition set_animator (v : SpriteAnimator) (c : Character) : Character :=
  mkCharacter (x c) (y c) (velocity_x c) (velocity_y c) (facing_right c) (health c) (speed c)
  (is_attacking c) (is_blocking c) (is_dead c) (is_hit c) (hit_duration c) (attack_cooldown c)
  (attack_duration c) (current_attack_id c) (can_hit c) (is_special_attacking c)
  (special_attack_cooldown c) (special_attack_duration c) (special_attack_cooldown_time c)
  (current_special_attack_id c) (can_special_hit c) (stamina c) (god_mode c) (is_stunned c)
  (stun_duration c) (last_block_time c) (ground_y c) (on_ground c) (width c) (height c) v
  (last_attack_id c) (last_special_attack_id c).
Definition set_last_attack_id (v : Z) (c : Character) : Character :=
  mkCharacter (x c) (y c) (velocity_x c) (velocity_y c) (facing_right c) (health c) (speed c)
  (is_attacking c) (is_blocking c) (is_dead c) (is_hit c) (hit_duration c) (attack_cooldown c)
  (attack_duration c) (current_attack_id c) (can_hit c) (is_special_attacking c)
  (special_attack_cooldown c) (special_attack_duration c) (special_attack_cooldown_time c)
  (current_special_attack_id c) (can_special_hit c) (stamina c) (god_mode c) (is_stunned c)
  (stun_duration c) (last_block_time c) (ground_y c) (on_ground c) (width c) (height c) (animator
  c) v (last_special_attack_id c).
Definition set_last_special_attack_id (v : Z) (c : Character) : Character :=
  mkCharacter (x c) (y c) (velocity_x c) (velocity_y c) (facing_right c) (health c) (speed c)
  (is_attacking c) (is_blocking c) (is_dead c) (is_hit c) (hit_duration c) (attack_cooldown c)
  (attack_duration c) (current_attack_id c) (can_hit c) (is_special_attacking c)
  (special_attack_cooldown c) (special_attack_duration c) (special_attack_cooldown_time c)
  (current_special_attack_id c) (can_special_hit c) (stamina c) (god_mode c) (is_stunned c)
  (stun_duration c) (last_block_time c) (ground_y c) (on_ground c) (width c) (height c) (animator
  c) (last_attack_id c) v.

(** Attributes that [Character.__init__] sets once and no code assigns
    again. *)
Definition max_health : Z := 100.
Definition jump_power : Q := 650.
Definition jump_stamina_cost : Q := 20.
Definition hit_animation_time : Q := 2 # 5.
Definition attack_cooldown_time : Q := 1 # 2.
Definition attack_hit_frame : nat := 4.
Definition special_attack_hit_frame : nat := 4.
Definition max_stamina : Q := 100.
Definition stamina_per_block : Q := 50.
Definition stamina_regen_rate : Q := 25.
Definition stun_time : Q := 5 # 2.
Definition gravity : Q := 800.

(** [Character.__init__], given what [load_sprites] produced: the animator
    and the collision box size. *)
Definition Character_init (x0 y0 : Q) (facing : bool) (spd : Q)
    (w h : Z) (sa : SpriteAnimator) : Character :=
  {| x := x0; y := y0; velocity_x := 0; velocity_y := 0;
     facing_right := facing; health := 100; speed := spd;
     is_attacking := false; is_blocking := false; is_dead := false;
     is_hit := false; hit_duration := 0; attack_cooldown := 0;
     attack_duration := 12 # 25; current_attack_id := 0; can_hit := false;
     is_special_attacking := false; special_attack_cooldown := 0;
     special_attack_duration := 18 # 25; special_attack_cooldown_time := 10;
     current_special_attack_id := 0; can_special_hit := false;
     stamina := 100; god_mode := false; is_stunned := false;
     stun_duration := 0; last_block_time := 0; ground_y := 335;
     on_ground := true; width := w; height := h; animator := sa;
     last_attack_id := -1; last_special_attack_id := -1 |}.

(** [Character.load_sprites]: the fallback animator, one ["idle"] frame. *)
Definition fallback_sprites : SpriteAnimator :=
  add_animation "idle" (Animation_init 1 (1 # 5)) SpriteAnimator_init.

(** What the sprite sheets contribute to a samurai: the size of one idle
    frame and the number of frames of the hit sheet (3 to 6, by its width).
    The sheets are assets outside the source. *)
Record SpriteAssets : Type := mkSpriteAssets {
  idle_frame_width : Z;
  idle_frame_height : Z;
  hit_frame_count : nat
}.

(** [Samurai1.load_sprites] / [Samurai2.load_sprites] when the sheets load:
    the animations in the order they are added, then ["block"] as a second
    name of the idle animation. *)
Definition samurai_sprites (assets : SpriteAssets) : SpriteAnimator :=
  let sa := SpriteAnimator_init in
  let sa := add_animation "idle" (Animation_init 8 (3 # 20)) sa in
  let sa := add_animation "attack" (set_loop false (Animation_init 6 (2 # 25))) sa in
  let sa := add_animation "special_attack" (set_loop false (Animation_init 6 (3 # 25))) sa in
  let sa := add_animation "walk" (Animation_init 8 (1 # 10)) sa in
  let sa := add_animation "dead" (set_loop false (Animation_init 6 (3 # 20))) sa in
  let sa := add_animation "hit"
              (set_loop false (Animation_init (hit_frame_count assets) (1 # 10))) sa in
  let sa := add_animation "stun" (Animation_init 4 (1 # 5)) sa in
  let sa := add_animation "jump" (set_loop false (Animation_init 2 (3 # 20))) sa in
  add_alias "block" "idle" sa.

(** [Samurai1(x, y)]: the player, facing right, speed 250. *)
Definition Samurai1 (assets : SpriteAssets) (x0 y0 : Q) : Character :=
  Character_init x0 y0 true 250
    (idle_frame_width assets * 2) (idle_frame_height assets * 2)
    (samurai_sprites assets).

(** [Samurai2(x, y)]: the opponent, facing left, speed 180. *)
Definition Samurai2 (assets : SpriteAssets) (x0 y0 : Q) : Character :=
  Character_init x0 y0 false 180
    (idle_frame_width assets * 2) (idle_frame_height assets * 2)
    (samurai_sprites assets).

(** [Character.start_attack]. *)
Definition start_attack (c : Character) : Character :=
  let c := set_is_attacking true c in
  let c := set_attack_duration (12 # 25) c in
  let c := set_is_blocking false c in
  let c := set_current_attack_id (current_attack_id c + 1)%Z c in
  set_can_hit false c.

(** [Character.start_special_attack]: the result tells whether it
    started. *)
Definition start_special_attack (c : Character) : bool * Character :=
  if Qleb (special_attack_cooldown c) 0 then
    let c := set_is_special_attacking true c in
    let c := set_special_attack_duration (18 # 25) c in
    let c := set_is_blocking false c in
    let c := set_current_special_attack_id (current_special_attack_id c + 1)%Z c in
    (true, set_can_special_hit false c)
  else (false, c).

(** The stun transition that follows each stamina consumption:
    [if self.stamina <= 0: ...]. *)
Definition stun_if_depleted (c : Character) : Character :=
  if Qleb (stamina c) 0 then
    let c := set_is_stunned true c in
    let c := set_stun_duration stun_time c in
    set_is_blocking false c
  else c.

(** [Character._handle_input], paragraph by paragraph.
    "Block first": blocking needs stamina and no attack in progress; the
    block-start edge pays [stamina_per_block]. *)
Definition handle_block (input_state : PlayerInput) (c : Character) : Character :=
  let was_blocking := is_blocking c in
  let can_block := Qltb 0 (stamina c) && negb (is_attacking c) in
  let c := set_is_blocking (block input_state && can_block) c in
  if is_blocking c && negb was_blocking then
    let c := set_stamina (py_max 0 (stamina c - stamina_per_block)) c in
    let c := set_last_block_time 0 c in
    stun_if_depleted c
  else c.

(** "Movement (disabled while blocking or stunned)". *)
Definition handle_movement (input_state : PlayerInput) (c : Character) : Character :=
  if negb (is_blocking c) && negb (is_stunned c) then
    if left input_state then
      let c := set_velocity_x (- speed c) c in
      set_facing_right false c
    else if right input_state then
      let c := set_velocity_x (speed c) c in
      set_facing_right true c
    else set_velocity_x 0 c
  else set_velocity_x 0 c.

(** "Jump (disabled while blocking or stunned, requires stamina)". *)
Definition handle_jump (input_state : PlayerInput) (c : Character) : Character :=
  if up input_state && on_ground c && negb (is_blocking c)
     && negb (is_stunned c) && Qleb jump_stamina_cost (stamina c) then
    let c := set_velocity_y (- jump_power) c in
    let c := set_on_ground false c in
    let c := set_stamina (py_max 0 (stamina c - jump_stamina_cost)) c in
    stun_if_depleted c
  else c.

(** "Attack (disabled while stunned)". *)
Definition handle_attack (input_state : PlayerInput) (c : Character) : Character :=
  if attack input_state && negb (is_attacking c)
     && negb (is_special_attacking c) && Qleb (attack_cooldown c) 0
     && negb (is_stunned c) then
    start_attack c
  else c.

(** "Special Attack (disabled while stunned)". *)
Definition handle_special (input_state : PlayerInput) (c : Character) : Character :=
  if special input_state && negb (is_attacking c)
     && negb (is_special_attacking c) && negb (is_stunned c) then
    snd (start_special_attack c)
  else c.

Definition _handle_input (input_state : PlayerInput) (dt : Q) (c : Character)
  : Character :=
  if is_stunned c then
    let c := set_is_blocking false c in
    set_velocity_x 0 c
  else
    let c := handle_block input_state c in
    let c := handle_movement input_state c in
    let c := handle_jump input_state c in
    let c := handle_attack input_state c in
    handle_special input_state c.

(** [Character._update_physics], paragraph by paragraph. *)
Definition apply_gravity (dt : Q) (c : Character) : Character :=
  if negb (on_ground c) then set_velocity_y (velocity_y c + gravity * dt) c
  else c.

Definition update_position (dt : Q) (c : Character) : Character :=
  let c := set_x (x c + velocity_x c * dt) c in
  set_y (y c + velocity_y c * dt) c.

Definition ground_collision (c : Character) : Character :=
  if Qleb (ground_y c) (y c) then
    let c := set_y (ground_y c) c in
    let c := set_velocity_y 0 c in
    set_on_ground true c
  else c.

Definition screen_boundaries (c : Character) : Character :=
  let arena_left : Q := - (100) in
  let arena_right : Q := 900 in
  if Qltb (x c) arena_left then set_x arena_left c
  else if Qltb (arena_right - inject_Z (width c)) (x c) then
    set_x (arena_right - inject_Z (width c)) c
  else c.

Definition _update_physics (dt : Q) (c : Character) : Character :=
  let c := apply_gravity dt c in
  let c := update_position dt c in
  let c := ground_collision c in
  screen_boundaries c.

(** [Character._update_combat], paragraph by paragraph. *)
Definition tick_stun (dt : Q) (c : Character) : Character :=
  if is_stunned c then
    let c := set_stun_duration (stun_duration c - dt) c in
    if Qleb (stun_duration c) 0 then
      let c := set_is_stunned false c in
      set_is_blocking false c
    else c
  else c.

Definition tick_attack (dt : Q) (c : Character) : Character :=
  if is_attacking c then
    let c := set_attack_duration (attack_duration c - dt) c in
    if Qleb (attack_duration c) 0 then
      let c := set_is_attacking false c in
      set_attack_cooldown attack_cooldown_time c
    else c
  else c.

Definition tick_hit (dt : Q) (c : Character) : Character :=
  if is_hit c then
    let c := set_hit_duration (hit_duration c - dt) c in
    if Qleb (hit_duration c) 0 then set_is_hit false c else c
  else c.

Definition tick_special (dt : Q) (c : Character) : Character :=
  if is_special_attacking c then
    let c := set_special_attack_duration (special_attack_duration c - dt) c in
    if Qleb (special_attack_duration c) 0 then
      let c := set_is_special_attacking false c in
      set_special_attack_cooldown (special_attack_cooldown_time c) c
    else c
  else c.

Definition tick_cooldowns (dt : Q) (c : Character) : Character :=
  let c :=
    if Qltb 0 (attack_cooldown c) then
      set_attack_cooldown (py_max 0 (attack_cooldown c - dt)) c
    else c in
  if Qltb 0 (special_attack_cooldown c) then
    set_special_attack_cooldown (py_max 0 (special_attack_cooldown c - dt)) c
  else c.

Definition regen_stamina (dt : Q) (c : Character) : Character :=
  let c :=
    if negb (is_blocking c) && negb (is_stunned c)
       && Qltb (stamina c) max_stamina then
      set_stamina (py_min max_stamina (stamina c + stamina_regen_rate * dt)) c
    else c in
  if negb (is_blocking c) then set_last_block_time (last_block_time c + dt) c
  else c.

Definition _update_combat (dt : Q) (c : Character) : Character :=
  let c := tick_stun dt c in
  let c := tick_attack dt c in
  let c := tick_hit dt c in
  let c := tick_special dt c in
  let c := tick_cooldowns dt c in
  regen_stamina dt c.

(** [self.animator.play_animation(name, reset)] on a character. *)
Definition play (name : string) (reset : bool) (c : Character) : Character :=
  set_animator (play_animation name reset (animator c)) c.

(** The two hit-frame checks of [_update_animations]; each reads
    [self.animator.current_animation.current_frame]. *)
Definition check_attack_hit_frame (c : Character) : option Character :=
  if is_attacking c && String.eqb (current_animation_name (animator c)) "attack" then
    a <- current_object (animator c) ;;
    if Nat.leb attack_hit_frame (current_frame a) && negb (can_hit c) then
      Some (set_can_hit true c)
    else Some c
  else Some c.

Definition check_special_hit_frame (c : Character) : option Character :=
  if is_special_attacking c
     && String.eqb (current_animation_name (animator c)) "special_attack" then
    a <- current_object (animator c) ;;
    if Nat.leb special_attack_hit_frame (current_frame a)
       && negb (can_special_hit c) then
      Some (set_can_special_hit true c)
    else Some c
  else Some c.

(** The last part of [_update_animations]: the animation is chosen by the
    state of the character. *)
Definition choose_animation (c : Character) : Character :=
  if is_special_attacking c then
    if negb (Z.eqb (current_special_attack_id c) (last_special_attack_id c)) then
      let c := play "special_attack" true c in
      let c := set_last_special_attack_id (current_special_attack_id c) c in
      set_can_special_hit false c
    else c
  else if is_attacking c then
    if negb (Z.eqb (current_attack_id c) (last_attack_id c)) then
      let c := play "attack" true c in
      let c := set_last_attack_id (current_attack_id c) c in
      set_can_hit false c
    else c
  else if is_hit c then play "hit" false c
  else if is_stunned c then play "stun" false c
  else if is_blocking c then play "block" false c
  else if Qltb 10 (py_abs (velocity_x c)) then play "walk" false c
  else if negb (on_ground c) then play "jump" false c
  else play "idle" false c.

(** [Character._update_animations]. *)
Definition _update_animations (dt : Q) (c : Character) : option Character :=
  let c := set_animator (SpriteAnimator_update dt (animator c)) c in
  if is_dead c then
    if negb (String.eqb (current_animation_name (animator c)) "dead") then
      Some (play "dead" true c)
    else Some c
  else
    c <- check_attack_hit_frame c ;;
    c <- check_special_hit_frame c ;;
    Some (choose_animation c).

(** [Character.update]. *)
Definition update (dt : Q) (player_input : PlayerInput) (c : Character)
  : option Character :=
  if is_dead c then
    Some (set_animator (SpriteAnimator_update dt (animator c)) c)
  else
    let c := _handle_input player_input dt c in
    let c := _update_physics dt c in
    let c := _update_combat dt c in
    _update_animations dt c.

(** [Character.start_stun(duration)]; [None] stands for the default. *)
Definition start_stun (duration : option Q) (c : Character) : Character :=
  if is_dead c then c
  else
    let c := set_is_stunned true c in
    let c := set_is_blocking false c in
    let c := set_stun_duration
               (match duration with Some d => d | None => stun_time end) c in
    match lookup "stun" (animations (animator c)) with
    | Some _ => play "stun" true c
    | None =>
        match lookup "hit" (animations (animator c)) with
        | Some _ => play "hit" true c
        | None => c
        end
    end.

(** The test at the head of [take_damage]: blocking, alive and facing the
    attacker. *)
Definition is_effective_block (attacker_x : Q) (c : Character) : bool :=
  if is_blocking c && negb (is_dead c) then
    if facing_right c && Qltb (x c) attacker_x then true
    else if negb (facing_right c) && Qltb attacker_x (x c) then true
    else false
  else false.

(** [Character.take_damage(damage, attacker_x)]: the returned flag and the
    character afterwards. *)
Definition take_damage (damage : Z) (attacker_x : Q) (c : Character)
  : bool * Character :=
  if is_effective_block attacker_x c then (false, c)
  else if negb (is_dead c) then
    let c := set_health (Z.max 0 (health c - damage)) c in
    if (health c <=? 0)%Z then
      let c := set_is_dead true c in
      (true, play "dead" true c)
    else
      let c := set_is_hit true c in
      let c := set_hit_duration hit_animation_time c in
      (true, play "hit" true c)
  else (false, c).

(** [Character.is_death_animation_finished]. *)
Definition is_death_animation_finished (c : Character) : option bool :=
  if negb (is_dead c) then Some false
  else if String.eqb (current_animation_name (animator c)) "dead" then
    a <- current_object (animator c) ;; Some (Animation_is_finished a)
  else Some false.

(** [pygame.Rect]: integer position and size. *)
Record Rect : Type := mkRect {
  rect_x : Z;
  rect_y : Z;
  rect_w : Z;
  rect_h : Z
}.

(** [pygame.Rect(x, y, w, h)] with float coordinates. *)
Definition Rect_of (px py : Q) (w h : Z) : Rect :=
  mkRect (Qtrunc px) (Qtrunc py) w h.

(** [Rect.colliderect] for rectangles of positive size. *)
Definition colliderect (a b : Rect) : bool :=
  (rect_x a <? rect_x b + rect_w b)%Z && (rect_y a <? rect_y b + rect_h b)%Z
  && (rect_x b <? rect_x a + rect_w a)%Z && (rect_y b <? rect_y a + rect_h a)%Z.

(** [Character.get_attack_rect]. *)
Definition get_attack_rect (c : Character) : option Rect :=
  if negb (is_attacking c) || negb (can_hit c) then None
  else
    let attack_width := 25%Z in
    let attack_height := 15%Z in
    let attack_x :=
      if facing_right c then x c + inject_Z (width c)
      else x c - inject_Z attack_width in
    let attack_y := y c + inject_Z (height c / 2) - inject_Z (attack_height / 2) in
    Some (Rect_of attack_x attack_y attack_width attack_height).

(** [Character.get_special_attack_rect]. *)
Definition get_special_attack_rect (c : Character) : option Rect :=
  if negb (is_special_attacking c) || negb (can_special_hit c) then None
  else
    let attack_width := 40%Z in
    let attack_height := 25%Z in
    let attack_x :=
      if facing_right c then x c + inject_Z (width c)
      else x c - inject_Z attack_width in
    let attack_y := y c + inject_Z (height c / 2) - inject_Z (attack_height / 2) in
    Some (Rect_of attack_x attack_y attack_width attack_height).

(** [Character.get_rect]. *)
Definition get_rect (c : Character) : Rect :=
  Rect_of (x c) (y c) (width c) (height c).

(** ** scenes.py *)

Local Open Scope string_scope.

(** [Character.update] under the name the scenes call it by. *)
Definition Character_update := update.

(** The keys of the [KEYDOWN] events that the dialogue handlers tell
    apart. *)
Inductive Key : Type :=
  | K_1 | K_2 | K_UP | K_DOWN | K_RETURN | K_SPACE | K_ESCAPE | K_other.

(** [FightScene]: player against the AI twin, first to 3 wins. *)
Module FightScene.

Record t : Type := mk {
  player1 : Character;
  player2 : Character;
  player_wins : Z;
  ai_wins : Z;
  current_round : Z;
  round_time : Q;
  round_over : bool;
  round_winner : option string;
  match_over : bool;
  match_winner : option string;
  round_end_timer : Q;
  is_paused : bool;
  pause_blink_timer : Q;
  showing_dialogue : bool;
  dialogue_phase : string;
  dialogue_timer : Q;
  selected_choice : Z;
  player_choice : option string;
  dialogue_complete : bool
}.

Definition set_player1 (v : Character) (s : t) : t :=
  mk v (player2 s) (player_wins s) (ai_wins s) (current_round s) (round_time s) (round_over s)
  (round_winner s) (match_over s) (match_winner s) (round_end_timer s) (is_paused s)
  (pause_blink_timer s) (showing_dialogue s) (dialogue_phase s) (dialogue_timer s)
  (selected_choice s) (player_choice s) (dialogue_complete s).
Definition set_player2 (v : Character) (s : t) : t :=
  mk (player1 s) v (player_wins s) (ai_wins s) (current_round s) (round_time s) (round_over s)
  (round_winner s) (match_over s) (match_winner s) (round_end_timer s) (is_paused s)
  (pause_blink_timer s) (showing_dialogue s) (dialogue_phase s) (dialogue_timer s)
  (selected_choice s) (player_choice s) (dialogue_complete s).
Definition set_player_wins (v : Z) (s : t) : t :=
  mk (player1 s) (player2 s) v (ai_wins s) (current_round s) (round_time s) (round_over s)
  (round_winner s) (match_over s) (match_winner s) (round_end_timer s) (is_paused s)
  (pause_blink_timer s) (showing_dialogue s) (dialogue_phase s) (dialogue_timer s)
  (selected_choice s) (player_choice s) (dialogue_complete s).
Definition set_ai_wins (v : Z) (s : t) : t :=
  mk (player1 s) (player2 s) (player_wins s) v (current_round s) (round_time s) (round_over s)
  (round_winner s) (match_over s) (match_winner s) (round_end_timer s) (is_paused s)
  (pause_blink_timer s) (showing_dialogue s) (dialogue_phase s) (dialogue_timer s)
  (selected_choice s) (player_choice s) (dialogue_complete s).
Definition set_current_round (v : Z) (s : t) : t :=
  mk (player1 s) (player2 s) (player_wins s) (ai_wins s) v (round_time s) (round_over s)
  (round_winner s) (match_over s) (match_winner s) (round_end_timer s) (is_paused s)
  (pause_blink_timer s) (showing_dialogue s) (dialogue_phase s) (dialogue_timer s)
  (selected_choice s) (player_choice s) (dialogue_complete s).
Definition set_round_time (v : Q) (s : t) : t :=
  mk (player1 s) (player2 s) (player_wins s) (ai_wins s) (current_round s) v (round_over s)
  (round_winner s) (match_over s) (match_winner s) (round_end_timer s) (is_paused s)
  (pause_blink_timer s) (showing_dialogue s) (dialogue_phase s) (dialogue_timer s)
  (selected_choice s) (player_choice s) (dialogue_complete s).
Definition set_round_over (v : bool) (s : t) : t :=
  mk (player1 s) (player2 s) (player_wins s) (ai_wins s) (current_round s) (round_time s) v
  (round_winner s) (match_over s) (match_winner s) (round_end_timer s) (is_paused s)
  (pause_blink_timer s) (showing_dialogue s) (dialogue_phase s) (dialogue_timer s)
  (selected_choice s) (player_choice s) (dialogue_complete s).
Definition set_round_winner (v : option string) (s : t) : t :=
  mk (player1 s) (player2 s) (player_wins s) (ai_wins s) (current_round s) (round_time s)
  (round_over s) v (match_over s) (match_winner s) (round_end_timer s) (is_paused s)
  (pause_blink_timer s) (showing_dialogue s) (dialogue_phase s) (dialogue_timer s)
  (selected_choice s) (player_choice s) (dialogue_complete s).
Definition set_match_over (v : bool) (s : t) : t :=
  mk (player1 s) (player2 s) (player_wins s) (ai_wins s) (current_round s) (round_time s)
  (round_over s) (round_winner s) v (match_winner s) (round_end_timer s) (is_paused s)
  (pause_blink_timer s) (showing_dialogue s) (dialogue_phase s) (dialogue_timer s)
  (selected_choice s) (player_choice s) (dialogue_complete s).
Definition set_match_winner (v : option string) (s : t) : t :=
  mk (player1 s) (player2 s) (player_wins s) (ai_wins s) (current_round s) (round_time s)
  (round_over s) (round_winner s) (match_over s) v (round_end_timer s) (is_paused s)
  (pause_blink_timer s) (showing_dialogue s) (dialogue_phase s) (dialogue_timer s)
  (selected_choice s) (player_choice s) (dialogue_complete s).
Definition set_round_end_timer (v : Q) (s : t) : t :=
  mk (player1 s) (player2 s) (player_wins s) (ai_wins s) (current_round s) (round_time s)
  (round_over s) (round_winner s) (match_over s) (match_winner s) v (is_paused s)
  (pause_blink_timer s) (showing_dialogue s) (dialogue_phase s) (dialogue_timer s)
  (selected_choice s) (player_choice s) (dialogue_complete s).
Definition set_is_paused (v : bool) (s : t) : t :=
  mk (player1 s) (player2 s) (player_wins s) (ai_wins s) (current_round s) (round_time s)
  (round_over s) (round_winner s) (match_over s) (match_winner s) (round_end_timer s) v
  (pause_blink_timer s) (showing_dialogue s) (dialogue_phase s) (dialogue_timer s)
  (selected_choice s) (player_choice s) (dialogue_complete s).
Definition set_pause_blink_timer (v : Q) (s : t) : t :=
  mk (player1 s) (player2 s) (player_wins s) (ai_wins s) (current_round s) (round_time s)
  (round_over s) (round_winner s) (match_over s) (match_winner s) (round_end_timer s) (is_paused
  s) v (showing_dialogue s) (dialogue_phase s) (dialogue_timer s) (selected_choice s)
  (player_choice s) (dialogue_complete s).
Definition set_showing_dialogue (v : bool) (s : t) : t :=
  mk (player1 s) (player2 s) (player_wins s) (ai_wins s) (current_round s) (round_time s)
  (round_over s) (round_winner s) (match_over s) (match_winner s) (round_end_timer s) (is_paused
  s) (pause_blink_timer s) v (dialogue_phase s) (dialogue_timer s) (selected_choice s)
  (player_choice s) (dialogue_complete s).
Definition set_dialogue_phase (v : string) (s : t) : t :=
  mk (player1 s) (player2 s) (player_wins s) (ai_wins s) (current_round s) (round_time s)
  (round_over s) (round_winner s) (match_over s) (match_winner s) (round_end_timer s) (is_paused
  s) (pause_blink_timer s) (showing_dialogue s) v (dialogue_timer s) (selected_choice s)
  (player_choice s) (dialogue_complete s).
Definition set_dialogue_timer (v : Q) (s : t) : t :=
  mk (player1 s) (player2 s) (player_wins s) (ai_wins s) (current_round s) (round_time s)
  (round_over s) (round_winner s) (match_over s) (match_winner s) (round_end_timer s) (is_paused
  s) (pause_blink_timer s) (showing_dialogue s) (dialogue_phase s) v (selected_choice s)
  (player_choice s) (dialogue_complete s).
Definition set_selected_choice (v : Z) (s : t) : t :=
  mk (player1 s) (player2 s) (player_wins s) (ai_wins s) (current_round s) (round_time s)
  (round_over s) (round_winner s) (match_over s) (match_winner s) (round_end_timer s) (is_paused
  s) (pause_blink_timer s) (showing_dialogue s) (dialogue_phase s) (dialogue_timer s) v
  (player_choice s) (dialogue_complete s).
Definition set_player_choice (v : option string) (s : t) : t :=
  mk (player1 s) (player2 s) (player_wins s) (ai_wins s) (current_round s) (round_time s)
  (round_over s) (round_winner s) (match_over s) (match_winner s) (round_end_timer s) (is_paused
  s) (pause_blink_timer s) (showing_dialogue s) (dialogue_phase s) (dialogue_timer s)
  (selected_choice s) v (dialogue_complete s).
Definition set_dialogue_complete (v : bool) (s : t) : t :=
  mk (player1 s) (player2 s) (player_wins s) (ai_wins s) (current_round s) (round_time s)
  (round_over s) (round_winner s) (match_over s) (match_winner s) (round_end_timer s) (is_paused
  s) (pause_blink_timer s) (showing_dialogue s) (dialogue_phase s) (dialogue_timer s)
  (selected_choice s) (player_choice s) v.
(** Attributes set once by [__init__]. *)
Definition wins_needed : Z := 3.
Definition round_end_duration : Q := 5 # 2.

(** [FightScene.__init__]. *)
Definition init (assets : SpriteAssets) : t :=
  {| player1 := Samurai1 assets 150 335;
     player2 := Samurai2 assets 600 335;
     player_wins := 0; ai_wins := 0; current_round := 1;
     round_time := 99; round_over := false; round_winner := None;
     match_over := false; match_winner := None; round_end_timer := 0;
     is_paused := false; pause_blink_timer := 0;
     showing_dialogue := false; dialogue_phase := "threat";
     dialogue_timer := 0; selected_choice := 0; player_choice := None;
     dialogue_complete := false |}.

(** [FightScene.update_pause]. *)
Definition update_pause (dt : Q) (paused : bool) (s : t) : t :=
  let s := set_is_paused paused s in
  if is_paused s then set_pause_blink_timer (pause_blink_timer s + dt) s else s.

(** One [KEYDOWN] event of [handle_dialogue_input]. *)
Definition handle_dialogue_key (k : Key) (s : t) : t :=
  if String.eqb (dialogue_phase s) "choices" then
    match k with
    | K_1 | K_UP => set_selected_choice 0 s
    | K_2 | K_DOWN => set_selected_choice 1 s
    | K_RETURN | K_SPACE =>
        let s := set_player_choice
                   (Some (if Z.eqb (selected_choice s) 0 then "spare" else "finish")%string) s in
        let s := set_dialogue_phase "outcome" s in
        set_dialogue_timer 0 s
    | _ => s
    end
  else if String.eqb (dialogue_phase s) "outcome" then
    match k with
    | K_SPACE | K_RETURN => set_dialogue_complete true s
    | _ => s
    end
  else s.

(** [FightScene.handle_dialogue_input]. *)
Definition handle_dialogue_input (events : list Key) (s : t) : t :=
  if negb (showing_dialogue s) then s
  else fold_left (fun s k => handle_dialogue_key k s) events s.

(** [FightScene.update_dialogue]. *)
Definition update_dialogue (dt : Q) (s : t) : t :=
  if negb (showing_dialogue s) then s
  else
    let s := set_dialogue_timer (dialogue_timer s + dt) s in
    let s :=
      if String.eqb (dialogue_phase s) "threat" && Qleb 3 (dialogue_timer s) then
        let s := set_dialogue_phase "choices" s in
        set_dialogue_timer 0 s
      else s in
    if dialogue_complete s then
      let s := set_match_over true s in
      let s := set_match_winner (Some "Player") s in
      set_showing_dialogue false s
    else s.

(** [FightScene._handle_combat], one definition for each of its four hit
    tests. *)
Definition p1_attack_hits (s : t) : t :=
  match get_attack_rect (player1 s) with
  | Some p1_attack =>
      if colliderect p1_attack (get_rect (player2 s)) then
        let damage := if god_mode (player1 s) then 100%Z else 3%Z in
        let '(hit, p2) := take_damage damage (x (player1 s)) (player2 s) in
        let s := set_player2 p2 s in
        if hit then set_player1 (set_can_hit false (player1 s)) s else s
      else s
  | None => s
  end.

Definition p1_special_attack_hits (s : t) : t :=
  match get_special_attack_rect (player1 s) with
  | Some p1_special_attack =>
      if colliderect p1_special_attack (get_rect (player2 s)) then
        let damage := if god_mode (player1 s) then 100%Z else 8%Z in
        let '(hit, p2) := take_damage damage (x (player1 s)) (player2 s) in
        let s := set_player2 p2 s in
        if hit then set_player1 (set_can_special_hit false (player1 s)) s else s
      else s
  | None => s
  end.

Definition p2_attack_hits (s : t) : t :=
  match get_attack_rect (player2 s) with
  | Some p2_attack =>
      if colliderect p2_attack (get_rect (player1 s)) then
        let '(hit, p1) := take_damage 3 (x (player2 s)) (player1 s) in
        let s := set_player1 p1 s in
        if hit then set_player2 (set_can_hit false (player2 s)) s else s
      else s
  | None => s
  end.

Definition p2_special_attack_hits (s : t) : t :=
  match get_special_attack_rect (player2 s) with
  | Some p2_special_attack =>
      if colliderect p2_special_attack (get_rect (player1 s)) then
        let '(hit, p1) := take_damage 8 (x (player2 s)) (player1 s) in
        let s := set_player1 p1 s in
        if hit then set_player2 (set_can_special_hit false (player2 s)) s else s
      else s
  | None => s
  end.

Definition _handle_combat (s : t) : t :=
  let s := p1_attack_hits s in
  let s := p1_special_attack_hits s in
  let s := p2_attack_hits s in
  p2_special_attack_hits s.

(** [FightScene._end_round(result)]. *)
Definition _end_round (result : string) (s : t) : t :=
  let s := set_round_over true s in
  let s := set_round_end_timer 0 s in
  let s :=
    if String.eqb result "player_win" then
      let s := set_round_winner (Some "Player") s in
      set_player_wins (player_wins s + 1)%Z s
    else if String.eqb result "ai_win" then
      let s := set_round_winner (Some "Evil Twin") s in
      set_ai_wins (ai_wins s + 1)%Z s
    else if String.eqb result "time" then
      if (health (player2 s) <? health (player1 s))%Z then
        let s := set_round_winner (Some "Player") s in
        set_player_wins (player_wins s + 1)%Z s
      else if (health (player1 s) <? health (player2 s))%Z then
        let s := set_round_winner (Some "Evil Twin") s in
        set_ai_wins (ai_wins s + 1)%Z s
      else set_round_winner (Some "Draw") s
    else s in
  if (wins_needed <=? player_wins s)%Z then
    let s := set_showing_dialogue true s in
    let s := set_dialogue_phase "threat" s in
    set_dialogue_timer 0 s
  else if (wins_needed <=? ai_wins s)%Z then
    let s := set_match_over true s in
    set_match_winner (Some "Evil Twin") s
  else s.

(** The assignments of [_start_new_round] to one character; only the
    spawn abscissa differs between the two. *)
Definition reset_character (x0 : Q) (c : Character) : Character :=
  let c := set_x x0 c in
  let c := set_y 335 c in
  let c := set_health max_health c in
  let c := set_velocity_x 0 c in
  let c := set_velocity_y 0 c in
  let c := set_is_attacking false c in
  let c := set_is_blocking false c in
  let c := set_attack_cooldown 0 c in
  let c := set_on_ground true c in
  set_is_dead false c.

(** [FightScene._start_new_round]. *)
Definition _start_new_round (s : t) : t :=
  if match_over s then s
  else
    let s := set_current_round (current_round s + 1)%Z s in
    let s := set_round_over false s in
    let s := set_round_winner None s in
    let s := set_round_time 99 s in
    let s := set_player1 (reset_character 0 (player1 s)) s in
    set_player2 (reset_character 600 (player2 s)) s.

(** The knock-out test that closes [update]. *)
Definition check_knockout (s : t) : option t :=
  if (health (player1 s) <=? 0)%Z && negb (is_dead (player1 s)) then Some s
  else if (health (player2 s) <=? 0)%Z && negb (is_dead (player2 s)) then Some s
  else
    f1 <- (if is_dead (player1 s) then is_death_animation_finished (player1 s)
           else Some false) ;;
    if f1 then Some (_end_round "ai_win" s)
    else
      f2 <- (if is_dead (player2 s) then is_death_animation_finished (player2 s)
             else Some false) ;;
      if f2 then Some (_end_round "player_win" s) else Some s.

(** [FightScene.update]. *)
Definition update (dt : Q) (player1_input player2_input : PlayerInput) (s : t)
  : option t :=
  if match_over s then Some s
  else if round_over s then
    let s := set_round_end_timer (round_end_timer s + dt) s in
    p1 <- Character_update dt player1_input (player1 s) ;;
    let s := set_player1 p1 s in
    p2 <- Character_update dt player2_input (player2 s) ;;
    let s := set_player2 p2 s in
    if Qleb round_end_duration (round_end_timer s) then Some (_start_new_round s)
    else Some s
  else
    p1 <- Character_update dt player1_input (player1 s) ;;
    let s := set_player1 p1 s in
    p2 <- Character_update dt player2_input (player2 s) ;;
    let s := set_player2 p2 s in
    let s := _handle_combat s in
    let s := set_round_time (round_time s - dt) s in
    let s :=
      if Qleb (round_time s) 0 then
        let s := set_round_time 0 s in
        _end_round "time" s
      else s in
    check_knockout s.

(** A run of ticks, each with its [dt] and the two intents. *)
Fixpoint run (ticks : list (Q * PlayerInput * PlayerInput)) (s : t) : option t :=
  match ticks with
  | [] => Some s
  | (dt, i1, i2) :: rest => s' <- update dt i1 i2 s ;; run rest s'
  end.

End FightScene.

(** [Level2Scene]: player against the Yellow Ninja.  [ground_image] tells
    whether the ground image was loaded ([self.ground_image is not None]). *)
Module Level2Scene.

Record t : Type := mk {
  player1 : Character;
  player2 : Character;
  player_wins : Z;
  ai_wins : Z;
  current_round : Z;
  round_time : Q;
  round_over : bool;
  round_winner : option string;
  match_over : bool;
  match_winner : option string;
  round_end_timer : Q;
  is_paused : bool;
  pause_blink_timer : Q;
  showing_dialogue : bool;
  dialogue_timer : Q;
  dialogue_complete : bool;
  ground_image : bool;
  ground_top_y : Q
}.

Definition set_player1 (v : Character) (s : t) : t :=
  mk v (player2 s) (player_wins s) (ai_wins s) (current_round s) (round_time s) (round_over s)
  (round_winner s) (match_over s) (match_winner s) (round_end_timer s) (is_paused s)
  (pause_blink_timer s) (showing_dialogue s) (dialogue_timer s) (dialogue_complete s)
  (ground_image s) (ground_top_y s).
Definition set_player2 (v : Character) (s : t) : t :=
  mk (player1 s) v (player_wins s) (ai_wins s) (current_round s) (round_time s) (round_over s)
  (round_winner s) (match_over s) (match_winner s) (round_end_timer s) (is_paused s)
  (pause_blink_timer s) (showing_dialogue s) (dialogue_timer s) (dialogue_complete s)
  (ground_image s) (ground_top_y s).
Definition set_player_wins (v : Z) (s : t) : t :=
  mk (player1 s) (player2 s) v (ai_wins s) (current_round s) (round_time s) (round_over s)
  (round_winner s) (match_over s) (match_winner s) (round_end_timer s) (is_paused s)
  (pause_blink_timer s) (showing_dialogue s) (dialogue_timer s) (dialogue_complete s)
  (ground_image s) (ground_top_y s).
Definition set_ai_wins (v : Z) (s : t) : t :=
  mk (player1 s) (player2 s) (player_wins s) v (current_round s) (round_time s) (round_over s)
  (round_winner s) (match_over s) (match_winner s) (round_end_timer s) (is_paused s)
  (pause_blink_timer s) (showing_dialogue s) (dialogue_timer s) (dialogue_complete s)
  (ground_image s) (ground_top_y s).
Definition set_current_round (v : Z) (s : t) : t :=
  mk (player1 s) (player2 s) (player_wins s) (ai_wins s) v (round_time s) (round_over s)
  (round_winner s) (match_over s) (match_winner s) (round_end_timer s) (is_paused s)
  (pause_blink_timer s) (showing_dialogue s) (dialogue_timer s) (dialogue_complete s)
  (ground_image s) (ground_top_y s).
Definition set_round_time (v : Q) (s : t) : t :=
  mk (player1 s) (player2 s) (player_wins s) (ai_wins s) (current_round s) v (round_over s)
  (round_winner s) (match_over s) (match_winner s) (round_end_timer s) (is_paused s)
  (pause_blink_timer s) (showing_dialogue s) (dialogue_timer s) (dialogue_complete s)
  (ground_image s) (ground_top_y s).
Definition set_round_over (v : bool) (s : t) : t :=
  mk (player1 s) (player2 s) (player_wins s) (ai_wins s) (current_round s) (round_time s) v
  (round_winner s) (match_over s) (match_winner s) (round_end_timer s) (is_paused s)
  (pause_blink_timer s) (showing_dialogue s) (dialogue_timer s) (dialogue_complete s)
  (ground_image s) (ground_top_y s).
Definition set_round_winner (v : option string) (s : t) : t :=
  mk (player1 s) (player2 s) (player_wins s) (ai_wins s) (current_round s) (round_time s)
  (round_over s) v (match_over s) (match_winner s) (round_end_timer s) (is_paused s)
  (pause_blink_timer s) (showing_dialogue s) (dialogue_timer s) (dialogue_complete s)
  (ground_image s) (ground_top_y s).
Definition set_match_over (v : bool) (s : t) : t :=
  mk (player1 s) (player2 s) (player_wins s) (ai_wins s) (current_round s) (round_time s)
  (round_over s) (round_winner s) v (match_winner s) (round_end_timer s) (is_paused s)
  (pause_blink_timer s) (showing_dialogue s) (dialogue_timer s) (dialogue_complete s)
  (ground_image s) (ground_top_y s).
Definition set_match_winner (v : option string) (s : t) : t :=
  mk (player1 s) (player2 s) (player_wins s) (ai_wins s) (current_round s) (round_time s)
  (round_over s) (round_winner s) (match_over s) v (round_end_timer s) (is_paused s)
  (pause_blink_timer s) (showing_dialogue s) (dialogue_timer s) (dialogue_complete s)
  (ground_image s) (ground_top_y s).
Definition set_round_end_timer (v : Q) (s : t) : t :=
  mk (player1 s) (player2 s) (player_wins s) (ai_wins s) (current_round s) (round_time s)
  (round_over s) (round_winner s) (match_over s) (match_winner s) v (is_paused s)
  (pause_blink_timer s) (showing_dialogue s) (dialogue_timer s) (dialogue_complete s)
  (ground_image s) (ground_top_y s).
Definition set_is_paused (v : bool) (s : t) : t :=
  mk (player1 s) (player2 s) (player_wins s) (ai_wins s) (current_round s) (round_time s)
  (round_over s) (round_winner s) (match_over s) (match_winner s) (round_end_timer s) v
  (pause_blink_timer s) (showing_dialogue s) (dialogue_timer s) (dialogue_complete s)
  (ground_image s) (ground_top_y s).
Definition set_pause_blink_timer (v : Q) (s : t) : t :=
  mk (player1 s) (player2 s) (player_wins s) (ai_wins s) (current_round s) (round_time s)
  (round_over s) (round_winner s) (match_over s) (match_winner s) (round_end_timer s) (is_paused
  s) v (showing_dialogue s) (dialogue_timer s) (dialogue_complete s) (ground_image s)
  (ground_top_y s).
Definition set_showing_dialogue (v : bool) (s : t) : t :=
  mk (player1 s) (player2 s) (player_wins s) (ai_wins s) (current_round s) (round_time s)
  (round_over s) (round_winner s) (match_over s) (match_winner s) (round_end_timer s) (is_paused
  s) (pause_blink_timer s) v (dialogue_timer s) (dialogue_complete s) (ground_image s)
  (ground_top_y s).
Definition set_dialogue_timer (v : Q) (s : t) : t :=
  mk (player1 s) (player2 s) (player_wins s) (ai_wins s) (current_round s) (round_time s)
  (round_over s) (round_winner s) (match_over s) (match_winner s) (round_end_timer s) (is_paused
  s) (pause_blink_timer s) (showing_dialogue s) v (dialogue_complete s) (ground_image s)
  (ground_top_y s).
Definition set_dialogue_complete (v : bool) (s : t) : t :=
  mk (player1 s) (player2 s) (player_wins s) (ai_wins s) (current_round s) (round_time s)
  (round_over s) (round_winner s) (match_over s) (match_winner s) (round_end_timer s) (is_paused
  s) (pause_blink_timer s) (showing_dialogue s) (dialogue_timer s) v (ground_image s)
  (ground_top_y s).
(** Attributes set once by [__init__]. *)
Definition wins_needed : Z := 3.
Definition round_end_duration : Q := 5 # 2.
Definition spawn_offset_player : Q := 300.
Definition spawn_offset_enemy : Q := 265.
Definition arena_left : Q := - (100).
Definition arena_right : Q := 900.

(** [Level2Scene._is_facing_target]. *)
Definition _is_facing_target (attacker target : Character) : bool :=
  if facing_right attacker && Qltb (x attacker) (x target) then true
  else if negb (facing_right attacker) && Qltb (x target) (x attacker) then true
  else false.

(** [Level2Scene._deal_damage]. *)
Definition _deal_damage (damage : Z) (target : Character) : Character :=
  let target := set_health (Z.max 0 (health target - damage)) target in
  let target := set_is_hit true target in
  let target := set_hit_duration hit_animation_time target in
  if (health target <=? 0)%Z then set_is_dead true target else target.

(** The blocker's side of a blocked attack in [_check_collisions]. *)
Definition block_cost (blocker : Character) : Character :=
  let blocker := set_stamina (py_max 0 (stamina blocker - 50)) blocker in
  if Qleb (stamina blocker) 0 then start_stun None blocker else blocker.

(** [Level2Scene._check_collisions]: the two tests; [distance] is computed
    once, before both. *)
Definition player1_attacks (distance : Q) (s : t) : t :=
  if is_attacking (player1 s) && can_hit (player1 s) && Qltb distance 60
     && _is_facing_target (player1 s) (player2 s) then
    if is_blocking (player2 s) then
      let s := set_player1 (set_can_hit false (player1 s)) s in
      set_player2 (block_cost (player2 s)) s
    else
      let damage := if negb (god_mode (player1 s)) then 25%Z else 100%Z in
      let s := set_player2 (_deal_damage damage (player2 s)) s in
      set_player1 (set_can_hit false (player1 s)) s
  else s.

Definition player2_attacks (distance : Q) (s : t) : t :=
  if is_attacking (player2 s) && can_hit (player2 s) && Qltb distance 60
     && _is_facing_target (player2 s) (player1 s) then
    if is_blocking (player1 s) then
      let s := set_player2 (set_can_hit false (player2 s)) s in
      set_player1 (block_cost (player1 s)) s
    else
      let damage := 25%Z in
      let s := set_player1 (_deal_damage damage (player1 s)) s in
      set_player2 (set_can_hit false (player2 s)) s
  else s.

Definition _check_collisions (s : t) : t :=
  let distance := py_abs (x (player1 s) - x (player2 s)) in
  let s := player1_attacks distance s in
  player2_attacks distance s.

(** [Level2Scene._end_round(reason)]. *)
Definition _end_round (reason : string) (s : t) : t :=
  let s := set_round_over true s in
  let s := set_round_end_timer 0 s in
  let s :=
    if String.eqb reason "player_wins" then
      let s := set_round_winner (Some "Player") s in
      set_player_wins (player_wins s + 1)%Z s
    else if String.eqb reason "ai_wins" then
      let s := set_round_winner (Some "Yellow Ninja") s in
      set_ai_wins (ai_wins s + 1)%Z s
    else
      if (health (player2 s) <? health (player1 s))%Z then
        let s := set_round_winner (Some "Player") s in
        set_player_wins (player_wins s + 1)%Z s
      else if (health (player1 s) <? health (player2 s))%Z then
        let s := set_round_winner (Some "Block Enemy") s in
        set_ai_wins (ai_wins s + 1)%Z s
      else set_round_winner (Some "Draw") s in
  if (wins_needed <=? player_wins s)%Z then
    let s := set_match_over true s in
    let s := set_match_winner (Some "Player") s in
    let s := set_dialogue_timer 0 s in
    set_showing_dialogue true s
  else if (wins_needed <=? ai_wins s)%Z then
    let s := set_match_over true s in
    set_match_winner (Some "Yellow Ninja") s
  else s.

(** The assignments of [_start_next_round] to one character once its
    position is set.  The source also assigns [stun_timer = 0.0], an
    attribute that no other code reads. *)
Definition reset_state (c : Character) : Character :=
  let c := set_health max_health c in
  let c := set_velocity_x 0 c in
  let c := set_velocity_y 0 c in
  let c := set_is_attacking false c in
  let c := set_is_blocking false c in
  let c := set_attack_cooldown 0 c in
  let c := set_on_ground true c in
  let c := set_is_dead false c in
  let c := set_is_hit false c in
  let c := set_stamina max_stamina c in
  set_is_stunned false c.

(** [Level2Scene._start_next_round]. *)
Definition _start_next_round (s : t) : t :=
  let s := set_current_round (current_round s + 1)%Z s in
  let s := set_round_over false s in
  let s := set_round_winner None s in
  let s := set_round_time 99 s in
  let p1 := set_x 0 (player1 s) in
  let p1 :=
    if ground_image s then
      let p1 := set_ground_y
                  (ground_top_y s + spawn_offset_player - inject_Z (height p1)) p1 in
      set_y (ground_y p1) p1
    else
      let p1 := set_ground_y (335 + spawn_offset_player) p1 in
      set_y (ground_y p1) p1 in
  let s := set_player1 (reset_state p1) s in
  let p2 := set_x 600 (player2 s) in
  let p2 :=
    if ground_image s then
      set_y (ground_top_y s + spawn_offset_enemy - inject_Z (height p2)) p2
    else set_y (335 + spawn_offset_enemy) p2 in
  set_player2 (reset_state p2) s.

Section Update.

(** [YellowNinja.update(dt, gravity, ground_y, opponent, arena_left,
    arena_right)] draws random numbers to decide; the scene is modelled
    over any such update, the draw of the tick being its first argument. *)
Variable Draw : Type.
Variable YellowNinja_update :
  Draw -> Q -> Q -> Q -> Character -> Q -> Q -> Character -> option Character.

(** [Level2Scene.update]. *)
Definition update (draw : Draw) (dt : Q) (player1_input : option PlayerInput)
    (s : t) : option t :=
  if showing_dialogue s then Some (set_dialogue_timer (dialogue_timer s + dt) s)
  else if is_paused s then Some (set_pause_blink_timer (pause_blink_timer s + dt) s)
  else if match_over s then Some s
  else if round_over s then
    let s := set_round_end_timer (round_end_timer s + dt) s in
    if Qleb round_end_duration (round_end_timer s) then Some (_start_next_round s)
    else Some s
  else
    let s := set_round_time (round_time s - dt) s in
    if Qleb (round_time s) 0 then
      let s := set_round_time 0 s in
      Some (_end_round "timeout" s)
    else
      p1 <- Character_update dt
              (match player1_input with Some i => i | None => PlayerInput_init end)
              (player1 s) ;;
      let s := set_player1 p1 s in
      let enemy_ground_y :=
        if ground_image s then
          ground_top_y s + spawn_offset_enemy - inject_Z (height (player2 s))
        else 335 + spawn_offset_enemy in
      p2 <- YellowNinja_update draw dt 2000 enemy_ground_y (player1 s)
              arena_left arena_right (player2 s) ;;
      let s := set_player2 p2 s in
      let s := _check_collisions s in
      if is_dead (player1 s) && negb (round_over s) then
        Some (_end_round "ai_wins" s)
      else if is_dead (player2 s) && negb (round_over s) then
        Some (_end_round "player_wins" s)
      else Some s.

End Update.

End Level2Scene.

(** ** Vocabulary of the properties *)

Local Open Scope Q_scope.

(** The defender faces the attacker: facing right with the attacker to the
    right, or facing left with the attacker to the left. *)
Definition facing_attacker (attacker_x : Q) (c : Character) : Prop :=
  (facing_right c = true /\ x c < attacker_x)
  \/ (facing_right c = false /\ attacker_x < x c).

(** The state invariant behind the terminal [dead] state: a dead combatant
    has no health left. *)
Definition dead_has_no_health (c : Character) : Prop :=
  is_dead c = true -> health c = 0%Z.

(** Sprite sheets with idle frames of 32 by 32 pixels (a collision box of
    64 by 64) and four hit frames, for the concrete runs. *)
Definition demo_assets : SpriteAssets := mkSpriteAssets 32 32 4.

(** An animator is in order when it has a current animation and every
    name, like the current animation, refers to an object of the store. *)
Definition animator_okb (sa : SpriteAnimator) : bool :=
  match current_animation sa with
  | Some id => Nat.ltb id (List.length (store sa))
  | None => false
  end
  && forallb (fun p => Nat.ltb (snd p) (List.length (store sa))) (animations sa).

(** Health and stamina within their ranges. *)
Definition in_bounds (c : Character) : Prop :=
  (0 <= health c <= max_health)%Z /\ 0 <= stamina c /\ stamina c <= max_stamina.

(** The operations a combatant undergoes: a tick of [update], or a call
    of [take_damage] by the combat mediator. *)
Inductive Op : Type :=
  | Update_op (dt : Q) (input : PlayerInput)
  | TakeDamage_op (amount : Z) (attacker_x : Q).

Definition apply_op (o : Op) (c : Character) : option Character :=
  match o with
  | Update_op dt input => update dt input c
  | TakeDamage_op amount attacker_x => Some (snd (take_damage amount attacker_x c))
  end.

Fixpoint apply_ops (ops : list Op) (c : Character) : option Character :=
  match ops with
  | [] => Some c
  | o :: rest => c' <- apply_op o c ;; apply_ops rest c'
  end.

(** Ticks have [dt >= 0] and damage amounts are not negative. *)
Definition valid_op (o : Op) : Prop :=
  match o with
  | Update_op dt _ => 0 <= dt
  | TakeDamage_op amount _ => (0 <= amount)%Z
  end.

(** Stamina within its range. *)
Definition stamina_ok (c : Character) : Prop :=
  0 <= stamina c /\ stamina c <= max_stamina.

(** The fields that [_update_animations] may assign. *)
Definition with_animation (sa : SpriteAnimator) (b1 b2 : bool) (l1 l2 : Z)
    (c : Character) : Character :=
  set_last_special_attack_id l2
    (set_last_attack_id l1
       (set_can_special_hit b2 (set_can_hit b1 (set_animator sa c)))).

(** The outcome of one hit test of the combat mediator: the attack
    rectangle overlaps the defender and [take_damage] reports a hit... *)
Definition hit_lands (attack_rect : option Rect) (damage : Z)
    (attacker defender : Character) : bool :=
  match attack_rect with
  | Some r =>
      colliderect r (get_rect defender)
      && fst (take_damage damage (x attacker) defender)
  | None => false
  end.

(** ... or the defender blocks it effectively. *)
Definition attack_blocked (attack_rect : option Rect)
    (attacker defender : Character) : bool :=
  match attack_rect with
  | Some r =>
      colliderect r (get_rect defender)
      && is_effective_block (x attacker) defender
  | None => false
  end.

(** The test that opens each half of [Level2Scene._check_collisions]. *)
Definition in_reach (attacker defender : Character) (distance : Q) : bool :=
  is_attacking attacker && can_hit attacker && Qltb distance 60
  && Level2Scene._is_facing_target attacker defender.

(** Intents of the concrete runs. *)
Definition idle : PlayerInput := PlayerInput_init.
Definition walk_right : PlayerInput :=
  mkPlayerInput false true false false false false false.
Definition press_attack : PlayerInput :=
  mkPlayerInput false false false false true false false.
Definition hold_block : PlayerInput :=
  mkPlayerInput false false false false false true false.

(** The player walks up to the twin in 73 ticks of 1/50 s, presses attack
    once and lets [n] more ticks pass; the twin follows [twin]. *)
Definition approach_and_attack (twin : PlayerInput) (n : nat)
  : list (Q * PlayerInput * PlayerInput) :=
  repeat (1 # 50, walk_right, twin) 73
  ++ [(1 # 50, press_attack, twin)]
  ++ repeat (1 # 50, idle, twin) n.

(** A scene in which the player, next to the twin, is past the hit frame
    of an attack. *)
Definition scene_at_hit_frame : FightScene.t :=
  FightScene.set_player1
    (set_can_hit true (set_is_attacking true (Samurai1 demo_assets 550 335)))
    (FightScene.init demo_assets).

(** What the frame loop does to a [FightScene]: a tick of [update], the
    pause bookkeeping, the keys of a dialogue, a tick of the dialogue. *)
Inductive SceneOp : Type :=
  | Tick_op (dt : Q) (player1_input player2_input : PlayerInput)
  | Pause_op (dt : Q) (paused : bool)
  | DialogueKeys_op (events : list Key)
  | DialogueTick_op (dt : Q).

Definition apply_scene_op (o : SceneOp) (s : FightScene.t) : option FightScene.t :=
  match o with
  | Tick_op dt i1 i2 => FightScene.update dt i1 i2 s
  | Pause_op dt paused => Some (FightScene.update_pause dt paused s)
  | DialogueKeys_op events => Some (FightScene.handle_dialogue_input events s)
  | DialogueTick_op dt => Some (FightScene.update_dialogue dt s)
  end.

Fixpoint apply_scene_ops (ops : list SceneOp) (s : FightScene.t)
  : option FightScene.t :=
  match ops with
  | [] => Some s
  | o :: rest => s' <- apply_scene_op o s ;; apply_scene_ops rest s'
  end.

(** The match is over only with three wins on one side, and the victory
    dialogue runs only with three wins of the player. *)
Definition match_state_ok (s : FightScene.t) : Prop :=
  (FightScene.match_over s = true ->
   (3 <= FightScene.player_wins s \/ 3 <= FightScene.ai_wins s)%Z)
  /\ (FightScene.showing_dialogue s = true -> (3 <= FightScene.player_wins s)%Z).

(** A round that the player wins on time: a walk to the twin in one long
    tick, one attack that lands, and the clock run out. *)
Definition winning_round (walk : Q) : list (Q * PlayerInput * PlayerInput) :=
  [(walk, walk_right, idle); (2 # 25, press_attack, idle)]
  ++ repeat (2 # 25, idle, idle) 5
  ++ [(99, idle, idle)].

(** The delay between two rounds, in one tick. *)
Definition round_break : list (Q * PlayerInput * PlayerInput) :=
  [(5 # 2, idle, idle)].

(** The four fields the match invariant reads. *)
Definition match_fields (s : FightScene.t) : Z * Z * bool * bool :=
  (FightScene.player_wins s, FightScene.ai_wins s, FightScene.match_over s,
   FightScene.showing_dialogue s).

(** The same for [Level2Scene]. *)
Definition match_fields2 (s : Level2Scene.t) : Z * Z * bool :=
  (Level2Scene.player_wins s, Level2Scene.ai_wins s, Level2Scene.match_over s).

Definition match_state_ok2 (s : Level2Scene.t) : Prop :=
  Level2Scene.match_over s = true ->
  (3 <= Level2Scene.player_wins s \/ 3 <= Level2Scene.ai_wins s)%Z.

(** Ticks of [FightScene.update] as scene operations. *)
Definition ticks (l : list (Q * PlayerInput * PlayerInput)) : list SceneOp :=
  map (fun t => Tick_op (fst (fst t)) (snd (fst t)) (snd t)) l.

(** A whole match: the player wins three rounds on time, sits through the
    threat, confirms a choice and leaves the outcome screen. *)
Definition won_match : list SceneOp :=
  ticks (winning_round (73 # 50) ++ round_break
         ++ winning_round (103 # 50) ++ round_break
         ++ winning_round (103 # 50))
  ++ [DialogueTick_op 3; DialogueKeys_op [K_RETURN]; DialogueKeys_op [K_SPACE];
      DialogueTick_op 0].

(** ** Counting frames *)

(** The calls of a run of [Animation.update] in which the accumulated time
    crosses [frame_duration]: those that find the animation playing, with
    frames, and take the branch
    [if self.time_since_last_frame >= self.frame_duration]. *)
Fixpoint crossing_calls (dts : list Q) (a : Animation) : nat :=
  match dts with
  | [] => 0%nat
  | dt :: rest =>
      ((if is_playing a && negb (Nat.eqb (frames a) 0)
           && Qleb (frame_duration a) (time_since_last_frame a + dt)
        then 1 else 0)
       + crossing_calls rest (Animation_update dt a))%nat
  end.

(** ** The rest of [Animation] *)

(** [Animation.pause()]. *)
Definition Animation_pause (a : Animation) : Animation :=
  mkAnimation (frames a) (frame_duration a) (current_frame a)
              (time_since_last_frame a) false (loop a).

(** What [get_current_frame] hands to the renderer: a frame of the clip,
    by its index, or the fallback surface. *)
Inductive Surface : Type :=
  | clip_frame (index : nat)
  | fallback_surface.

(** [Animation.get_current_frame()]: [self.frames[self.current_frame]]
    raises [IndexError] when the index is past the end. *)
Definition Animation_get_current_frame (a : Animation) : option Surface :=
  if Nat.eqb (frames a) 0 then Some fallback_surface
  else if Nat.ltb (current_frame a) (frames a) then
    Some (clip_frame (current_frame a))
  else None.

(** The calls an animation receives. *)
Inductive AnimationOp : Type :=
  | Anim_update (dt : Q)
  | Anim_reset
  | Anim_play
  | Anim_pause.

Definition apply_animation_op (o : AnimationOp) (a : Animation) : Animation :=
  match o with
  | Anim_update dt => Animation_update dt a
  | Anim_reset => Animation_reset a
  | Anim_play => Animation_play a
  | Anim_pause => Animation_pause a
  end.

Definition apply_animation_ops (ops : list AnimationOp) (a : Animation)
  : Animation :=
  fold_left (fun a o => apply_animation_op o a) ops a.

(** ** Runs of one combatant *)

(** Ticks of [update], each with its [dt] and intent. *)
Definition update_ops (ticks : list (Q * PlayerInput)) : list Op :=
  map (fun t => Update_op (fst t) (snd t)) ticks.

(** The twin after a lethal blow. *)
Definition fallen_twin : Character :=
  snd (take_damage 100 550 (Samurai2 demo_assets 600 335)).

(** The player, stunned by [start_stun()]. *)
Definition stunned_player : Character :=
  start_stun None (Samurai1 demo_assets 150 335).

(** The player with the stamina that one block leaves. *)
Definition tired_player : Character :=
  set_stamina 50 (Samurai1 demo_assets 150 335).

(** Blocking excludes being stunned and attacking. *)
Definition block_exclusive (c : Character) : Prop :=
  is_blocking c = true -> is_stunned c = false /\ is_attacking c = false.

(** A normal and a special attack are never in progress together. *)
Definition one_attack_at_a_time (c : Character) : Prop :=
  is_attacking c && is_special_attacking c = false.

(** ** Two more assignments to a combatant *)

Definition set_special_attack_cooldown_time (v : Q) (c : Character) : Character :=
  mkCharacter (x c) (y c) (velocity_x c) (velocity_y c) (facing_right c) (health c) (speed c)
  (is_attacking c) (is_blocking c) (is_dead c) (is_hit c) (hit_duration c) (attack_cooldown c)
  (attack_duration c) (current_attack_id c) (can_hit c) (is_special_attacking c)
  (special_attack_cooldown c) (special_attack_duration c) v (current_special_attack_id c)
  (can_special_hit c) (stamina c) (god_mode c) (is_stunned c) (stun_duration c) (last_block_time
  c) (ground_y c) (on_ground c) (width c) (height c) (animator c) (last_attack_id c)
  (last_special_attack_id c).
Definition set_god_mode (v : bool) (c : Character) : Character :=
  mkCharacter (x c) (y c) (velocity_x c) (velocity_y c) (facing_right c) (health c) (speed c)
  (is_attacking c) (is_blocking c) (is_dead c) (is_hit c) (hit_duration c) (attack_cooldown c)
  (attack_duration c) (current_attack_id c) (can_hit c) (is_special_attacking c)
  (special_attack_cooldown c) (special_attack_duration c) (special_attack_cooldown_time c)
  (current_special_attack_id c) (can_special_hit c) (stamina c) v (is_stunned c) (stun_duration c)
  (last_block_time c) (ground_y c) (on_ground c) (width c) (height c) (animator c) (last_attack_id
  c) (last_special_attack_id c).

(** ** The attack API of the AI opponents *)

(** [Character.attack()]: gated by death, an attack in progress and the
    cooldown; it starts the animation at once. *)
Definition Character_attack (c : Character) : Character :=
  if is_dead c || is_attacking c || Qltb 0 (attack_cooldown c) then c
  else
    let c := set_is_attacking true c in
    let c := set_attack_duration (12 # 25) c in
    let c := set_current_attack_id (current_attack_id c + 1)%Z c in
    let c := set_can_hit false c in
    play "attack" true c.

(** [Character.special_attack()]. *)
Definition Character_special_attack (c : Character) : Character :=
  if is_dead c || is_special_attacking c || Qltb 0 (special_attack_cooldown c)
  then c
  else
    let c := set_is_special_attacking true c in
    let c := set_special_attack_duration (18 # 25) c in
    let c := set_current_special_attack_id (current_special_attack_id c + 1)%Z c in
    let c := set_can_special_hit false c in
    match lookup "special_attack" (animations (animator c)) with
    | Some _ => play "special_attack" true c
    | None => play "attack" true c
    end.

(** ** YellowNinja *)

(** [YellowNinja(Character)]: [body] holds the inherited attributes,
    [mind] the ones the subclass adds.  [_blink_timer] does not exist
    until the first teleport assigns it ([hasattr]). *)
Module YellowNinja.

Record Mind : Type := mkMind {
  ai_timer : Q;
  ai_current_action : string;
  _blink_timer : option Q
}.

Record t : Type := mk {
  body : Character;
  mind : Mind
}.

Definition on_body (f : Character -> Character) (n : t) : t :=
  mk (f (body n)) (mind n).

Definition set_ai_timer (v : Q) (n : t) : t :=
  mk (body n) (mkMind v (ai_current_action (mind n)) (_blink_timer (mind n))).

Definition set_ai_current_action (v : string) (n : t) : t :=
  mk (body n) (mkMind (ai_timer (mind n)) v (_blink_timer (mind n))).

Definition set__blink_timer (v : option Q) (n : t) : t :=
  mk (body n) (mkMind (ai_timer (mind n)) (ai_current_action (mind n)) v).

(** Attributes set once by [__init__]. *)
Definition sprite_scale : Q := 9 # 4.
Definition ai_decision_interval : Q := 3 # 20.
Definition ai_aggression : Q := 3 # 4.

(** [YellowNinja.load_sprites] when the sheets load: [get_frames] returns
    as many frames as it is asked for, so the frame counts are the
    source's constants. *)
Definition sprites : SpriteAnimator :=
  let sa := SpriteAnimator_init in
  let sa := add_animation "idle" (Animation_init 8 (3 # 20)) sa in
  let sa := add_animation "walk" (Animation_init 10 (1 # 10)) sa in
  let sa := add_alias "run" "walk" sa in
  let sa := add_animation "attack" (set_loop false (Animation_init 20 (3 # 125))) sa in
  let sa := add_alias "block" "idle" sa in
  let sa := add_alias "jump" "idle" sa in
  let sa := add_animation "hit" (set_loop false (Animation_init 4 (1 # 10))) sa in
  let sa := add_animation "dead" (set_loop false (Animation_init 14 (3 # 25))) sa in
  let sa := play_animation "idle" true sa in
  add_alias "block" "idle" sa.

(** [YellowNinja.__init__(x, y)]; [idle_w] and [idle_h] are the size of
    one frame of the idle sheet, which sets the collision box. *)
Definition init (idle_w idle_h : Z) (x0 y0 : Q) : t :=
  let c := Character_init x0 y0 false 200
             (Qtrunc (inject_Z idle_w * sprite_scale))
             (Qtrunc (inject_Z idle_h * sprite_scale)) sprites in
  let c := set_special_attack_cooldown 0 c in
  let c := set_special_attack_cooldown_time 8 c in
  mk c (mkMind 0 "idle" None).

(** [YellowNinja._update_animation_state]. *)
Definition _update_animation_state (c : Character) : Character :=
  let desired :=
    if is_dead c then "dead"
    else if is_hit c && Qltb 0 (hit_duration c) then "hit"
    else if is_attacking c then "attack"
    else if is_blocking c then "block"
    else if Qltb 10 (py_abs (velocity_x c)) then "walk"
    else "idle" in
  if negb (String.eqb (current_animation_name (animator c)) desired) then
    let reset := String.eqb desired "attack" || String.eqb desired "hit"
                 || String.eqb desired "dead" in
    play desired reset c
  else c.

(** [YellowNinja._make_ai_decision]; [draw] is what [random.random()]
    returns if the decision gets to call it, which it does at most once. *)
Definition _make_ai_decision (draw : Q) (player : Character) (n : t) : t :=
  let distance := py_abs (x (body n) - x player) in
  if is_attacking player && Qltb distance 100 then
    if Qleb 50 (stamina (body n)) then set_ai_current_action "block" n
    else set_ai_current_action "retreat" n
  else if Qltb distance 70 then
    if Qleb 50 (stamina (body n)) && Qltb draw ai_aggression then
      if Qleb (special_attack_cooldown (body n)) 0 then
        set_ai_current_action "special_attack" n
      else set_ai_current_action "attack" n
    else set_ai_current_action "block" n
  else if Qltb distance 180 then
    if Qltb draw ai_aggression then set_ai_current_action "approach" n
    else set_ai_current_action "idle" n
  else set_ai_current_action "approach" n.

(** The teleport of the ["special_attack"] action. *)
Definition teleport (player : Character) (n : t) : t :=
  let n := on_body (set_is_special_attacking true) n in
  let n := on_body (set_special_attack_duration (3 # 10)) n in
  let n := set__blink_timer (Some (1 # 5)) n in
  let offset : Q := 30 in
  let n :=
    if facing_right player then
      let n := on_body (fun c => set_x (x player - inject_Z (width c) - offset) c) n in
      on_body (set_facing_right true) n
    else
      let n := on_body (set_x (x player + inject_Z (width player) + offset)) n in
      on_body (set_facing_right false) n in
  let n := on_body (set_y (y player)) n in
  let n := on_body (set_on_ground true) n in
  let n := on_body (fun c => set_current_attack_id (current_attack_id c + 1)%Z c) n in
  let n := on_body (set_is_attacking true) n in
  let n := on_body (set_attack_duration (12 # 25)) n in
  let n := on_body (set_can_hit false) n in
  let n :=
    match lookup "attack" (animations (animator (body n))) with
    | Some _ => on_body (play "attack" true) n
    | None => n
    end in
  on_body (fun c => set_special_attack_cooldown (special_attack_cooldown_time c) c) n.

(** [YellowNinja._execute_ai_action]. *)
Definition _execute_ai_action (dt : Q) (player : Character) (n : t) : t :=
  let desired_facing_right :=
    if Qltb 8 (py_abs (x (body n) - x player)) then Qltb (x (body n)) (x player)
    else facing_right (body n) in
  let action := ai_current_action (mind n) in
  if String.eqb action "approach" then
    let n :=
      if desired_facing_right then
        on_body (fun c => set_velocity_x (speed c * (11 # 10)) c) n
      else on_body (fun c => set_velocity_x (- speed c * (11 # 10)) c) n in
    on_body (set_facing_right desired_facing_right) n
  else if String.eqb action "retreat" then
    let n :=
      if desired_facing_right then
        on_body (fun c => set_velocity_x (- speed c) c) n
      else on_body (fun c => set_velocity_x (speed c) c) n in
    on_body (set_facing_right desired_facing_right) n
  else if String.eqb action "attack" then
    let n := on_body (set_velocity_x 0) n in
    if negb (is_attacking (body n)) && Qleb (attack_cooldown (body n)) 0 then
      on_body Character_attack n
    else n
  else if String.eqb action "special_attack" then
    let n := on_body (set_velocity_x 0) n in
    if negb (is_attacking (body n))
       && Qleb (special_attack_cooldown (body n)) 0
       && negb (is_special_attacking (body n)) then
      teleport player n
    else n
  else if String.eqb action "block" then
    let n := on_body (set_velocity_x 0) n in
    on_body (set_is_blocking true) n
  else
    let n := on_body (set_velocity_x 0) n in
    on_body (set_is_blocking false) n.

(** [YellowNinja._update_ai]. *)
Definition _update_ai (draw : Q) (dt : Q) (player : Character) (n : t) : t :=
  if is_dead (body n) then n
  else
    let n := set_ai_timer (ai_timer (mind n) + dt) n in
    let n :=
      if Qleb ai_decision_interval (ai_timer (mind n)) then
        let n := set_ai_timer 0 n in
        _make_ai_decision draw player n
      else n in
    _execute_ai_action dt player n.

(** The physics paragraph of [update]; unlike the base class it clears
    [on_ground] in the air. *)
Definition physics (dt gravity ground_y : Q) (c : Character) : Character :=
  if negb (is_dead c) then
    let c :=
      if negb (on_ground c) then set_velocity_y (velocity_y c + gravity * dt) c
      else c in
    let c := set_x (x c + velocity_x c * dt) c in
    let c := set_y (y c + velocity_y c * dt) c in
    if Qleb ground_y (y c) then
      let c := set_y ground_y c in
      let c := set_velocity_y 0 c in
      set_on_ground true c
    else set_on_ground false c
  else c.

(** "Enforce arena boundaries". *)
Definition boundaries (arena_left arena_right : Q) (c : Character) : Character :=
  if Qltb (x c) arena_left then set_x arena_left c
  else if Qltb arena_right (x c) then set_x arena_right c
  else c.

(** The blink countdown of [update]. *)
Definition tick_blink (dt : Q) (n : t) : t :=
  match _blink_timer (mind n) with
  | Some b =>
      if Qltb 0 b then set__blink_timer (Some (py_max 0 (b - dt))) n else n
  | None => n
  end.

(** [YellowNinja.update(dt, gravity, ground_y, opponent, arena_left,
    arena_right)].  It overrides [Character.update] and does not call
    [_update_animations]. *)
Definition update (draw : Q) (dt gravity ground_y : Q) (opponent : Character)
    (arena_left arena_right : Q) (n : t) : t :=
  let n := on_body (_update_combat dt) n in
  let n := tick_blink dt n in
  let n := on_body (physics dt gravity ground_y) n in
  let n := _update_ai draw dt opponent n in
  let n := on_body (boundaries arena_left arena_right) n in
  let n := on_body _update_animation_state n in
  on_body (fun c => set_animator (SpriteAnimator_update dt (animator c)) c) n.

End YellowNinja.

(** The opponent of [Level2Scene]: the scene record keeps the inherited
    attributes of the ninja; the attributes of its mind come with the draw
    of the tick. *)
Definition ninja_opponent (draw : YellowNinja.Mind * Q) (dt gravity ground_y : Q)
    (opponent : Character) (arena_left arena_right : Q) (c : Character)
  : option Character :=
  Some (YellowNinja.body
          (YellowNinja.update (snd draw) dt gravity ground_y opponent
             arena_left arena_right (YellowNinja.mk c (fst draw)))).

(** One call of [YellowNinja.update] with its arguments. *)
Record NinjaTick : Type := mkNinjaTick {
  tick_draw : Q;
  tick_dt : Q;
  tick_gravity : Q;
  tick_ground_y : Q;
  tick_opponent : Character;
  tick_arena_left : Q;
  tick_arena_right : Q
}.

Definition ninja_tick (k : NinjaTick) (n : YellowNinja.t) : YellowNinja.t :=
  YellowNinja.update (tick_draw k) (tick_dt k) (tick_gravity k) (tick_ground_y k)
    (tick_opponent k) (tick_arena_left k) (tick_arena_right k) n.

Definition ninja_ticks (ks : list NinjaTick) (n : YellowNinja.t) : YellowNinja.t :=
  fold_left (fun n k => ninja_tick k n) ks n.

(** The ninja with the collision box of 72 by 72 that idle frames of 32
    by 32 give. *)
Definition demo_ninja : YellowNinja.t := YellowNinja.init 32 32 600 335.

(** [Level2Scene.__init__] with [_load_background]: [ground] is the
    height of the ground image when it loads, which moves both fighters
    onto it. *)
Definition Level2Scene_init (screen_height : Z) (assets : SpriteAssets)
    (ninja_idle_w ninja_idle_h : Z) (ground : option Z) : Level2Scene.t :=
  let p1 := Samurai1 assets 0 335 in
  let p2 := YellowNinja.body (YellowNinja.init ninja_idle_w ninja_idle_h 600 335) in
  match ground with
  | Some g_height =>
      let top := inject_Z (screen_height - g_height) in
      let new_p1_ground :=
        top + Level2Scene.spawn_offset_player - inject_Z (height p1) in
      let p1 := set_ground_y new_p1_ground p1 in
      let p1 := set_y new_p1_ground p1 in
      let p1 := set_on_ground true p1 in
      let p2 := set_y (top + Level2Scene.spawn_offset_enemy
                       - inject_Z (height p2)) p2 in
      let p2 := set_on_ground true p2 in
      Level2Scene.mk p1 p2 0 0 1 99 false None false None 0 false 0 false 0
        false true top
  | None =>
      Level2Scene.mk p1 p2 0 0 1 99 false None false None 0 false 0 false 0
        false false 0
  end.

(** Ticks of [Level2Scene.update] against the ninja, each with what the
    ninja has in mind at that tick, the draw, [dt] and the player's
    intent. *)
Fixpoint Level2_run
    (ticks : list (YellowNinja.Mind * Q * Q * option PlayerInput))
    (s : Level2Scene.t) : option Level2Scene.t :=
  match ticks with
  | [] => Some s
  | (m, draw, dt, i) :: rest =>
      s' <- Level2Scene.update (YellowNinja.Mind * Q)%type ninja_opponent
              (m, draw) dt i s ;;
      Level2_run rest s'
  end.

(** The player is at full health and alive, and the ninja -- at no more
    than full health -- has its latch clear. *)
Definition player_unhurt (s : Level2Scene.t) : Prop :=
  health (Level2Scene.player1 s) = max_health
  /\ is_dead (Level2Scene.player1 s) = false
  /\ can_hit (Level2Scene.player2 s) = false
  /\ (health (Level2Scene.player2 s) <= max_health)%Z.

(** ** The cheat code *)

(** [str.lower()] and [str.isalpha()] on ASCII text, which is what the
    letter keys produce. *)
Definition lower_ascii (a : Ascii.ascii) : Ascii.ascii :=
  let n := Ascii.nat_of_ascii a in
  if Nat.leb 65 n && Nat.leb n 90 then Ascii.ascii_of_nat (n + 32) else a.

Fixpoint lower (s : string) : string :=
  match s with
  | EmptyString => EmptyString
  | String a rest => String (lower_ascii a) (lower rest)
  end.

Definition isalpha_ascii (a : Ascii.ascii) : bool :=
  let n := Ascii.nat_of_ascii a in
  (Nat.leb 65 n && Nat.leb n 90) || (Nat.leb 97 n && Nat.leb n 122).

Fixpoint all_alpha (s : string) : bool :=
  match s with
  | EmptyString => true
  | String a rest => isalpha_ascii a && all_alpha rest
  end.

Definition isalpha (s : string) : bool :=
  negb (String.eqb s "") && all_alpha s.

(** [needle in hay]. *)
Fixpoint contains (needle hay : string) : bool :=
  String.prefix needle hay
  || match hay with
     | EmptyString => false
     | String _ rest => contains needle rest
     end.

(** [s[-n:]]. *)
Definition last_chars (n : nat) (s : string) : string :=
  String.substring (String.length s - n) n s.

(** The two attributes of a [Character] that only the cheat code uses. *)
Record CheatBuffer : Type := mkCheatBuffer {
  cheat_input : string;
  cheat_timer : Q
}.

(** [Character.__init__] leaves the buffer empty. *)
Definition CheatBuffer_init : CheatBuffer := mkCheatBuffer "" 0.

(** [Character.process_cheat_input(character, dt)]. *)
Definition process_cheat_input (character : string) (dt : Q)
    (k : CheatBuffer) (c : Character) : CheatBuffer * Character :=
  let '(k, c) :=
    if negb (String.eqb character "") then
      let k := mkCheatBuffer (cheat_input k) 0 in
      let k := mkCheatBuffer (cheat_input k ++ lower character) (cheat_timer k) in
      let k :=
        if Nat.ltb 6 (String.length (cheat_input k)) then
          mkCheatBuffer (last_chars 6 (cheat_input k)) (cheat_timer k)
        else k in
      if contains "kojima" (cheat_input k) then
        (mkCheatBuffer "" (cheat_timer k), set_god_mode (negb (god_mode c)) c)
      else (k, c)
    else (k, c) in
  let k := mkCheatBuffer (cheat_input k) (cheat_timer k + dt) in
  if Qltb 2 (cheat_timer k) then (mkCheatBuffer "" 0, c) else (k, c).

(** Key strokes, each letter with its own [dt], typed in turn. *)
Fixpoint type_keys (keys : list (string * Q)) (k : CheatBuffer) (c : Character)
  : CheatBuffer * Character :=
  match keys with
  | [] => (k, c)
  | (character, dt) :: rest =>
      let '(k, c) := process_cheat_input character dt k c in
      type_keys rest k c
  end.

(** A [KEYDOWN] event: its key and the text it produces. *)
Record KeyDown : Type := mkKeyDown {
  key : Key;
  unicode : string
}.

(** [Level2Scene._handle_dialogue_input], over the [KEYDOWN] events. *)
Fixpoint Level2Scene__handle_dialogue_input (events : list KeyDown)
    (s : Level2Scene.t) : string * Level2Scene.t :=
  match events with
  | [] => ("continue", s)
  | e :: rest =>
      match key e with
      | K_SPACE | K_RETURN => ("level3", Level2Scene.set_dialogue_complete true s)
      | K_ESCAPE => ("menu", s)
      | _ => Level2Scene__handle_dialogue_input rest s
      end
  end.

(** The loop of [Level2Scene.handle_input]: it hands every letter to the
    cheat code together with [self.round_time]. *)
Fixpoint Level2Scene_pause_keys (events : list KeyDown) (k : CheatBuffer)
    (s : Level2Scene.t) : string * CheatBuffer * Level2Scene.t :=
  match events with
  | [] => ("continue", k, s)
  | e :: rest =>
      match key e, Level2Scene.match_over s with
      | K_ESCAPE, true => ("menu", k, s)
      | _, _ =>
          let s :=
            match key e with
            | K_ESCAPE => Level2Scene.set_is_paused (negb (Level2Scene.is_paused s)) s
            | _ => s
            end in
          let '(k, p1) :=
            if isalpha (unicode e) then
              process_cheat_input (unicode e) (Level2Scene.round_time s) k
                (Level2Scene.player1 s)
            else (k, Level2Scene.player1 s) in
          Level2Scene_pause_keys rest k (Level2Scene.set_player1 p1 s)
      end
  end.

(** [Level2Scene.handle_input]. *)
Definition Level2Scene_handle_input (events : list KeyDown) (k : CheatBuffer)
    (s : Level2Scene.t) : string * CheatBuffer * Level2Scene.t :=
  if Level2Scene.showing_dialogue s then
    let '(action, s) := Level2Scene__handle_dialogue_input events s in
    (action, k, s)
  else Level2Scene_pause_keys events k s.

(** ** InputHandler *)

(** What [pygame.key.get_pressed()] says of the seven keys of player 1
    (A, D, W, S, SPACE, LEFT SHIFT and Q), named by what they are mapped
    to. *)
Record KeysHeld : Type := mkKeysHeld {
  held_left : bool;
  held_right : bool;
  held_up : bool;
  held_down : bool;
  held_attack : bool;
  held_block : bool;
  held_special : bool
}.

(** [InputHandler]: the intent of player 1 with the two parry attributes
    that [__init__] adds to it, and the timing of LEFT SHIFT. *)
Record InputHandler : Type := mkInputHandler {
  player1_input : PlayerInput;
  is_parrying : bool;
  parry_window_time : Q;
  shift_press_time : Q;
  shift_was_pressed : bool
}.

Definition parry_window_duration : Q := 3 # 10.

(** [InputHandler.__init__]. *)
Definition InputHandler_init : InputHandler :=
  mkInputHandler PlayerInput_init false 0 0 false.

(** [InputHandler.update(dt)], the part for player 1. *)
Definition InputHandler_update (keys : KeysHeld) (dt : Q) (h : InputHandler)
  : InputHandler :=
  let shift_currently_pressed := held_block keys in
  let h :=
    if shift_currently_pressed then
      if negb (shift_was_pressed h) then
        mkInputHandler (player1_input h) (is_parrying h) (parry_window_time h)
          0 (shift_was_pressed h)
      else
        mkInputHandler (player1_input h) (is_parrying h) (parry_window_time h)
          (shift_press_time h + dt) (shift_was_pressed h)
    else
      let h :=
        if shift_was_pressed h
           && Qleb (shift_press_time h) parry_window_duration then
          mkInputHandler (player1_input h) true parry_window_duration
            (shift_press_time h) (shift_was_pressed h)
        else h in
      mkInputHandler (player1_input h) (is_parrying h) (parry_window_time h)
        0 (shift_was_pressed h) in
  let h :=
    if is_parrying h then
      let h := mkInputHandler (player1_input h) (is_parrying h)
                 (parry_window_time h - dt) (shift_press_time h)
                 (shift_was_pressed h) in
      if Qleb (parry_window_time h) 0 then
        mkInputHandler (player1_input h) false 0 (shift_press_time h)
          (shift_was_pressed h)
      else h
    else h in
  let intent :=
    mkPlayerInput (held_left keys) (held_right keys) (held_up keys)
      (held_down keys) (held_attack keys)
      (shift_currently_pressed && negb (is_parrying h))
      (held_special keys) in
  mkInputHandler intent (is_parrying h) (parry_window_time h)
    (shift_press_time h) shift_currently_pressed.

(** Frames of the input handler, each with the keys held and its [dt]. *)
Definition InputHandler_updates (frames : list (KeysHeld * Q)) (h : InputHandler)
  : InputHandler :=
  fold_left (fun h f => InputHandler_update (fst f) (snd f) h) frames h.

(** A parry window is open exactly while time remains in it, and that is
    never more than the window's duration; the block intent needs LEFT
    SHIFT held outside such a window. *)
Definition parry_state_ok (h : InputHandler) : Prop :=
  (is_parrying h = true -> 0 < parry_window_time h)
  /\ (is_parrying h = false -> parry_window_time h == 0)
  /\ parry_window_time h <= parry_window_duration
  /\ (block (player1_input h) = true ->
      shift_was_pressed h = true /\ is_parrying h = false).

(** No key held; LEFT SHIFT held. *)
Definition no_keys : KeysHeld :=
  mkKeysHeld false false false false false false false.
Definition shift_held : KeysHeld :=
  mkKeysHeld false false false false false true false.

(** ** MainMenuScene *)

Module MainMenuScene.

Record t : Type := mk {
  selected_option : Z;
  menu_blink_timer : Q
}.

Definition menu_options : list string := ["START GAME"; "QUIT"].

(** [MainMenuScene.__init__]. *)
Definition init : t := mk 0 0.

(** [MainMenuScene.handle_input], over the keys of the [KEYDOWN] events.
    [%] is Python's: the result has the sign of the divisor. *)
Fixpoint handle_input (events : list Key) (s : t) : string * t :=
  match events with
  | [] => ("continue", s)
  | K_UP :: rest =>
      handle_input rest
        (mk ((selected_option s - 1) mod Z.of_nat (List.length menu_options))
            (menu_blink_timer s))
  | K_DOWN :: rest =>
      handle_input rest
        (mk ((selected_option s + 1) mod Z.of_nat (List.length menu_options))
            (menu_blink_timer s))
  | K_RETURN :: rest | K_SPACE :: rest =>
      if (selected_option s =? 0)%Z then ("start_game", s)
      else if (selected_option s =? 1)%Z then ("quit", s)
      else handle_input rest s
  | K_ESCAPE :: _ => ("quit", s)
  | _ :: rest => handle_input rest s
  end.

(** [MainMenuScene.update]. *)
Definition update (dt : Q) (s : t) : t :=
  mk (selected_option s) (menu_blink_timer s + dt).

End MainMenuScene.



(** ** AIController *)

(** The attributes of [AIController] that [_execute_action] reads and
    writes: the intent it fills in, the action chosen by the last
    decision, the time since that decision and the time left to block. *)
Record AIController : Type := mkAIController {
  ai_input : PlayerInput;
  current_action : string;
  action_timer : Q;
  block_duration : Q
}.

(** [AIController._reset_input]. *)
Definition AIController__reset_input (a : AIController) : AIController :=
  mkAIController PlayerInput_init (current_action a) (action_timer a)
    (block_duration a).

(** Assignments to [self.input]. *)
Definition press (f : PlayerInput -> PlayerInput) (a : AIController)
  : AIController :=
  mkAIController (f (ai_input a)) (current_action a) (action_timer a)
    (block_duration a).

Definition with_left (v : bool) (i : PlayerInput) : PlayerInput :=
  mkPlayerInput v (right i) (up i) (down i) (attack i) (block i) (special i).
Definition with_right (v : bool) (i : PlayerInput) : PlayerInput :=
  mkPlayerInput (left i) v (up i) (down i) (attack i) (block i) (special i).
Definition with_up (v : bool) (i : PlayerInput) : PlayerInput :=
  mkPlayerInput (left i) (right i) v (down i) (attack i) (block i) (special i).
Definition with_attack (v : bool) (i : PlayerInput) : PlayerInput :=
  mkPlayerInput (left i) (right i) (up i) (down i) v (block i) (special i).
Definition with_block (v : bool) (i : PlayerInput) : PlayerInput :=
  mkPlayerInput (left i) (right i) (up i) (down i) (attack i) v (special i).
Definition with_special (v : bool) (i : PlayerInput) : PlayerInput :=
  mkPlayerInput (left i) (right i) (up i) (down i) (attack i) (block i) v.

Definition set_current_action (v : string) (a : AIController) : AIController :=
  mkAIController (ai_input a) v (action_timer a) (block_duration a).

(** "Move towards player" and "Move away from player". *)
Definition move_towards (ai_character player_character : Character)
    (a : AIController) : AIController :=
  if Qltb (x player_character) (x ai_character) then press (with_left true) a
  else press (with_right true) a.

Definition move_away (ai_character player_character : Character)
    (a : AIController) : AIController :=
  if Qltb (x player_character) (x ai_character) then press (with_right true) a
  else press (with_left true) a.

(** [AIController._execute_action]; [draw1] and [draw2] are what the two
    calls of [random.random()] at its end return, the second one being
    made only when the first is below 0.1. *)
Definition AIController__execute_action (draw1 draw2 : Q)
    (ai_character player_character : Character) (a : AIController)
  : AIController :=
  let a :=
    if String.eqb (current_action a) "approach" then
      move_towards ai_character player_character a
    else if String.eqb (current_action a) "retreat" then
      move_away ai_character player_character a
    else if String.eqb (current_action a) "attack" then
      press (with_attack true) a
    else if String.eqb (current_action a) "special_attack" then
      press (with_special true) a
    else if String.eqb (current_action a) "block" then
      if Qltb 0 (block_duration a) then press (with_block true) a
      else set_current_action "idle" a
    else if String.eqb (current_action a) "stunned" then a
    else if String.eqb (current_action a) "jump_attack" then
      if Qltb (action_timer a) (1 # 5) then press (with_up true) a
      else if Qltb (action_timer a) (1 # 2) then
        let a := move_towards ai_character player_character a in
        press (with_attack true) a
      else set_current_action "idle" a
    else a in
  if Qltb draw1 (1 # 10) then
    if Qltb draw2 (1 # 2) then
      press (fun i => with_left (negb (left i)) i) a
    else press (fun i => with_right (negb (right i)) i) a
  else a.

(** * Properties *)

Local Open Scope Q_scope.

(** ** Comparisons and clamps *)

Lemma Qleb_true_iff (a b : Q) : Qleb a b = true <-> a <= b.
Proof. unfold Qleb. apply Qle_bool_iff. Qed.

Lemma Qleb_false_iff (a b : Q) : Qleb a b = false <-> b < a.
Proof.
  unfold Qleb. split; intro H.
  - apply Qnot_le_lt. intro Hle. apply Qle_bool_iff in Hle. congruence.
  - destruct (Qle_bool a b) eqn:E; [|reflexivity].
    apply Qle_bool_iff in E. exfalso. apply (Qlt_not_le _ _ H E).
Qed.

Lemma Qltb_true_iff (a b : Q) : Qltb a b = true <-> a < b.
Proof.
  unfold Qltb. rewrite negb_true_iff. apply (Qleb_false_iff b a).
Qed.

Lemma Qltb_false_iff (a b : Q) : Qltb a b = false <-> b <= a.
Proof.
  unfold Qltb. rewrite negb_false_iff. apply (Qleb_true_iff b a).
Qed.

(** Turns every boolean comparison among the hypotheses into the order
    fact it stands for. *)
Ltac order_facts :=
  repeat match goal with
  | H : Qleb _ _ = true |- _ => apply Qleb_true_iff in H
  | H : Qleb _ _ = false |- _ => apply Qleb_false_iff in H
  | H : Qltb _ _ = true |- _ => apply Qltb_true_iff in H
  | H : Qltb _ _ = false |- _ => apply Qltb_false_iff in H
  end.

(** Splits on the first test the goal branches on. *)
Ltac split_test :=
  match goal with
  | |- context [if ?b then _ else _] => destruct b eqn:?
  end.

(** ** Animation.update *)

Lemma Animation_update_frame_step (dt : Q) (a : Animation) :
  (current_frame (Animation_update dt a) <= S (current_frame a))%nat.
Proof.
  unfold Animation_update.
  repeat split_test; simpl; try lia.
  match goal with H : Nat.leb _ _ = true |- _ => apply Nat.leb_le in H end.
  lia.
Qed.

Lemma Animation_updates_frame_bound (dts : list Q) :
  forall a : Animation,
    (current_frame (Animation_updates dts a)
     <= current_frame a + List.length dts)%nat.
Proof.
  induction dts as [|dt rest IH]; intro a; simpl.
  - lia.
  - specialize (IH (Animation_update dt a)).
    pose proof (Animation_update_frame_step dt a). lia.
Qed.

Lemma Animation_update_shape (dt : Q) (a : Animation) :
  frames (Animation_update dt a) = frames a
  /\ frame_duration (Animation_update dt a) = frame_duration a
  /\ loop (Animation_update dt a) = loop a.
Proof. unfold Animation_update. repeat split_test; repeat split. Qed.

(** A call that does not cross [frame_duration] keeps the frame and adds
    [dt] to the time since the last frame. *)
Lemma Animation_update_below (dt : Q) (a : Animation) :
  is_playing a = true -> (0 < frames a)%nat ->
  time_since_last_frame a + dt < frame_duration a ->
  current_frame (Animation_update dt a) = current_frame a
  /\ time_since_last_frame (Animation_update dt a) = time_since_last_frame a + dt
  /\ is_playing (Animation_update dt a) = true.
Proof.
  intros Hp Hn Hlt. unfold Animation_update. rewrite Hp.
  destruct (Nat.eqb (frames a) 0) eqn:E0; [apply Nat.eqb_eq in E0; lia|].
  cbn [negb orb]. cbv zeta.
  destruct (Qleb (frame_duration a) (time_since_last_frame a + dt)) eqn:E.
  - order_facts. exfalso. apply (Qlt_not_le _ _ Hlt E).
  - simpl. auto.
Qed.

(** A call that crosses [frame_duration] shows the next frame and restarts
    the time, however far [dt] goes beyond. *)
Lemma Animation_update_crossing (dt : Q) (a : Animation) :
  is_playing a = true ->
  frame_duration a <= time_since_last_frame a + dt ->
  (S (current_frame a) < frames a)%nat ->
  current_frame (Animation_update dt a) = S (current_frame a)
  /\ time_since_last_frame (Animation_update dt a) = 0
  /\ is_playing (Animation_update dt a) = true.
Proof.
  intros Hp Hle Hn. unfold Animation_update. rewrite Hp.
  destruct (Nat.eqb (frames a) 0) eqn:E0; [apply Nat.eqb_eq in E0; lia|].
  cbn [negb orb]. cbv zeta.
  apply Qleb_true_iff in Hle. rewrite Hle.
  destruct (Nat.leb (frames a) (S (current_frame a))) eqn:E;
    [apply Nat.leb_le in E; lia|].
  simpl. auto.
Qed.

(** At the end of the clip a crossing call wraps a looping animation
    round and stops one that does not loop on its last frame. *)
Lemma Animation_update_at_end (dt : Q) (a : Animation) :
  is_playing a = true -> (0 < frames a)%nat ->
  frame_duration a <= time_since_last_frame a + dt ->
  (frames a <= S (current_frame a))%nat ->
  (loop a = true ->
   current_frame (Animation_update dt a) = 0%nat
   /\ is_playing (Animation_update dt a) = true)
  /\ (loop a = false ->
      current_frame (Animation_update dt a) = (frames a - 1)%nat
      /\ is_playing (Animation_update dt a) = false).
Proof.
  intros Hp Hn Hle He. unfold Animation_update. rewrite Hp.
  destruct (Nat.eqb (frames a) 0) eqn:E0; [apply Nat.eqb_eq in E0; lia|].
  cbn [negb orb]. cbv zeta.
  apply Qleb_true_iff in Hle. rewrite Hle.
  apply Nat.leb_le in He. rewrite He.
  split; intros ->; simpl; rewrite ?Hp; auto.
Qed.

Lemma Animation_update_stopped (dt : Q) (a : Animation) :
  is_playing a = false -> Animation_update dt a = a.
Proof. intro H. unfold Animation_update. rewrite H. reflexivity. Qed.

Lemma crossing_calls_stopped (dts : list Q) (a : Animation) :
  is_playing a = false ->
  crossing_calls dts a = 0%nat /\ Animation_updates dts a = a.
Proof.
  intro H. induction dts as [|dt rest IH]; [auto|].
  cbn [crossing_calls Animation_updates].
  rewrite (Animation_update_stopped dt a H), H. cbn [andb]. exact IH.
Qed.

(** The frame of a clip that does not loop is its frame at the start plus
    the number of crossing calls, up to the last frame. *)
Lemma frame_follows_crossing_calls (dts : list Q) :
  forall a : Animation,
    loop a = false -> (current_frame a < frames a)%nat ->
    current_frame (Animation_updates dts a)
    = Nat.min (current_frame a + crossing_calls dts a) (frames a - 1).
Proof.
  induction dts as [|dt rest IH]; intros a Hl Hc.
  - cbn [crossing_calls Animation_updates]. lia.
  - cbn [crossing_calls Animation_updates].
    destruct (Animation_update_shape dt a) as (S1 & _ & S3).
    destruct (is_playing a) eqn:Hp.
    2:{ rewrite (Animation_update_stopped dt a Hp).
        destruct (crossing_calls_stopped rest a Hp) as [-> ->].
        cbn [andb]. lia. }
    destruct (Nat.eqb (frames a) 0) eqn:E0; [apply Nat.eqb_eq in E0; lia|].
    cbn [andb negb].
    destruct (Qleb (frame_duration a) (time_since_last_frame a + dt)) eqn:E;
      order_facts.
    + destruct (Nat.ltb (S (current_frame a)) (frames a)) eqn:En.
      * apply Nat.ltb_lt in En.
        destruct (Animation_update_crossing dt a Hp E En) as (C1 & _ & _).
        rewrite IH; [|rewrite S3; exact Hl|rewrite C1, S1; exact En].
        rewrite C1, S1. lia.
      * apply Nat.ltb_ge in En.
        destruct (Animation_update_at_end dt a Hp ltac:(lia) E En) as [_ Hend].
        destruct (Hend Hl) as [C1 C2].
        destruct (crossing_calls_stopped rest _ C2) as [-> ->].
        rewrite C1. lia.
    + destruct (Animation_update_below dt a Hp ltac:(lia) E) as (C1 & _ & _).
      rewrite IH; [|rewrite S3; exact Hl|rewrite C1, S1; exact Hc].
      rewrite C1, S1. lia.
Qed.

(** The frame of a looping clip is its frame at the start plus the number
    of crossing calls, counted round the clip. *)
Lemma looping_frame_follows_crossing_calls (dts : list Q) :
  forall a : Animation,
    loop a = true -> is_playing a = true -> (current_frame a < frames a)%nat ->
    current_frame (Animation_updates dts a)
    = ((current_frame a + crossing_calls dts a) mod frames a)%nat.
Proof.
  induction dts as [|dt rest IH]; intros a Hl Hp Hc.
  - cbn [crossing_calls Animation_updates]. rewrite Nat.add_0_r.
    symmetry. apply Nat.mod_small. exact Hc.
  - cbn [crossing_calls Animation_updates].
    destruct (Animation_update_shape dt a) as (S1 & _ & S3).
    rewrite Hp.
    destruct (Nat.eqb (frames a) 0) eqn:E0; [apply Nat.eqb_eq in E0; lia|].
    cbn [andb negb].
    destruct (Qleb (frame_duration a) (time_since_last_frame a + dt)) eqn:E;
      order_facts.
    + destruct (Nat.ltb (S (current_frame a)) (frames a)) eqn:En.
      * apply Nat.ltb_lt in En.
        destruct (Animation_update_crossing dt a Hp E En) as (C1 & _ & C3).
        rewrite IH; [|rewrite S3; exact Hl|exact C3|rewrite C1, S1; exact En].
        rewrite C1, S1. f_equal. lia.
      * apply Nat.ltb_ge in En.
        destruct (Animation_update_at_end dt a Hp ltac:(lia) E En) as [Hend _].
        destruct (Hend Hl) as [C1 C2].
        rewrite IH; [|rewrite S3; exact Hl|exact C2|rewrite C1, S1; lia].
        rewrite C1, S1.
        replace (current_frame a + (1 + crossing_calls rest (Animation_update dt a)))%nat
          with (crossing_calls rest (Animation_update dt a) + 1 * frames a)%nat
          by lia.
        rewrite Nat.Div0.mod_add. reflexivity.
    + destruct (Animation_update_below dt a Hp ltac:(lia) E) as (C1 & _ & C3).
      rewrite IH; [|rewrite S3; exact Hl|exact C3|rewrite C1, S1; exact Hc].
      rewrite C1, S1. reflexivity.
Qed.

(** C10.  One call of [Animation.update] moves [current_frame] forward by
    at most one frame whatever [dt] is, and the frame index follows the
    calls in which the accumulated time crosses [frame_duration].  A call
    that stays below [frame_duration] keeps the frame and adds [dt] to the
    time; a call that crosses it shows the next frame and restarts the
    time, however far [dt] goes beyond.  So after a run of calls the frame
    is the frame at the start plus the number of crossing calls (up to the
    last frame of a clip that does not loop, round the clip of one that
    loops), and a run of one call counts at most one crossing: the same
    elapsed time in one call or in several gives different frames. *)
Theorem Animation_update_at_most_one_frame :
  (forall (dt : Q) (a : Animation),
      (current_frame (Animation_update dt a) <= current_frame a + 1)%nat)
  /\ (forall (dt : Q) (a : Animation),
         is_playing a = true -> (0 < frames a)%nat ->
         time_since_last_frame a + dt < frame_duration a ->
         current_frame (Animation_update dt a) = current_frame a
         /\ time_since_last_frame (Animation_update dt a)
            = time_since_last_frame a + dt)
  /\ (forall (dt : Q) (a : Animation),
         is_playing a = true ->
         frame_duration a <= time_since_last_frame a + dt ->
         (S (current_frame a) < frames a)%nat ->
         current_frame (Animation_update dt a) = S (current_frame a)
         /\ time_since_last_frame (Animation_update dt a) = 0)
  /\ (forall (dts : list Q) (a : Animation),
         loop a = false -> (current_frame a < frames a)%nat ->
         current_frame (Animation_updates dts a)
         = Nat.min (current_frame a + crossing_calls dts a) (frames a - 1))
  /\ (forall (dts : list Q) (a : Animation),
         loop a = true -> is_playing a = true ->
         (current_frame a < frames a)%nat ->
         current_frame (Animation_updates dts a)
         = ((current_frame a + crossing_calls dts a) mod frames a)%nat)
  /\ (forall (dt : Q) (a : Animation), (crossing_calls [dt] a <= 1)%nat)
  /\ (forall (dts : list Q) (a : Animation),
         (current_frame (Animation_updates dts a)
          <= current_frame a + List.length dts)%nat).
Proof.
  split; [|split; [|split; [|split; [|split; [|split]]]]].
  - intros dt a. pose proof (Animation_update_frame_step dt a). lia.
  - intros dt a Hp Hn Hlt.
    destruct (Animation_update_below dt a Hp Hn Hlt) as (H1 & H2 & _). auto.
  - intros dt a Hp Hle Hn.
    destruct (Animation_update_crossing dt a Hp Hle Hn) as (H1 & H2 & _). auto.
  - intros dts a. apply frame_follows_crossing_calls.
  - intros dts a. apply looping_frame_follows_crossing_calls.
  - intros dt a. cbn [crossing_calls]. split_test; lia.
  - intros dts a. apply Animation_updates_frame_bound.
Qed.

Lemma Animation_update_at_most_one_frame_witness :
  current_frame
    (Animation_updates [1000] (set_loop false (Animation_init 6 (2 # 25))))
  = 1%nat
  /\ current_frame
       (Animation_updates [1 # 25; 1 # 25; 1 # 50; 1 # 50; 2 # 25]
          (set_loop false (Animation_init 6 (2 # 25))))
     = 2%nat
  /\ current_frame
       (Animation_updates [2 # 25; 2 # 25; 2 # 25; 2 # 25; 2 # 25; 2 # 25; 2 # 25]
          (Animation_init 6 (2 # 25)))
     = 1%nat.
Proof.
  destruct Animation_update_at_most_one_frame
    as (_ & _ & _ & Honce & Hloop & _ & _).
  split; [|split].
  - rewrite (Honce [1000] (set_loop false (Animation_init 6 (2 # 25))));
      [reflexivity | reflexivity | simpl; lia].
  - rewrite (Honce [1 # 25; 1 # 25; 1 # 50; 1 # 50; 2 # 25]
               (set_loop false (Animation_init 6 (2 # 25))));
      [reflexivity | reflexivity | simpl; lia].
  - rewrite (Hloop [2 # 25; 2 # 25; 2 # 25; 2 # 25; 2 # 25; 2 # 25; 2 # 25]
               (Animation_init 6 (2 # 25)));
      [reflexivity | reflexivity | reflexivity | simpl; lia].
Defined.

(** ** Character.take_damage *)

Lemma is_effective_block_true_iff (attacker_x : Q) (c : Character) :
  is_effective_block attacker_x c = true
  <-> is_blocking c = true /\ is_dead c = false /\ facing_attacker attacker_x c.
Proof.
  unfold is_effective_block, facing_attacker.
  destruct (is_blocking c), (is_dead c), (facing_right c); simpl;
    repeat split_test; order_facts;
    (split; [intro H; try discriminate H | intros (H1 & H2 & H3)]);
    try discriminate; try reflexivity;
    try (repeat split; try reflexivity; (left + right); split; (reflexivity || assumption));
    try (destruct H3 as [[H3 H4]|[H3 H4]]; try discriminate; lra).
Qed.

Lemma take_damage_blocked (damage : Z) (attacker_x : Q) (c : Character) :
  is_effective_block attacker_x c = true ->
  take_damage damage attacker_x c = (false, c).
Proof. intro H. unfold take_damage. rewrite H. reflexivity. Qed.

Lemma take_damage_dead (damage : Z) (attacker_x : Q) (c : Character) :
  is_dead c = true -> take_damage damage attacker_x c = (false, c).
Proof.
  intro H. unfold take_damage, is_effective_block. rewrite H.
  rewrite andb_false_r. reflexivity.
Qed.

Lemma take_damage_hit (damage : Z) (attacker_x : Q) (c : Character) :
  is_effective_block attacker_x c = false -> is_dead c = false ->
  fst (take_damage damage attacker_x c) = true
  /\ health (snd (take_damage damage attacker_x c))
     = Z.max 0 (health c - damage).
Proof.
  intros Hb Hd. unfold take_damage. rewrite Hb, Hd. simpl.
  split_test; simpl; split; reflexivity.
Qed.

Lemma take_damage_dead_has_no_health (damage : Z) (attacker_x : Q) (c : Character) :
  dead_has_no_health c ->
  dead_has_no_health (snd (take_damage damage attacker_x c)).
Proof.
  unfold dead_has_no_health, take_damage. intro H.
  repeat split_test; simpl; try assumption; try discriminate; intro Hd.
  - simpl in *.
    match goal with E : (_ <=? 0)%Z = true |- _ => apply Z.leb_le in E end.
    lia.
  - rewrite Hd in *. discriminate.
Qed.

(** C2.  A blocking defender that faces the attacker keeps its health;
    a defender that is not blocking or does not face the attacker loses
    the full amount, down to 0 at most.  (Damage amounts are never
    negative, and a dead defender has no health left to lose.) *)
Theorem take_damage_block_or_full_damage
    (c : Character) (amount : Z) (attacker_x : Q)
    (Hamount : (0 <= amount)%Z) (Hdead : dead_has_no_health c) :
  (is_blocking c = true /\ facing_attacker attacker_x c ->
   health (snd (take_damage amount attacker_x c)) = health c)
  /\ (is_blocking c = false \/ ~ facing_attacker attacker_x c ->
      health (snd (take_damage amount attacker_x c))
      = Z.max 0 (health c - amount)).
Proof.
  destruct (is_dead c) eqn:Hd.
  - rewrite (take_damage_dead amount attacker_x c Hd). simpl.
    rewrite (Hdead Hd). split; intros _; lia.
  - split.
    + intros [Hb Hf].
      rewrite take_damage_blocked; [reflexivity|].
      apply is_effective_block_true_iff. auto.
    + intro H. apply take_damage_hit; [|assumption].
      destruct (is_effective_block attacker_x c) eqn:E; [|reflexivity].
      apply is_effective_block_true_iff in E. destruct E as (Hb & _ & Hf).
      destruct H as [H|H]; [congruence | contradiction].
Qed.

Lemma take_damage_block_or_full_damage_witness :
  health (snd (take_damage 3 550 (set_is_blocking true (Samurai2 demo_assets 600 335))))
  = 100%Z
  /\ health (snd (take_damage 3 550 (Samurai2 demo_assets 600 335))) = 97%Z.
Proof.
  split.
  - apply (take_damage_block_or_full_damage
             (set_is_blocking true (Samurai2 demo_assets 600 335)) 3 550).
    + lia.
    + intro H. discriminate H.
    + split; [reflexivity|]. right. split; [reflexivity|]. reflexivity.
  - apply (take_damage_block_or_full_damage (Samurai2 demo_assets 600 335) 3 550).
    + lia.
    + intro H. discriminate H.
    + left. reflexivity.
Defined.

(** C7, as the code has it: the flag returned by [take_damage] is true
    exactly when damage was applied, that is when the combatant is alive
    and the block is not effective; on an effective block and on a dead
    combatant alike it is false and the combatant is left as it was. *)
Theorem take_damage_returns_whether_damaged
    (c : Character) (damage : Z) (attacker_x : Q) :
  (fst (take_damage damage attacker_x c) = true
   <-> is_dead c = false /\ is_effective_block attacker_x c = false)
  /\ (is_effective_block attacker_x c = true ->
      take_damage damage attacker_x c = (false, c))
  /\ (is_dead c = true -> take_damage damage attacker_x c = (false, c)).
Proof.
  split; [|split].
  - destruct (is_effective_block attacker_x c) eqn:Hb.
    + rewrite take_damage_blocked by assumption. simpl.
      split; [discriminate | intros [_ H]; discriminate H].
    + destruct (is_dead c) eqn:Hd.
      * rewrite take_damage_dead by assumption. simpl.
        split; [discriminate | intros [H _]; discriminate H].
      * split; [auto|]. intros _. apply take_damage_hit; assumption.
  - apply take_damage_blocked.
  - apply take_damage_dead.
Qed.

Lemma take_damage_returns_whether_damaged_witness :
  take_damage 3 550 (set_is_blocking true (Samurai2 demo_assets 600 335))
  = (false, set_is_blocking true (Samurai2 demo_assets 600 335)).
Proof.
  destruct (take_damage_returns_whether_damaged
              (set_is_blocking true (Samurai2 demo_assets 600 335)) 3 550)
    as (_ & Hblocked & _).
  apply Hblocked. reflexivity.
Defined.

(** C7 as stated fails: an effective block, applied to a living combatant,
    makes [take_damage] return false. *)
Lemma take_damage_effective_block_returns_false :
  let c := set_is_blocking true (Samurai2 demo_assets 600 335) in
  is_dead c = false
  /\ is_effective_block 550 c = true
  /\ fst (take_damage 3 550 c) <> true.
Proof.
  simpl. split; [reflexivity|]. split; [reflexivity|]. discriminate.
Qed.

(** ** What each paragraph of [update] leaves alone *)

Create HintDb stages discriminated.

#[local] Hint Unfold handle_block handle_movement handle_jump handle_attack
  handle_special apply_gravity update_position ground_collision
  screen_boundaries tick_stun tick_attack tick_hit tick_special
  tick_cooldowns regen_stamina choose_animation stun_if_depleted
  start_attack start_special_attack play : stages.

(** A field that one paragraph does not assign: unfold the paragraph,
    follow its tests, compare. *)
Ltac frame :=
  intros; autounfold with stages; repeat split_test; simpl;
  solve [reflexivity | congruence].

(** Removes a paragraph [f] from under a field access [field (f t)] when
    [f] leaves [field] alone. *)
Ltac peel :=
  match goal with
  | |- context [?p (?f ?t)] =>
      let H := fresh "Hframe" in
      assert (H : forall c' : Character, p (f c') = p c') by frame;
      rewrite H; clear H
  end.

Create Rewrite HintDb frame.

Ltac frames :=
  intros; cbv zeta;
  repeat first [peel | progress autorewrite with frame];
  try reflexivity.

Lemma health_handle_input (input_state : PlayerInput) (dt : Q) (c : Character) :
  health (_handle_input input_state dt c) = health c.
Proof. unfold _handle_input. split_test; frames. Qed.

Lemma animator_handle_input (input_state : PlayerInput) (dt : Q) (c : Character) :
  animator (_handle_input input_state dt c) = animator c.
Proof. unfold _handle_input. split_test; frames. Qed.

Lemma is_dead_handle_input (input_state : PlayerInput) (dt : Q) (c : Character) :
  is_dead (_handle_input input_state dt c) = is_dead c.
Proof. unfold _handle_input. split_test; frames. Qed.

Lemma x_handle_input (input_state : PlayerInput) (dt : Q) (c : Character) :
  x (_handle_input input_state dt c) = x c.
Proof. unfold _handle_input. split_test; frames. Qed.

Lemma y_handle_input (input_state : PlayerInput) (dt : Q) (c : Character) :
  y (_handle_input input_state dt c) = y c.
Proof. unfold _handle_input. split_test; frames. Qed.

Lemma width_handle_input (input_state : PlayerInput) (dt : Q) (c : Character) :
  width (_handle_input input_state dt c) = width c.
Proof. unfold _handle_input. split_test; frames. Qed.

Lemma ground_y_handle_input (input_state : PlayerInput) (dt : Q) (c : Character) :
  ground_y (_handle_input input_state dt c) = ground_y c.
Proof. unfold _handle_input. split_test; frames. Qed.

Lemma health_update_physics (dt : Q) (c : Character) :
  health (_update_physics dt c) = health c.
Proof. unfold _update_physics. frames. Qed.

Lemma animator_update_physics (dt : Q) (c : Character) :
  animator (_update_physics dt c) = animator c.
Proof. unfold _update_physics. frames. Qed.

Lemma is_dead_update_physics (dt : Q) (c : Character) :
  is_dead (_update_physics dt c) = is_dead c.
Proof. unfold _update_physics. frames. Qed.

Lemma width_update_physics (dt : Q) (c : Character) :
  width (_update_physics dt c) = width c.
Proof. unfold _update_physics. frames. Qed.

Lemma ground_y_update_physics (dt : Q) (c : Character) :
  ground_y (_update_physics dt c) = ground_y c.
Proof. unfold _update_physics. frames. Qed.

Lemma is_blocking_update_physics (dt : Q) (c : Character) :
  is_blocking (_update_physics dt c) = is_blocking c.
Proof. unfold _update_physics. frames. Qed.

Lemma is_attacking_update_physics (dt : Q) (c : Character) :
  is_attacking (_update_physics dt c) = is_attacking c.
Proof. unfold _update_physics. frames. Qed.

Lemma attack_duration_update_physics (dt : Q) (c : Character) :
  attack_duration (_update_physics dt c) = attack_duration c.
Proof. unfold _update_physics. frames. Qed.

Lemma current_attack_id_update_physics (dt : Q) (c : Character) :
  current_attack_id (_update_physics dt c) = current_attack_id c.
Proof. unfold _update_physics. frames. Qed.

Lemma can_hit_update_physics (dt : Q) (c : Character) :
  can_hit (_update_physics dt c) = can_hit c.
Proof. unfold _update_physics. frames. Qed.

Lemma health_update_combat (dt : Q) (c : Character) :
  health (_update_combat dt c) = health c.
Proof. unfold _update_combat. frames. Qed.

Lemma animator_update_combat (dt : Q) (c : Character) :
  animator (_update_combat dt c) = animator c.
Proof. unfold _update_combat. frames. Qed.

Lemma is_dead_update_combat (dt : Q) (c : Character) :
  is_dead (_update_combat dt c) = is_dead c.
Proof. unfold _update_combat. frames. Qed.

Lemma x_update_combat (dt : Q) (c : Character) :
  x (_update_combat dt c) = x c.
Proof. unfold _update_combat. frames. Qed.

Lemma y_update_combat (dt : Q) (c : Character) :
  y (_update_combat dt c) = y c.
Proof. unfold _update_combat. frames. Qed.

Lemma width_update_combat (dt : Q) (c : Character) :
  width (_update_combat dt c) = width c.
Proof. unfold _update_combat. frames. Qed.

Lemma ground_y_update_combat (dt : Q) (c : Character) :
  ground_y (_update_combat dt c) = ground_y c.
Proof. unfold _update_combat. frames. Qed.

Lemma current_attack_id_update_combat (dt : Q) (c : Character) :
  current_attack_id (_update_combat dt c) = current_attack_id c.
Proof. unfold _update_combat. frames. Qed.

Lemma can_hit_update_combat (dt : Q) (c : Character) :
  can_hit (_update_combat dt c) = can_hit c.
Proof. unfold _update_combat. frames. Qed.

#[local] Hint Rewrite health_handle_input animator_handle_input is_dead_handle_input
  x_handle_input y_handle_input width_handle_input ground_y_handle_input
  health_update_physics animator_update_physics is_dead_update_physics
  width_update_physics ground_y_update_physics is_blocking_update_physics
  is_attacking_update_physics attack_duration_update_physics
  current_attack_id_update_physics can_hit_update_physics
  health_update_combat animator_update_combat is_dead_update_combat
  x_update_combat y_update_combat width_update_combat ground_y_update_combat
  current_attack_id_update_combat can_hit_update_combat : frame.

(** ** The animator stays in order *)

Lemma modify_length (i : nat) (f : Animation -> Animation) (s : list Animation) :
  List.length (modify i f s) = List.length s.
Proof.
  revert i. induction s as [|a rest IH]; intros [|j]; simpl; auto.
Qed.

Lemma lookup_in_store (name : string) (n : nat) (d : list (string * nat)) (id : nat) :
  forallb (fun p => Nat.ltb (snd p) n) d = true ->
  lookup name d = Some id -> Nat.ltb id n = true.
Proof.
  induction d as [|[k v] rest IH]; simpl; intros Hall Hl.
  - discriminate.
  - apply andb_true_iff in Hall. destruct Hall as [Hv Hrest].
    destruct (String.eqb k name).
    + injection Hl as <-. exact Hv.
    + auto.
Qed.

Lemma play_animation_ok (name : string) (reset : bool) (sa : SpriteAnimator) :
  animator_okb sa = true -> animator_okb (play_animation name reset sa) = true.
Proof.
  intro Hok. unfold play_animation.
  destruct (lookup name (animations sa)) as [id|] eqn:Hl; [|exact Hok].
  split_test; [|exact Hok].
  unfold animator_okb in *. apply andb_true_iff in Hok. destruct Hok as [_ Hall].
  simpl. rewrite modify_length.
  assert (Hlen : List.length (if reset then modify id Animation_reset (store sa)
                              else store sa) = List.length (store sa))
    by (destruct reset; [apply modify_length | reflexivity]).
  rewrite Hlen, Hall, (lookup_in_store _ _ _ _ Hall Hl). reflexivity.
Qed.

Lemma SpriteAnimator_update_ok (dt : Q) (sa : SpriteAnimator) :
  animator_okb sa = true -> animator_okb (SpriteAnimator_update dt sa) = true.
Proof.
  intro Hok. unfold SpriteAnimator_update.
  destruct (current_animation sa) as [id|] eqn:Hc; [|exact Hok].
  unfold animator_okb in *. simpl. rewrite Hc in *. rewrite modify_length.
  exact Hok.
Qed.

Lemma current_object_defined (sa : SpriteAnimator) :
  animator_okb sa = true -> exists a, current_object sa = Some a.
Proof.
  unfold animator_okb, current_object. intro Hok.
  destruct (current_animation sa) as [id|]; [|discriminate].
  apply andb_true_iff in Hok. destruct Hok as [Hid _].
  apply Nat.ltb_lt in Hid.
  destruct (nth_error (store sa) id) as [a|] eqn:Hn; [eauto|].
  apply nth_error_None in Hn. lia.
Qed.

(** ** The shape of a tick *)

Lemma with_animation_intro (c c' : Character) :
  x c' = x c -> y c' = y c -> velocity_x c' = velocity_x c ->
  velocity_y c' = velocity_y c -> facing_right c' = facing_right c ->
  health c' = health c -> speed c' = speed c ->
  is_attacking c' = is_attacking c -> is_blocking c' = is_blocking c ->
  is_dead c' = is_dead c -> is_hit c' = is_hit c ->
  hit_duration c' = hit_duration c -> attack_cooldown c' = attack_cooldown c ->
  attack_duration c' = attack_duration c ->
  current_attack_id c' = current_attack_id c ->
  is_special_attacking c' = is_special_attacking c ->
  special_attack_cooldown c' = special_attack_cooldown c ->
  special_attack_duration c' = special_attack_duration c ->
  special_attack_cooldown_time c' = special_attack_cooldown_time c ->
  current_special_attack_id c' = current_special_attack_id c ->
  stamina c' = stamina c -> god_mode c' = god_mode c ->
  is_stunned c' = is_stunned c -> stun_duration c' = stun_duration c ->
  last_block_time c' = last_block_time c -> ground_y c' = ground_y c ->
  on_ground c' = on_ground c -> width c' = width c -> height c' = height c ->
  c' = with_animation (animator c') (can_hit c') (can_special_hit c')
         (last_attack_id c') (last_special_attack_id c') c.
Proof.
  destruct c, c'; simpl; intros; subst; reflexivity.
Qed.

Lemma check_attack_hit_frame_shape (c c' : Character) :
  check_attack_hit_frame c = Some c' ->
  c' = c \/ c' = set_can_hit true c.
Proof.
  unfold check_attack_hit_frame. split_test; [|intros [= <-]; auto].
  destruct (current_object (animator c)); [|discriminate].
  split_test; intros [= <-]; auto.
Qed.

Lemma check_special_hit_frame_shape (c c' : Character) :
  check_special_hit_frame c = Some c' ->
  c' = c \/ c' = set_can_special_hit true c.
Proof.
  unfold check_special_hit_frame. split_test; [|intros [= <-]; auto].
  destruct (current_object (animator c)); [|discriminate].
  split_test; intros [= <-]; auto.
Qed.

Lemma update_animations_shape (dt : Q) (c c' : Character) :
  _update_animations dt c = Some c' ->
  c' = with_animation (animator c') (can_hit c') (can_special_hit c')
         (last_attack_id c') (last_special_attack_id c') c.
Proof.
  unfold _update_animations. cbv zeta.
  set (c0 := set_animator (SpriteAnimator_update dt (animator c)) c).
  intro H.
  assert (Hshape : exists c1 c2,
             (c1 = c0 \/ c1 = set_can_hit true c0)
             /\ (c2 = c1 \/ c2 = set_can_special_hit true c1)
             /\ (c' = c2 \/ c' = play "dead" true c2 \/ c' = choose_animation c2)).
  { destruct (is_dead c0).
    - exists c0, c0. split; [auto|]. split; [auto|].
      revert H. split_test; intros [= <-]; auto.
    - destruct (check_attack_hit_frame c0) as [c1|] eqn:H1; [|discriminate].
      destruct (check_special_hit_frame c1) as [c2|] eqn:H2; [|discriminate].
      injection H as <-. exists c1, c2.
      split; [apply check_attack_hit_frame_shape; assumption|].
      split; [apply check_special_hit_frame_shape; assumption|]. auto. }
  destruct Hshape as (c1 & c2 & H1 & H2 & H3).
  apply with_animation_intro;
    destruct H3 as [->|[->| ->]]; destruct H2 as [->| ->]; destruct H1 as [->| ->];
    subst c0; frames.
Qed.

Lemma update_animations_defined (dt : Q) (c : Character) :
  animator_okb (animator c) = true ->
  exists c', _update_animations dt c = Some c'
             /\ animator_okb (animator c') = true.
Proof.
  intro Hok. unfold _update_animations. cbv zeta.
  set (c0 := set_animator (SpriteAnimator_update dt (animator c)) c).
  assert (Hok0 : animator_okb (animator c0) = true)
    by (subst c0; simpl; apply SpriteAnimator_update_ok; exact Hok).
  clearbody c0. clear Hok c.
  assert (Hplay : forall name reset c,
             animator_okb (animator c) = true ->
             animator_okb (animator (play name reset c)) = true)
    by (intros; unfold play; simpl; apply play_animation_ok; assumption).
  destruct (is_dead c0).
  - split_test; eexists; split; try reflexivity; auto.
  - destruct (current_object_defined _ Hok0) as [a Ha].
    assert (H1 : exists c1, check_attack_hit_frame c0 = Some c1
                            /\ animator c1 = animator c0).
    { unfold check_attack_hit_frame. rewrite Ha.
      repeat split_test; eexists; split; reflexivity. }
    destruct H1 as (c1 & -> & Ha1).
    assert (H2 : exists c2, check_special_hit_frame c1 = Some c2
                            /\ animator c2 = animator c1).
    { unfold check_special_hit_frame. rewrite Ha1, Ha.
      repeat split_test; eexists; (split; [reflexivity|]); simpl; congruence. }
    destruct H2 as (c2 & -> & Ha2).
    eexists; split; [reflexivity|].
    assert (Hok2 : animator_okb (animator c2) = true) by congruence.
    clear - Hok2 Hplay. unfold choose_animation.
    repeat split_test; simpl; auto;
      try (apply play_animation_ok; assumption).
Qed.

(** Evaluates field accesses on assigned characters, and nothing else. *)
Ltac fields :=
  cbn [x y velocity_x velocity_y facing_right health speed is_attacking
       is_blocking is_dead is_hit hit_duration attack_cooldown attack_duration
       current_attack_id can_hit is_special_attacking special_attack_cooldown
       special_attack_duration special_attack_cooldown_time
       current_special_attack_id can_special_hit stamina god_mode is_stunned
       stun_duration last_block_time ground_y on_ground width height animator
       last_attack_id last_special_attack_id set_x set_y set_velocity_x
       set_velocity_y set_facing_right set_health set_is_attacking
       set_is_blocking set_is_dead set_is_hit set_hit_duration
       set_attack_cooldown set_attack_duration set_current_attack_id set_can_hit
       set_is_special_attacking set_special_attack_cooldown
       set_special_attack_duration set_current_special_attack_id
       set_can_special_hit set_stamina set_is_stunned set_stun_duration
       set_last_block_time set_ground_y set_on_ground set_animator
       set_last_attack_id set_last_special_attack_id] in *.

(** ** Health and stamina stay within their ranges *)

Ltac stamina_tac :=
  intros; unfold stamina_ok in *; autounfold with stages;
  unfold py_max, py_min, max_stamina, stamina_per_block, jump_stamina_cost,
    stamina_regen_rate in *;
  repeat split_test; fields; order_facts; lra.

Lemma handle_block_stamina_ok (input_state : PlayerInput) (c : Character) :
  stamina_ok c -> stamina_ok (handle_block input_state c).
Proof. stamina_tac. Qed.

Lemma handle_jump_stamina_ok (input_state : PlayerInput) (c : Character) :
  stamina_ok c -> stamina_ok (handle_jump input_state c).
Proof. stamina_tac. Qed.

Lemma regen_stamina_ok (dt : Q) (c : Character) :
  0 <= dt -> stamina_ok c -> stamina_ok (regen_stamina dt c).
Proof. stamina_tac. Qed.

Lemma handle_input_stamina_ok (input_state : PlayerInput) (dt : Q) (c : Character) :
  stamina_ok c -> stamina_ok (_handle_input input_state dt c).
Proof.
  intro H. unfold _handle_input. split_test; cbv zeta.
  - unfold stamina_ok in *. repeat peel. exact H.
  - assert (H1 := handle_block_stamina_ok input_state c H).
    set (c1 := handle_block input_state c) in *. clearbody c1.
    assert (H2 : stamina_ok (handle_jump input_state (handle_movement input_state c1))).
    { apply handle_jump_stamina_ok. unfold stamina_ok in *.
      repeat peel. exact H1. }
    unfold stamina_ok in *. repeat peel. exact H2.
Qed.

Lemma update_physics_stamina (dt : Q) (c : Character) :
  stamina (_update_physics dt c) = stamina c.
Proof. unfold _update_physics. frames. Qed.

Lemma update_combat_stamina_ok (dt : Q) (c : Character) :
  0 <= dt -> stamina_ok c -> stamina_ok (_update_combat dt c).
Proof.
  intros Hdt H. unfold _update_combat. cbv zeta.
  apply regen_stamina_ok; [exact Hdt|].
  unfold stamina_ok in *. repeat peel. exact H.
Qed.

Lemma update_defined (dt : Q) (player_input : PlayerInput) (c : Character) :
  animator_okb (animator c) = true ->
  exists c', update dt player_input c = Some c'
             /\ animator_okb (animator c') = true.
Proof.
  intro Hok. unfold update. destruct (is_dead c).
  - eexists. split; [reflexivity|]. simpl.
    apply SpriteAnimator_update_ok. exact Hok.
  - cbv zeta. apply update_animations_defined.
    rewrite animator_update_combat, animator_update_physics, animator_handle_input.
    exact Hok.
Qed.

(** A tick of a living combatant is its three state paragraphs followed
    by the animation bookkeeping. *)
Lemma update_alive_shape (dt : Q) (player_input : PlayerInput) (c c' : Character) :
  is_dead c = false ->
  update dt player_input c = Some c' ->
  c' = with_animation (animator c') (can_hit c') (can_special_hit c')
         (last_attack_id c') (last_special_attack_id c')
         (_update_combat dt (_update_physics dt (_handle_input player_input dt c))).
Proof.
  intros Hd H. unfold update in H. rewrite Hd in H. cbv zeta in H.
  apply update_animations_shape in H. exact H.
Qed.

(** A tick of a dead combatant only advances its animation. *)
Lemma update_dead_shape (dt : Q) (player_input : PlayerInput) (c : Character) :
  is_dead c = true ->
  update dt player_input c
  = Some (set_animator (SpriteAnimator_update dt (animator c)) c).
Proof. intro Hd. unfold update. rewrite Hd. reflexivity. Qed.

Lemma update_health (dt : Q) (player_input : PlayerInput) (c c' : Character) :
  update dt player_input c = Some c' -> health c' = health c.
Proof.
  intro H. destruct (is_dead c) eqn:Hd.
  - rewrite update_dead_shape in H by assumption. injection H as <-. reflexivity.
  - apply update_alive_shape in H; [|assumption]. rewrite H.
    unfold with_animation. frames.
Qed.

Lemma update_stamina_ok (dt : Q) (player_input : PlayerInput) (c c' : Character) :
  0 <= dt -> stamina_ok c ->
  update dt player_input c = Some c' -> stamina_ok c'.
Proof.
  intros Hdt Hs H. destruct (is_dead c) eqn:Hd.
  - rewrite update_dead_shape in H by assumption. injection H as <-. exact Hs.
  - apply update_alive_shape in H; [|assumption]. rewrite H.
    unfold stamina_ok, with_animation. repeat peel.
    apply update_combat_stamina_ok; [exact Hdt|].
    unfold stamina_ok. rewrite update_physics_stamina.
    apply handle_input_stamina_ok. exact Hs.
Qed.

Lemma take_damage_animator_ok (damage : Z) (attacker_x : Q) (c : Character) :
  animator_okb (animator c) = true ->
  animator_okb (animator (snd (take_damage damage attacker_x c))) = true.
Proof.
  intro Hok. unfold take_damage, play.
  repeat split_test; simpl; try exact Hok; apply play_animation_ok; exact Hok.
Qed.

Lemma take_damage_in_bounds (damage : Z) (attacker_x : Q) (c : Character) :
  (0 <= damage)%Z -> in_bounds c ->
  in_bounds (snd (take_damage damage attacker_x c)).
Proof.
  unfold in_bounds, take_damage, play, max_health.
  intros Hdmg (Hh & Hs).
  repeat split_test; simpl; (split; [lia | exact Hs]).
Qed.

Lemma apply_op_in_bounds (o : Op) (c : Character) :
  valid_op o -> animator_okb (animator c) = true -> in_bounds c ->
  exists c', apply_op o c = Some c'
             /\ animator_okb (animator c') = true /\ in_bounds c'.
Proof.
  intros Hv Hok Hb. destruct o as [dt input | amount attacker_x]; simpl in *.
  - destruct (update_defined dt input c Hok) as (c' & Hu & Hok').
    exists c'. split; [exact Hu|]. split; [exact Hok'|].
    destruct Hb as (Hh & Hs). split.
    + rewrite (update_health _ _ _ _ Hu). exact Hh.
    + apply (update_stamina_ok dt input c c' Hv Hs Hu).
  - eexists. split; [reflexivity|]. split.
    + apply take_damage_animator_ok. exact Hok.
    + apply take_damage_in_bounds; assumption.
Qed.

(** C3.  From a combatant whose health and stamina are within their
    ranges, every sequence of [update] ticks with [dt >= 0] and of
    [take_damage] calls runs to its end, and health stays in
    [0, max_health] and stamina in [0, max_stamina]; stamina in particular
    never becomes negative, however many blocks and jumps consume it. *)
Theorem health_and_stamina_stay_in_bounds (ops : list Op) :
  forall c : Character,
    animator_okb (animator c) = true ->
    in_bounds c ->
    Forall valid_op ops ->
    exists c', apply_ops ops c = Some c'
               /\ (0 <= health c' <= max_health)%Z
               /\ 0 <= stamina c' /\ stamina c' <= max_stamina.
Proof.
  induction ops as [|o rest IH]; intros c Hok Hb Hv.
  - exists c. split; [reflexivity | exact Hb].
  - inversion Hv as [|? ? Ho Hrest]; subst.
    destruct (apply_op_in_bounds o c Ho Hok Hb) as (c1 & H1 & Hok1 & Hb1).
    destruct (IH c1 Hok1 Hb1 Hrest) as (c' & H' & Hb').
    exists c'. split; [|exact Hb']. simpl. rewrite H1. exact H'.
Qed.

(** Both samurai start in such a state, whatever the sprite sheets. *)
Lemma samurai_start_in_bounds (assets : SpriteAssets) (x0 y0 : Q) :
  animator_okb (animator (Samurai1 assets x0 y0)) = true
  /\ in_bounds (Samurai1 assets x0 y0)
  /\ animator_okb (animator (Samurai2 assets x0 y0)) = true
  /\ in_bounds (Samurai2 assets x0 y0).
Proof.
  unfold in_bounds, max_health, max_stamina. simpl.
  repeat split; try reflexivity; try lia; discriminate.
Qed.

(** C3 at work: a block, a jump, a hit and a long rest. *)
Lemma health_and_stamina_stay_in_bounds_witness :
  exists c',
    apply_ops
      [Update_op (1 # 50) (mkPlayerInput false false false false false true false);
       Update_op (1 # 50) (mkPlayerInput false false true false false false false);
       TakeDamage_op 3 600;
       Update_op 10 PlayerInput_init]
      (Samurai1 demo_assets 150 335) = Some c'
    /\ (0 <= health c' <= max_health)%Z
    /\ 0 <= stamina c' /\ stamina c' <= max_stamina.
Proof.
  apply health_and_stamina_stay_in_bounds.
  - reflexivity.
  - unfold in_bounds, max_health, max_stamina. simpl.
    split; [lia|]. split; discriminate.
  - repeat constructor; simpl; try lia; discriminate.
Defined.

(** ** A tick with [dt = 0] *)

Lemma update_position_x (dt : Q) (c : Character) :
  x (update_position dt c) = x c + velocity_x c * dt.
Proof. reflexivity. Qed.

Lemma update_position_y (dt : Q) (c : Character) :
  y (update_position dt c) = y c + velocity_y c * dt.
Proof. reflexivity. Qed.

Lemma update_physics_zero_x (c : Character) :
  - (100) <= x c -> x c <= 900 - inject_Z (width c) ->
  x (_update_physics 0 c) == x c.
Proof.
  intros Hl Hr. unfold _update_physics. cbv zeta.
  set (c3 := ground_collision (update_position 0 (apply_gravity 0 c))).
  assert (Hx : x c3 == x c).
  { subst c3. peel. rewrite update_position_x. repeat peel. ring. }
  assert (Hw : width c3 = width c) by (subst c3; frames).
  clearbody c3. unfold screen_boundaries. cbv zeta.
  repeat split_test; fields; order_facts; rewrite ?Hw in *; lra.
Qed.

Lemma update_physics_zero_y (c : Character) :
  y c <= ground_y c -> y (_update_physics 0 c) == y c.
Proof.
  intro Hy. unfold _update_physics. cbv zeta. peel.
  set (c2 := update_position 0 (apply_gravity 0 c)).
  assert (Hy2 : y c2 == y c).
  { subst c2. rewrite update_position_y. repeat peel. ring. }
  assert (Hg : ground_y c2 = ground_y c) by (subst c2; frames).
  clearbody c2. unfold ground_collision.
  split_test; fields; order_facts; rewrite ?Hg in *; lra.
Qed.

(** What a tick with [dt = 0] does leave alone: it is accepted for every
    combatant and every intent, health and the dead flag stay as they
    were, and so does the position when the combatant stands inside the
    arena and not below its ground line.  On a dead combatant the tick
    touches nothing but the animation. *)
Lemma update_with_zero_dt (c : Character) (player_input : PlayerInput)
    (Hok : animator_okb (animator c) = true) :
  exists c',
    update 0 player_input c = Some c'
    /\ health c' = health c
    /\ is_dead c' = is_dead c
    /\ (- (100) <= x c -> x c <= 900 - inject_Z (width c) -> x c' == x c)
    /\ (y c <= ground_y c -> y c' == y c)
    /\ (is_dead c = true ->
        c' = set_animator (SpriteAnimator_update 0 (animator c)) c).
Proof.
  destruct (update_defined 0 player_input c Hok) as (c' & Hu & _).
  exists c'. split; [exact Hu|].
  split; [apply (update_health _ _ _ _ Hu)|].
  destruct (is_dead c) eqn:Hd.
  - rewrite update_dead_shape in Hu by assumption. injection Hu as <-.
    fields. split; [exact Hd|]. split; [reflexivity|]. split; reflexivity.
  - apply update_alive_shape in Hu; [|assumption].
    split; [|split; [|split; [|discriminate]]].
    + rewrite Hu. unfold with_animation. frames. exact Hd.
    + intros Hl Hr. rewrite Hu. unfold with_animation. frames.
      rewrite update_physics_zero_x by (frames; assumption). frames.
    + intro Hy. rewrite Hu. unfold with_animation. frames.
      rewrite update_physics_zero_y by (frames; assumption). frames.
Qed.


(** C8 on the code: a tick with [dt = 0] still applies the intent.  A
    fresh player who presses block and attack during such a tick pays the
    block's stamina and starts an attack; and five such ticks with the
    jump key held spend all the stamina and leave the player stunned. *)
Theorem zero_dt_ticks_apply_intent :
  let c := Samurai1 demo_assets 150 335 in
  (exists c',
     update 0 (mkPlayerInput false false false false true true false) c = Some c'
     /\ is_attacking c = false /\ is_attacking c' = true
     /\ stamina c == 100 /\ stamina c' == 50)
  /\ (exists c',
        apply_ops
          (repeat (Update_op 0 (mkPlayerInput false false true false false false false)) 5)
          c = Some c'
        /\ is_stunned c = false /\ is_stunned c' = true
        /\ stamina c' == 0).
Proof.
  cbv zeta. split.
  - eexists. split; [vm_compute; reflexivity|].
    repeat split; reflexivity.
  - eexists. split; [vm_compute; reflexivity|].
    repeat split; reflexivity.
Qed.

(** ** Attacking out of a block *)

Lemma handle_block_while_blocking (input_state : PlayerInput) (c : Character) :
  is_blocking c = true ->
  handle_block input_state c
  = set_is_blocking
      (block input_state && (Qltb 0 (stamina c) && negb (is_attacking c))) c.
Proof.
  intro H. unfold handle_block. cbv zeta. fields. rewrite H.
  rewrite andb_false_r. reflexivity.
Qed.

Lemma handle_jump_not_stunned (input_state : PlayerInput) (c : Character) :
  is_stunned c = false ->
  ~ (up input_state = true /\ on_ground c = true /\ is_blocking c = false
     /\ stamina c == jump_stamina_cost) ->
  is_stunned (handle_jump input_state c) = false.
Proof.
  intros Hs Hj. unfold handle_jump, stun_if_depleted. cbv zeta.
  split_test; [|exact Hs]. fields.
  split_test; fields; [|exact Hs].
  exfalso. apply Hj.
  repeat match goal with
         | H : _ && _ = true |- _ => apply andb_true_iff in H; destruct H
         end.
  unfold py_max, jump_stamina_cost in *.
  repeat split; try assumption.
  - apply negb_true_iff. assumption.
  - revert Heqb0. split_test; intros; order_facts; lra.
Qed.

Lemma handle_attack_starts (input_state : PlayerInput) (c : Character) :
  attack input_state = true -> is_attacking c = false ->
  is_special_attacking c = false -> attack_cooldown c <= 0 ->
  is_stunned c = false ->
  handle_attack input_state c = start_attack c.
Proof.
  intros Hi Ha Hs Hc Hst. unfold handle_attack.
  apply Qleb_true_iff in Hc. rewrite Hi, Ha, Hs, Hc, Hst. reflexivity.
Qed.

Lemma start_attack_effect (c : Character) :
  is_attacking (start_attack c) = true
  /\ attack_duration (start_attack c) = 12 # 25
  /\ is_blocking (start_attack c) = false
  /\ current_attack_id (start_attack c) = (current_attack_id c + 1)%Z
  /\ can_hit (start_attack c) = false.
Proof. repeat split; reflexivity. Qed.

Lemma handle_special_while_attacking (input_state : PlayerInput) (c : Character) :
  is_attacking c = true -> handle_special input_state c = c.
Proof.
  intro Ha. unfold handle_special. rewrite Ha.
  rewrite andb_false_r. reflexivity.
Qed.

(** The input paragraph of the tick, for a blocking combatant who
    attacks. *)
Lemma handle_input_attack_out_of_block
    (input_state : PlayerInput) (dt : Q) (c : Character) :
  is_blocking c = true -> is_stunned c = false -> is_attacking c = false ->
  is_special_attacking c = false -> attack_cooldown c <= 0 ->
  attack input_state = true ->
  ~ (up input_state = true /\ on_ground c = true /\ block input_state = false
     /\ stamina c == jump_stamina_cost) ->
  exists c3,
    _handle_input input_state dt c = start_attack c3
    /\ current_attack_id c3 = current_attack_id c.
Proof.
  intros Hb Hst Ha Hsp Hcd Hi Hj.
  unfold _handle_input. rewrite Hst. cbv zeta.
  rewrite (handle_block_while_blocking _ _ Hb). rewrite Ha. simpl negb.
  rewrite andb_true_r.
  set (c1 := set_is_blocking (block input_state && Qltb 0 (stamina c)) c).
  set (c2 := handle_movement input_state c1).
  set (c3 := handle_jump input_state c2).
  assert (Hst3 : is_stunned c3 = false).
  { subst c3. apply handle_jump_not_stunned.
    - subst c2 c1. frames. exact Hst.
    - intros (Hu & Hg & Hb2 & Hs). apply Hj.
      assert (Hs' : stamina c == jump_stamina_cost)
        by (rewrite <- Hs; subst c2 c1; frames).
      split; [exact Hu|]. split; [rewrite <- Hg; subst c2 c1; frames|].
      split; [|exact Hs'].
      assert (Hb1 : is_blocking c2 = block input_state && Qltb 0 (stamina c))
        by (subst c2 c1; frames).
      rewrite Hb1 in Hb2. apply andb_false_iff in Hb2.
      destruct Hb2 as [Hb2|Hb2]; [exact Hb2|].
      apply Qltb_false_iff in Hb2. unfold jump_stamina_cost in Hs'. lra. }
  assert (Ha3 : is_attacking c3 = false) by (subst c3 c2 c1; frames; exact Ha).
  assert (Hsp3 : is_special_attacking c3 = false)
    by (subst c3 c2 c1; frames; exact Hsp).
  assert (Hcd3 : attack_cooldown c3 = attack_cooldown c) by (subst c3 c2 c1; frames).
  assert (Hid3 : current_attack_id c3 = current_attack_id c)
    by (subst c3 c2 c1; frames).
  clearbody c3. exists c3. split; [|exact Hid3].
  rewrite (handle_attack_starts input_state c3 Hi Ha3 Hsp3); try assumption.
  - apply handle_special_while_attacking. apply start_attack_effect.
  - rewrite Hcd3. exact Hcd.
Qed.

Lemma update_combat_not_blocking (dt : Q) (c : Character) :
  is_blocking c = false -> is_blocking (_update_combat dt c) = false.
Proof.
  intro H. unfold _update_combat. cbv zeta. repeat peel.
  unfold tick_stun. repeat split_test; fields; auto.
Qed.

Lemma update_combat_still_attacking (dt : Q) (c : Character) :
  is_attacking c = true -> dt < attack_duration c ->
  is_attacking (_update_combat dt c) = true.
Proof.
  intros H Hdt. unfold _update_combat. cbv zeta. repeat peel.
  set (c1 := tick_stun dt c).
  assert (H1 : is_attacking c1 = true) by (subst c1; frames; exact H).
  assert (H2 : attack_duration c1 = attack_duration c) by (subst c1; frames).
  clearbody c1. unfold tick_attack. rewrite H1. cbv zeta. fields.
  split_test; fields; [|exact H1].
  order_facts. rewrite H2 in *. lra.
Qed.

(** C9, as the code has it: a living combatant who is blocking, is not
    stunned or attacking and has no attack cooldown left starts an attack
    and drops the block in the tick whose intent has [attack] set, unless
    that same tick's jump spends the last of the stamina and stuns it.
    The attack is still in progress after the tick when [dt] is shorter
    than the attack itself. *)
Theorem attack_starts_out_of_block
    (c : Character) (player_input : PlayerInput) (dt : Q)
    (Hok : animator_okb (animator c) = true)
    (Halive : is_dead c = false)
    (Hblocking : is_blocking c = true)
    (Hstunned : is_stunned c = false)
    (Hattacking : is_attacking c = false)
    (Hspecial : is_special_attacking c = false)
    (Hcooldown : attack_cooldown c <= 0)
    (Hattack : attack player_input = true)
    (Hjump : ~ (up player_input = true /\ on_ground c = true
                /\ block player_input = false
                /\ stamina c == jump_stamina_cost)) :
  exists c',
    update dt player_input c = Some c'
    /\ current_attack_id c' = (current_attack_id c + 1)%Z
    /\ is_blocking c' = false
    /\ (dt < 12 # 25 -> is_attacking c' = true).
Proof.
  destruct (update_defined dt player_input c Hok) as (c' & Hu & _).
  exists c'. split; [exact Hu|].
  apply update_alive_shape in Hu; [|assumption].
  destruct (handle_input_attack_out_of_block player_input dt c)
    as (c3 & Hin & Hid); try assumption.
  rewrite Hin in Hu. clear Hin.
  destruct (start_attack_effect c3) as (Ha & Hd & Hb & Hi & _).
  split; [|split].
  - rewrite Hu. unfold with_animation. frames. rewrite Hi, Hid. reflexivity.
  - rewrite Hu. unfold with_animation. repeat peel.
    apply update_combat_not_blocking. frames; exact Hb.
  - intro Hdt. rewrite Hu. unfold with_animation. repeat peel.
    apply update_combat_still_attacking; frames; try exact Ha.
    rewrite Hd. exact Hdt.
Qed.

Lemma attack_starts_out_of_block_witness :
  exists c',
    update (1 # 50) (mkPlayerInput false false false false true true false)
      (set_is_blocking true (Samurai1 demo_assets 150 335)) = Some c'
    /\ current_attack_id c' = 1%Z
    /\ is_blocking c' = false
    /\ (1 # 50 < 12 # 25 -> is_attacking c' = true).
Proof.
  apply (attack_starts_out_of_block
           (set_is_blocking true (Samurai1 demo_assets 150 335))
           (mkPlayerInput false false false false true true false) (1 # 50));
    try reflexivity.
  - discriminate.
  - intros (H & _). discriminate H.
Defined.

(** C9 as stated fails.  The player blocks, rests, blocks again and is
    left blocking with exactly the stamina of one jump; releasing the
    block while pressing up and attack makes the jump spend that stamina,
    the stun follows, and no attack starts. *)
Lemma attack_lost_to_jump_stun :
  let block_only := mkPlayerInput false false false false false true false in
  let jump_attack := mkPlayerInput false false true false true false false in
  exists c c',
    apply_ops [Update_op (1 # 50) block_only; Update_op (4 # 5) PlayerInput_init;
               Update_op (1 # 50) block_only]
      (Samurai1 demo_assets 150 335) = Some c
    /\ is_dead c = false /\ is_blocking c = true /\ is_stunned c = false
    /\ is_attacking c = false /\ is_special_attacking c = false
    /\ attack_cooldown c <= 0
    /\ update (1 # 50) jump_attack c = Some c'
    /\ is_attacking c' = false
    /\ current_attack_id c' = current_attack_id c
    /\ is_stunned c' = true.
Proof.
  cbv zeta. eexists. eexists.
  split; [vm_compute; reflexivity|].
  repeat (split; [reflexivity|]).
  split; [discriminate|].
  split; [vm_compute; reflexivity|].
  repeat split; reflexivity.
Qed.

(** ** The hit latch *)

Lemma handle_input_keeps_latch_clear
    (input_state : PlayerInput) (dt : Q) (c : Character) :
  can_hit c = false -> can_hit (_handle_input input_state dt c) = false.
Proof.
  intro Hc. unfold _handle_input. cbv zeta.
  split_test; [frames; exact Hc|]. peel.
  set (c3 := handle_jump input_state
               (handle_movement input_state (handle_block input_state c))).
  assert (Hc3 : can_hit c3 = false) by (subst c3; frames; exact Hc).
  clearbody c3. unfold handle_attack. split_test; [|exact Hc3].
  apply start_attack_effect.
Qed.

Lemma update_animations_latch (dt : Q) (c c' : Character) :
  can_hit c = false -> is_dead c = false ->
  _update_animations dt c = Some c' ->
  can_hit c' = true ->
  is_special_attacking c' = false ->
  current_animation_name (animator c') = "attack"
  /\ exists a, current_object (animator c') = Some a
               /\ (attack_hit_frame <= current_frame a)%nat.
Proof.
  intros Hc Hd Hu Hc' Hsp.
  unfold _update_animations in Hu. cbv zeta in Hu.
  set (c0 := set_animator (SpriteAnimator_update dt (animator c)) c) in *.
  assert (Hc0 : can_hit c0 = false) by (subst c0; exact Hc).
  assert (Hd0 : is_dead c0 = false) by (subst c0; exact Hd).
  clearbody c0. rewrite Hd0 in Hu.
  destruct (check_attack_hit_frame c0) as [c1|] eqn:H1; [|discriminate].
  destruct (check_special_hit_frame c1) as [c2|] eqn:H2; [|discriminate].
  injection Hu as <-.
  assert (Hsp2 : is_special_attacking c2 = false).
  { rewrite <- Hsp. symmetry. peel. reflexivity. }
  assert (Hch : can_hit c2 = true /\ animator (choose_animation c2) = animator c2).
  { revert Hc'. unfold choose_animation. rewrite Hsp2.
    destruct (is_attacking c2) eqn:Ha2.
    - split_test; fields; [discriminate | auto].
    - intro Hc2.
      assert (Hk : can_hit c2 = true)
        by (revert Hc2; unfold play; repeat split_test; fields; auto).
      exfalso. clear Hc2.
      apply check_special_hit_frame_shape in H2.
      assert (Ha1 : is_attacking c1 = false)
        by (destruct H2 as [->| ->]; fields; exact Ha2).
      assert (Hk1 : can_hit c1 = true)
        by (destruct H2 as [->| ->]; fields; exact Hk).
      assert (Ha0 : is_attacking c0 = false).
      { apply check_attack_hit_frame_shape in H1.
        destruct H1 as [->| ->]; fields; exact Ha1. }
      unfold check_attack_hit_frame in H1. rewrite Ha0 in H1. simpl in H1.
      injection H1 as <-. congruence. }
  destruct Hch as [Hk2 Han]. rewrite Han.
  apply check_special_hit_frame_shape in H2.
  assert (Hk1 : can_hit c1 = true /\ animator c2 = animator c1)
    by (destruct H2 as [->| ->]; fields; auto).
  destruct Hk1 as [Hk1 Han1]. rewrite Han1.
  revert H1. unfold check_attack_hit_frame.
  split_test; [|intros [= <-]; congruence].
  destruct (current_object (animator c0)) as [a|] eqn:Ho; [|discriminate].
  split_test; intros [= <-]; [|congruence]. fields.
  repeat match goal with
         | H : _ && _ = true |- _ => apply andb_true_iff in H; destruct H
         end.
  split.
  - apply String.eqb_eq. assumption.
  - exists a. split; [exact Ho|]. apply Nat.leb_le. assumption.
Qed.

(** C1, the first half: the latch turns on at the hit frame only.  When a
    tick of a combatant that is not in a special attack ends with
    [can_hit] set although it began with [can_hit] clear, the attack
    animation is the current one and shows frame 4 or a later one. *)
Lemma hit_latch_set_at_hit_frame
    (dt : Q) (player_input : PlayerInput) (c c' : Character) :
  can_hit c = false ->
  update dt player_input c = Some c' ->
  can_hit c' = true ->
  is_special_attacking c' = false ->
  current_animation_name (animator c') = "attack"
  /\ exists a, current_object (animator c') = Some a
               /\ (attack_hit_frame <= current_frame a)%nat.
Proof.
  intros Hc Hu Hc' Hsp.
  destruct (is_dead c) eqn:Hd.
  { rewrite update_dead_shape in Hu by assumption. injection Hu as <-.
    simpl in Hc'. congruence. }
  unfold update in Hu. rewrite Hd in Hu. cbv zeta in Hu.
  refine (update_animations_latch dt _ c' _ _ Hu Hc' Hsp).
  - frames. apply handle_input_keeps_latch_clear. exact Hc.
  - frames. exact Hd.
Qed.
(** C1, the second half, on the code: one attack, several damage
    applications.  The player walks up to the idle twin and attacks once.
    Fifteen ticks later there is still no hitbox; on the sixteenth the
    hit frame is reached and the twin loses 3 health; on the seventeenth
    the same attack takes 3 more, and so on every tick while the attack
    lasts: 21 in all, the attack id still being 1. *)
Theorem one_attack_damages_every_tick :
  exists s15 s16 s17 s22,
    FightScene.run (approach_and_attack idle 15) (FightScene.init demo_assets)
    = Some s15
    /\ FightScene.run [(1 # 50, idle, idle)] s15 = Some s16
    /\ FightScene.run [(1 # 50, idle, idle)] s16 = Some s17
    /\ FightScene.run (repeat (1 # 50, idle, idle) 5) s17 = Some s22
    /\ get_attack_rect (FightScene.player1 s15) = None
    /\ health (FightScene.player2 s15) = 100%Z
    /\ current_attack_id (FightScene.player1 s16) = 1%Z
    /\ health (FightScene.player2 s16) = 97%Z
    /\ current_attack_id (FightScene.player1 s17) = 1%Z
    /\ health (FightScene.player2 s17) = 94%Z
    /\ current_attack_id (FightScene.player1 s22) = 1%Z
    /\ is_attacking (FightScene.player1 s22) = true
    /\ health (FightScene.player2 s22) = 79%Z.
Proof.
  eexists. eexists. eexists. eexists.
  split; [vm_compute; reflexivity|].
  split; [vm_compute; reflexivity|].
  split; [vm_compute; reflexivity|].
  split; [vm_compute; reflexivity|].
  repeat split; reflexivity.
Qed.

(** ** The combat mediator *)

Lemma take_damage_can_hit (damage : Z) (attacker_x : Q) (c : Character) :
  can_hit (snd (take_damage damage attacker_x c)) = can_hit c.
Proof. unfold take_damage, play. repeat split_test; reflexivity. Qed.

Lemma take_damage_can_special_hit (damage : Z) (attacker_x : Q) (c : Character) :
  can_special_hit (snd (take_damage damage attacker_x c)) = can_special_hit c.
Proof. unfold take_damage, play. repeat split_test; reflexivity. Qed.

Lemma get_attack_rect_latched (c : Character) (r : Rect) :
  get_attack_rect c = Some r -> can_hit c = true.
Proof.
  unfold get_attack_rect. destruct (is_attacking c), (can_hit c);
    simpl; intro H; (discriminate H || reflexivity).
Qed.

Lemma get_special_attack_rect_latched (c : Character) (r : Rect) :
  get_special_attack_rect c = Some r -> can_special_hit c = true.
Proof.
  unfold get_special_attack_rect.
  destruct (is_special_attacking c), (can_special_hit c);
    simpl; intro H; (discriminate H || reflexivity).
Qed.

(** Follows one hit test of [_handle_combat] through its branches. *)
Ltac hit_test :=
  repeat match goal with
         | |- context [match ?o with Some _ => _ | None => _ end] =>
             destruct o eqn:?
         | |- context [let '(_, _) := ?p in _] => destruct p eqn:?
         | |- context [if ?b then _ else _] => destruct b eqn:?
         end;
  simpl in *;
  repeat match goal with
         | H : take_damage ?d ?ax ?c = (_, ?p) |- _ =>
             let Hp := fresh "Hp" in
             assert (Hp : p = snd (take_damage d ax c)) by (rewrite H; reflexivity);
             apply (f_equal fst) in H; simpl in H; subst p
         end.

Ltac latch_kept :=
  intros; hit_test;
  rewrite ?take_damage_can_hit, ?take_damage_can_special_hit;
  solve [reflexivity | congruence].

Section FightSceneCombat.
Import FightScene.

Lemma p1_attack_hits_latch (s : t) :
  (hit_lands (get_attack_rect (player1 s))
     (if god_mode (player1 s) then 100 else 3)%Z (player1 s) (player2 s) = true ->
   can_hit (player1 (p1_attack_hits s)) = false)
  /\ (attack_blocked (get_attack_rect (player1 s)) (player1 s) (player2 s) = true ->
      can_hit (player1 (p1_attack_hits s)) = true).
Proof.
  unfold hit_lands, attack_blocked, p1_attack_hits.
  destruct (get_attack_rect (player1 s)) as [r|] eqn:Hr;
    [|split; discriminate].
  apply get_attack_rect_latched in Hr.
  destruct (colliderect r (get_rect (player2 s))); [|split; discriminate].
  simpl. split; intro H.
  - destruct (take_damage _ _ _) as [hit p2]. simpl in H. subst hit. reflexivity.
  - rewrite (take_damage_blocked _ _ _ H). simpl. exact Hr.
Qed.

Lemma p1_special_attack_hits_latch (s : t) :
  (hit_lands (get_special_attack_rect (player1 s))
     (if god_mode (player1 s) then 100 else 8)%Z (player1 s) (player2 s) = true ->
   can_special_hit (player1 (p1_special_attack_hits s)) = false)
  /\ (attack_blocked (get_special_attack_rect (player1 s)) (player1 s) (player2 s)
      = true ->
      can_special_hit (player1 (p1_special_attack_hits s)) = true).
Proof.
  unfold hit_lands, attack_blocked, p1_special_attack_hits.
  destruct (get_special_attack_rect (player1 s)) as [r|] eqn:Hr;
    [|split; discriminate].
  apply get_special_attack_rect_latched in Hr.
  destruct (colliderect r (get_rect (player2 s))); [|split; discriminate].
  simpl. split; intro H.
  - destruct (take_damage _ _ _) as [hit p2]. simpl in H. subst hit. reflexivity.
  - rewrite (take_damage_blocked _ _ _ H). simpl. exact Hr.
Qed.

Lemma p2_attack_hits_latch (s : t) :
  (hit_lands (get_attack_rect (player2 s)) 3 (player2 s) (player1 s) = true ->
   can_hit (player2 (p2_attack_hits s)) = false)
  /\ (attack_blocked (get_attack_rect (player2 s)) (player2 s) (player1 s) = true ->
      can_hit (player2 (p2_attack_hits s)) = true).
Proof.
  unfold hit_lands, attack_blocked, p2_attack_hits.
  destruct (get_attack_rect (player2 s)) as [r|] eqn:Hr;
    [|split; discriminate].
  apply get_attack_rect_latched in Hr.
  destruct (colliderect r (get_rect (player1 s))); [|split; discriminate].
  simpl. split; intro H.
  - destruct (take_damage _ _ _) as [hit p1]. simpl in H. subst hit. reflexivity.
  - rewrite (take_damage_blocked _ _ _ H). simpl. exact Hr.
Qed.

Lemma p2_special_attack_hits_latch (s : t) :
  (hit_lands (get_special_attack_rect (player2 s)) 8 (player2 s) (player1 s) = true ->
   can_special_hit (player2 (p2_special_attack_hits s)) = false)
  /\ (attack_blocked (get_special_attack_rect (player2 s)) (player2 s) (player1 s)
      = true ->
      can_special_hit (player2 (p2_special_attack_hits s)) = true).
Proof.
  unfold hit_lands, attack_blocked, p2_special_attack_hits.
  destruct (get_special_attack_rect (player2 s)) as [r|] eqn:Hr;
    [|split; discriminate].
  apply get_special_attack_rect_latched in Hr.
  destruct (colliderect r (get_rect (player1 s))); [|split; discriminate].
  simpl. split; intro H.
  - destruct (take_damage _ _ _) as [hit p1]. simpl in H. subst hit. reflexivity.
  - rewrite (take_damage_blocked _ _ _ H). simpl. exact Hr.
Qed.

(** The later hit tests leave the latches of the earlier ones alone. *)
Lemma p1_special_keeps_can_hit_p1 (s : t) :
  can_hit (player1 (p1_special_attack_hits s)) = can_hit (player1 s).
Proof. unfold p1_special_attack_hits. latch_kept. Qed.

Lemma p2_attack_keeps_can_hit_p1 (s : t) :
  can_hit (player1 (p2_attack_hits s)) = can_hit (player1 s).
Proof. unfold p2_attack_hits. latch_kept. Qed.

Lemma p2_special_keeps_can_hit_p1 (s : t) :
  can_hit (player1 (p2_special_attack_hits s)) = can_hit (player1 s).
Proof. unfold p2_special_attack_hits. latch_kept. Qed.

Lemma p2_attack_keeps_can_special_hit_p1 (s : t) :
  can_special_hit (player1 (p2_attack_hits s)) = can_special_hit (player1 s).
Proof. unfold p2_attack_hits. latch_kept. Qed.

Lemma p2_special_keeps_can_special_hit_p1 (s : t) :
  can_special_hit (player1 (p2_special_attack_hits s))
  = can_special_hit (player1 s).
Proof. unfold p2_special_attack_hits. latch_kept. Qed.

Lemma p2_special_keeps_can_hit_p2 (s : t) :
  can_hit (player2 (p2_special_attack_hits s)) = can_hit (player2 s).
Proof. unfold p2_special_attack_hits. latch_kept. Qed.

End FightSceneCombat.

Section Level2SceneCombat.
Import Level2Scene.

Lemma block_cost_can_hit (c : Character) : can_hit (block_cost c) = can_hit c.
Proof.
  unfold block_cost, start_stun, play. cbv zeta.
  repeat (split_test || match goal with
                        | |- context [match ?o with Some _ => _ | None => _ end] =>
                            destruct o
                        end); reflexivity.
Qed.

Lemma deal_damage_can_hit (damage : Z) (c : Character) :
  can_hit (_deal_damage damage c) = can_hit c.
Proof. unfold _deal_damage. cbv zeta. split_test; reflexivity. Qed.

Lemma player1_attacks_latch (distance : Q) (s : t) :
  in_reach (player1 s) (player2 s) distance = true ->
  can_hit (player1 (player1_attacks distance s)) = false.
Proof.
  unfold in_reach, player1_attacks. intros ->. split_test; reflexivity.
Qed.

Lemma player2_attacks_latch (distance : Q) (s : t) :
  in_reach (player2 s) (player1 s) distance = true ->
  can_hit (player2 (player2_attacks distance s)) = false.
Proof.
  unfold in_reach, player2_attacks. intros ->. split_test; reflexivity.
Qed.

Lemma player2_attacks_keeps_can_hit_p1 (distance : Q) (s : t) :
  can_hit (player1 (player2_attacks distance s)) = can_hit (player1 s).
Proof.
  unfold player2_attacks. repeat split_test; simpl;
    rewrite ?block_cost_can_hit, ?deal_damage_can_hit; reflexivity.
Qed.

End Level2SceneCombat.

(** C4, as the code has it.  In [FightScene._handle_combat] each of the
    four hit tests clears the attacker's latch in the same call when
    [take_damage] reports a damaging hit, and the latch is still clear
    when the call returns; an effective block leaves the latch set.  In
    [Level2Scene._check_collisions] an attack in reach clears [can_hit]
    in the same call whether it is blocked or lands. *)
Theorem mediator_clears_latch_on_hit :
  (forall s : FightScene.t,
     let s1 := FightScene.p1_attack_hits s in
     let s2 := FightScene.p1_special_attack_hits s1 in
     let s3 := FightScene.p2_attack_hits s2 in
     let s4 := FightScene._handle_combat s in
     let p1 := FightScene.player1 in
     let p2 := FightScene.player2 in
     (hit_lands (get_attack_rect (p1 s))
        (if god_mode (p1 s) then 100 else 3)%Z (p1 s) (p2 s) = true ->
      can_hit (p1 s4) = false)
     /\ (hit_lands (get_special_attack_rect (p1 s1))
           (if god_mode (p1 s1) then 100 else 8)%Z (p1 s1) (p2 s1) = true ->
         can_special_hit (p1 s4) = false)
     /\ (hit_lands (get_attack_rect (p2 s2)) 3 (p2 s2) (p1 s2) = true ->
         can_hit (p2 s4) = false)
     /\ (hit_lands (get_special_attack_rect (p2 s3)) 8 (p2 s3) (p1 s3) = true ->
         can_special_hit (p2 s4) = false)
     /\ (attack_blocked (get_attack_rect (p1 s)) (p1 s) (p2 s) = true ->
         can_hit (p1 s4) = true)
     /\ (attack_blocked (get_special_attack_rect (p1 s1)) (p1 s1) (p2 s1) = true ->
         can_special_hit (p1 s4) = true)
     /\ (attack_blocked (get_attack_rect (p2 s2)) (p2 s2) (p1 s2) = true ->
         can_hit (p2 s4) = true)
     /\ (attack_blocked (get_special_attack_rect (p2 s3)) (p2 s3) (p1 s3) = true ->
         can_special_hit (p2 s4) = true))
  /\ (forall s : Level2Scene.t,
        let distance :=
          py_abs (x (Level2Scene.player1 s) - x (Level2Scene.player2 s)) in
        let s1 := Level2Scene.player1_attacks distance s in
        let s2 := Level2Scene._check_collisions s in
        (in_reach (Level2Scene.player1 s) (Level2Scene.player2 s) distance = true ->
         can_hit (Level2Scene.player1 s2) = false)
        /\ (in_reach (Level2Scene.player2 s1) (Level2Scene.player1 s1) distance
            = true ->
            can_hit (Level2Scene.player2 s2) = false)).
Proof.
  split.
  - intros s s1 s2 s3 s4 p1 p2.
    assert (E : s4 = FightScene.p2_special_attack_hits s3) by reflexivity.
    subst p1 p2. rewrite E. clear E s4.
    destruct (p1_attack_hits_latch s) as [H1 B1].
    destruct (p1_special_attack_hits_latch s1) as [H2 B2].
    destruct (p2_attack_hits_latch s2) as [H3 B3].
    destruct (p2_special_attack_hits_latch s3) as [H4 B4].
    repeat split; intro H.
    + rewrite p2_special_keeps_can_hit_p1. subst s3.
      rewrite p2_attack_keeps_can_hit_p1. subst s2.
      rewrite p1_special_keeps_can_hit_p1. apply H1. exact H.
    + rewrite p2_special_keeps_can_special_hit_p1. subst s3.
      rewrite p2_attack_keeps_can_special_hit_p1. apply H2. exact H.
    + rewrite p2_special_keeps_can_hit_p2. apply H3. exact H.
    + apply H4. exact H.
    + rewrite p2_special_keeps_can_hit_p1. subst s3.
      rewrite p2_attack_keeps_can_hit_p1. subst s2.
      rewrite p1_special_keeps_can_hit_p1. apply B1. exact H.
    + rewrite p2_special_keeps_can_special_hit_p1. subst s3.
      rewrite p2_attack_keeps_can_special_hit_p1. apply B2. exact H.
    + rewrite p2_special_keeps_can_hit_p2. apply B3. exact H.
    + apply B4. exact H.
  - intros s distance s1 s2.
    assert (E : s2 = Level2Scene.player2_attacks distance s1) by reflexivity.
    rewrite E. clear E s2. split; intro H.
    + rewrite player2_attacks_keeps_can_hit_p1. subst s1.
      apply player1_attacks_latch. exact H.
    + apply player2_attacks_latch. exact H.
Qed.

Lemma mediator_clears_latch_on_hit_witness :
  can_hit (FightScene.player1 (FightScene._handle_combat scene_at_hit_frame))
  = false.
Proof.
  destruct mediator_clears_latch_on_hit as [Hfight _].
  destruct (Hfight scene_at_hit_frame) as (Hhit & _).
  apply Hhit. reflexivity.
Defined.

(** C4 as stated fails in [FightScene].  The twin holds its block while
    the player walks up and attacks.  At the combat call of the tick that
    follows the hit frame the attack is blocked effectively, and the
    player's latch is still set when the call returns. *)
Lemma blocked_attack_keeps_latch :
  exists s p1 p2,
    FightScene.run (approach_and_attack hold_block 16)
      (FightScene.init demo_assets) = Some s
    /\ FightScene.round_over s = false
    /\ FightScene.match_over s = false
    /\ Character_update (1 # 50) idle (FightScene.player1 s) = Some p1
    /\ Character_update (1 # 50) hold_block (FightScene.player2 s) = Some p2
    /\ attack_blocked (get_attack_rect p1) p1 p2 = true
    /\ can_hit
         (FightScene.player1
            (FightScene._handle_combat
               (FightScene.set_player2 p2 (FightScene.set_player1 p1 s))))
       = true.
Proof.
  eexists. eexists. eexists.
  split; [vm_compute; reflexivity|].
  split; [reflexivity|]. split; [reflexivity|].
  split; [vm_compute; reflexivity|].
  split; [vm_compute; reflexivity|].
  split; vm_compute; reflexivity.
Qed.

(** ** Rounds and match *)

(** C5 on the code: [FightScene._start_new_round] resets position,
    health, velocity and the attacking, blocking and dead flags, and
    nothing else.  The first round runs out of time; during the delay the
    player holds a block, which costs 50 stamina; round 2 begins with
    that stamina still spent, and with the player at 0 instead of 150.
    Stamina, stun, hit reaction and special attack pass through the reset
    of any character untouched. *)
Theorem new_round_keeps_spent_stamina :
  (exists s,
     FightScene.run
       [(99, idle, idle); (1, hold_block, idle); (1, hold_block, idle);
        (1 # 2, hold_block, idle)]
       (FightScene.init demo_assets) = Some s
     /\ FightScene.current_round s = 2%Z
     /\ FightScene.round_over s = false
     /\ stamina (FightScene.player1 s) == 50
     /\ x (FightScene.player1 (FightScene.init demo_assets)) == 150
     /\ x (FightScene.player1 s) == 0)
  /\ (forall (x0 : Q) (c : Character),
        stamina (FightScene.reset_character x0 c) = stamina c
        /\ is_stunned (FightScene.reset_character x0 c) = is_stunned c
        /\ stun_duration (FightScene.reset_character x0 c) = stun_duration c
        /\ is_hit (FightScene.reset_character x0 c) = is_hit c
        /\ is_special_attacking (FightScene.reset_character x0 c)
           = is_special_attacking c).
Proof.
  split.
  - eexists. split; [vm_compute; reflexivity|].
    repeat split; reflexivity.
  - intros x0 c. repeat split; reflexivity.
Qed.

(** The sibling scene does reset them. *)
Lemma Level2Scene_reset_state_resets (c : Character) :
  stamina (Level2Scene.reset_state c) = max_stamina
  /\ is_stunned (Level2Scene.reset_state c) = false
  /\ is_hit (Level2Scene.reset_state c) = false
  /\ health (Level2Scene.reset_state c) = max_health
  /\ is_attacking (Level2Scene.reset_state c) = false
  /\ is_blocking (Level2Scene.reset_state c) = false
  /\ is_dead (Level2Scene.reset_state c) = false.
Proof. repeat split; reflexivity. Qed.

Ltac leb_facts :=
  repeat match goal with
         | H : (_ <=? _)%Z = true |- _ => apply Z.leb_le in H
         | H : (_ <=? _)%Z = false |- _ => apply Z.leb_gt in H
         end.

Section FightSceneMatch.
Import FightScene.

Lemma match_state_ok_fields (s s' : t) :
  match_fields s' = match_fields s -> match_state_ok s -> match_state_ok s'.
Proof.
  unfold match_fields, match_state_ok. intros [= -> -> -> ->]. auto.
Qed.

Lemma end_round_ok (result : string) (s : t) :
  match_state_ok s -> match_state_ok (_end_round result s).
Proof.
  unfold match_state_ok, _end_round, wins_needed. intros [Hm Hd].
  repeat split_test; simpl in *; leb_facts; split; intro H;
    try discriminate; try lia;
    try (specialize (Hm H)); try (specialize (Hd H)); lia.
Qed.

Lemma start_new_round_fields (s : t) :
  match_fields (_start_new_round s) = match_fields s.
Proof. unfold _start_new_round. split_test; reflexivity. Qed.

Lemma handle_combat_fields (s : t) :
  match_fields (_handle_combat s) = match_fields s.
Proof.
  unfold _handle_combat. cbv zeta.
  assert (H1 : forall s, match_fields (p1_attack_hits s) = match_fields s)
    by (intro; unfold p1_attack_hits; hit_test; reflexivity).
  assert (H2 : forall s, match_fields (p1_special_attack_hits s) = match_fields s)
    by (intro; unfold p1_special_attack_hits; hit_test; reflexivity).
  assert (H3 : forall s, match_fields (p2_attack_hits s) = match_fields s)
    by (intro; unfold p2_attack_hits; hit_test; reflexivity).
  assert (H4 : forall s, match_fields (p2_special_attack_hits s) = match_fields s)
    by (intro; unfold p2_special_attack_hits; hit_test; reflexivity).
  rewrite H4, H3, H2, H1. reflexivity.
Qed.

Lemma check_knockout_ok (s s' : t) :
  match_state_ok s -> check_knockout s = Some s' -> match_state_ok s'.
Proof.
  intro Hok. unfold check_knockout.
  repeat (split_test; [intros [= <-]; exact Hok|]).
  destruct (if is_dead (player1 s) then _ else _) as [[|]|]; try discriminate.
  - intros [= <-]. apply end_round_ok. exact Hok.
  - destruct (if is_dead (player2 s) then _ else _) as [[|]|]; try discriminate;
      intros [= <-]; [apply end_round_ok|]; exact Hok.
Qed.

Lemma update_ok (dt : Q) (i1 i2 : PlayerInput) (s s' : t) :
  match_state_ok s -> update dt i1 i2 s = Some s' -> match_state_ok s'.
Proof.
  intro Hok. unfold update.
  destruct (match_over s); [intros [= <-]; exact Hok|].
  destruct (round_over s).
  - cbv zeta. simpl.
    destruct (Character_update dt i1 (player1 s)) as [p1|]; [|discriminate].
    destruct (Character_update dt i2 (player2 s)) as [p2|]; [|discriminate].
    split_test; intros [= <-].
    + eapply match_state_ok_fields; [apply start_new_round_fields|].
      eapply match_state_ok_fields; [|exact Hok]. reflexivity.
    + eapply match_state_ok_fields; [|exact Hok]. reflexivity.
  - cbv zeta. simpl.
    destruct (Character_update dt i1 (player1 s)) as [p1|]; [|discriminate].
    destruct (Character_update dt i2 (player2 s)) as [p2|]; [|discriminate].
    set (s1 := _handle_combat (set_player2 p2 (set_player1 p1 s))).
    assert (H1 : match_state_ok s1).
    { eapply match_state_ok_fields; [apply handle_combat_fields|].
      eapply match_state_ok_fields; [|exact Hok]. reflexivity. }
    clearbody s1. apply check_knockout_ok.
    split_test.
    + apply end_round_ok. eapply match_state_ok_fields; [|exact H1]. reflexivity.
    + eapply match_state_ok_fields; [|exact H1]. reflexivity.
Qed.

Lemma handle_dialogue_input_fields (events : list Key) (s : t) :
  match_fields (handle_dialogue_input events s) = match_fields s.
Proof.
  unfold handle_dialogue_input. split_test; [reflexivity|].
  clear. revert s. induction events as [|k rest IH]; intro s; simpl.
  - reflexivity.
  - rewrite IH. unfold handle_dialogue_key.
    repeat split_test; destruct k; reflexivity.
Qed.

Lemma update_dialogue_ok (dt : Q) (s : t) :
  match_state_ok s -> match_state_ok (update_dialogue dt s).
Proof.
  unfold match_state_ok, update_dialogue. intros [Hm Hd].
  repeat split_test; simpl in *; split; intro H; try discriminate; auto.
  - left. apply Hd. apply negb_false_iff. assumption.
  - left. apply Hd. apply negb_false_iff. assumption.
Qed.

Lemma apply_scene_op_ok (o : SceneOp) (s s' : t) :
  match_state_ok s -> apply_scene_op o s = Some s' -> match_state_ok s'.
Proof.
  intro Hok. destruct o as [dt i1 i2|dt paused|events|dt]; simpl.
  - apply update_ok. exact Hok.
  - intros [= <-]. eapply match_state_ok_fields; [|exact Hok].
    unfold update_pause. cbv zeta. split_test; reflexivity.
  - intros [= <-]. eapply match_state_ok_fields; [|exact Hok].
    apply handle_dialogue_input_fields.
  - intros [= <-]. apply update_dialogue_ok. exact Hok.
Qed.

Lemma apply_scene_ops_ok (ops : list SceneOp) :
  forall s s' : t,
    match_state_ok s -> apply_scene_ops ops s = Some s' -> match_state_ok s'.
Proof.
  induction ops as [|o rest IH]; intros s s' Hok; simpl.
  - intros [= <-]. exact Hok.
  - destruct (apply_scene_op o s) as [s1|] eqn:H1; [|discriminate].
    apply IH. apply (apply_scene_op_ok o s s1 Hok H1).
Qed.

Lemma end_round_match_over (result : string) (s : t) :
  match_over s = false ->
  (match_over (_end_round result s) = true
   <-> (player_wins (_end_round result s) < 3
        /\ 3 <= ai_wins (_end_round result s))%Z).
Proof.
  unfold _end_round, wins_needed. intro Hm.
  repeat split_test; simpl in *; leb_facts; split; intro H;
    try discriminate; try reflexivity; try lia; congruence.
Qed.

Lemma end_round_dialogue (result : string) (s : t) :
  (3 <= player_wins (_end_round result s))%Z ->
  showing_dialogue (_end_round result s) = true.
Proof.
  unfold _end_round, wins_needed.
  repeat split_test; simpl in *; leb_facts; intro H; try reflexivity; lia.
Qed.

Lemma update_dialogue_match_over (dt : Q) (s : t) :
  match_over (update_dialogue dt s) = true
  <-> match_over s = true
      \/ (showing_dialogue s = true /\ dialogue_complete s = true).
Proof.
  unfold update_dialogue.
  destruct (showing_dialogue s) eqn:Hs; simpl; [|intuition congruence].
  destruct ((dialogue_phase s =? "threat") && Qleb 3 (dialogue_timer s + dt));
    simpl; destruct (dialogue_complete s); simpl; intuition congruence.
Qed.

End FightSceneMatch.

Section Level2SceneMatch.
Import Level2Scene.

Lemma end_round_match_over2 (reason : string) (s : t) :
  match_over (_end_round reason s) = true
  <-> (match_over s = true
       \/ 3 <= player_wins (_end_round reason s)
       \/ 3 <= ai_wins (_end_round reason s))%Z.
Proof.
  unfold _end_round, wins_needed.
  repeat split_test; simpl in *; leb_facts; split; intro H;
    try reflexivity; auto; try lia;
    destruct H as [H|[H|H]]; try assumption; lia.
Qed.

Lemma end_round_ok2 (reason : string) (s : t) :
  match_state_ok2 s -> match_state_ok2 (_end_round reason s).
Proof.
  unfold match_state_ok2. intros Hok H.
  apply end_round_match_over2 in H. destruct H as [H|H]; [|exact H].
  specialize (Hok H). revert Hok. unfold _end_round, wins_needed.
  repeat split_test; simpl; lia.
Qed.

Lemma match_state_ok2_fields (s s' : t) :
  match_fields2 s' = match_fields2 s -> match_state_ok2 s -> match_state_ok2 s'.
Proof.
  unfold match_fields2, match_state_ok2. intros [= -> -> ->]. auto.
Qed.

Lemma check_collisions_fields2 (s : t) :
  match_fields2 (_check_collisions s) = match_fields2 s.
Proof.
  unfold _check_collisions, player1_attacks, player2_attacks. cbv zeta.
  repeat split_test; reflexivity.
Qed.

Lemma start_next_round_fields2 (s : t) :
  match_fields2 (_start_next_round s) = match_fields2 s.
Proof. reflexivity. Qed.

Lemma update_ok2 (Draw : Type)
    (YellowNinja_update :
       Draw -> Q -> Q -> Q -> Character -> Q -> Q -> Character -> option Character)
    (draw : Draw) (dt : Q) (player1_input : option PlayerInput) (s s' : t) :
  update Draw YellowNinja_update draw dt player1_input s = Some s' ->
  match_state_ok2 s -> match_state_ok2 s'.
Proof.
  intros Hu Hok. revert Hu. unfold update.
  assert (Hsame : forall s0, match_fields2 s0 = match_fields2 s -> match_state_ok2 s0)
    by (intros s0 E; apply (match_state_ok2_fields s s0 E Hok)).
  destruct (showing_dialogue s); [intros [= <-]; apply Hsame; reflexivity|].
  destruct (is_paused s); [intros [= <-]; apply Hsame; reflexivity|].
  destruct (match_over s) eqn:Hm; [intros [= <-]; exact Hok|].
  destruct (round_over s).
  { cbv zeta. destruct (Qleb _ _); intros [= <-]; apply Hsame.
    - rewrite start_next_round_fields2. unfold match_fields2. simpl.
      rewrite Hm. reflexivity.
    - unfold match_fields2. simpl. rewrite Hm. reflexivity. }
  cbv zeta. destruct (Qleb _ _).
  { intros [= <-]. apply end_round_ok2. apply Hsame.
    unfold match_fields2. simpl. rewrite Hm. reflexivity. }
  destruct (Character_update _ _ _) as [p1|]; [|discriminate].
  simpl.
  destruct (YellowNinja_update _ _ _ _ _ _ _ _) as [p2|]; [|discriminate].
  set (s1 := _check_collisions _).
  assert (H1 : match_state_ok2 s1).
  { subst s1. apply Hsame. rewrite check_collisions_fields2.
    unfold match_fields2. simpl. rewrite Hm. reflexivity. }
  clearbody s1.
  destruct (is_dead (player1 s1) && negb (round_over s1));
    [intros [= <-]; apply end_round_ok2; exact H1|].
  destruct (is_dead (player2 s1) && negb (round_over s1));
    intros [= <-]; [apply end_round_ok2|]; exact H1.
Qed.

End Level2SceneMatch.

(** C6, as the code has it.  No sequence of scene operations from the
    start of a [FightScene] sets [match_over] while both win counters are
    below 3.  [FightScene._end_round] enters the match-over state in the
    call in which the twin's counter reaches 3; when the player's counter
    reaches 3 it opens the victory dialogue instead, and [match_over] is
    set by [update_dialogue] once that dialogue is complete.
    [Level2Scene._end_round] enters the match-over state in the call in
    which either counter reaches 3, and [Level2Scene.update] never enters
    it below that. *)
Theorem match_over_needs_three_wins :
  (forall (assets : SpriteAssets) (ops : list SceneOp) (s : FightScene.t),
      apply_scene_ops ops (FightScene.init assets) = Some s ->
      FightScene.match_over s = true ->
      (3 <= FightScene.player_wins s \/ 3 <= FightScene.ai_wins s)%Z)
  /\ (forall (result : string) (s : FightScene.t),
         FightScene.match_over s = false ->
         (FightScene.match_over (FightScene._end_round result s) = true
          <-> (FightScene.player_wins (FightScene._end_round result s) < 3
               /\ 3 <= FightScene.ai_wins (FightScene._end_round result s))%Z))
  /\ (forall (result : string) (s : FightScene.t),
         (3 <= FightScene.player_wins (FightScene._end_round result s))%Z ->
         FightScene.showing_dialogue (FightScene._end_round result s) = true)
  /\ (forall (dt : Q) (s : FightScene.t),
         FightScene.match_over (FightScene.update_dialogue dt s) = true
         <-> FightScene.match_over s = true
             \/ (FightScene.showing_dialogue s = true
                 /\ FightScene.dialogue_complete s = true))
  /\ (forall (reason : string) (s : Level2Scene.t),
         Level2Scene.match_over (Level2Scene._end_round reason s) = true
         <-> (Level2Scene.match_over s = true
              \/ 3 <= Level2Scene.player_wins (Level2Scene._end_round reason s)
              \/ 3 <= Level2Scene.ai_wins (Level2Scene._end_round reason s))%Z)
  /\ (forall (Draw : Type)
             (YellowNinja_update :
                Draw -> Q -> Q -> Q -> Character -> Q -> Q -> Character
                -> option Character)
             (draw : Draw) (dt : Q) (player1_input : option PlayerInput)
             (s s' : Level2Scene.t),
         Level2Scene.update Draw YellowNinja_update draw dt player1_input s
         = Some s' ->
         match_state_ok2 s -> match_state_ok2 s').
Proof.
  split; [|split; [|split; [|split; [|split]]]].
  - intros assets ops s Hrun Hm.
    assert (Hinit : match_state_ok (FightScene.init assets))
      by (split; intro H; discriminate H).
    destruct (apply_scene_ops_ok ops _ _ Hinit Hrun) as [H _]. auto.
  - apply end_round_match_over.
  - apply end_round_dialogue.
  - apply update_dialogue_match_over.
  - apply end_round_match_over2.
  - apply update_ok2.
Qed.

Lemma match_over_needs_three_wins_witness :
  exists s,
    apply_scene_ops won_match (FightScene.init demo_assets) = Some s
    /\ FightScene.match_over s = true
    /\ (3 <= FightScene.player_wins s \/ 3 <= FightScene.ai_wins s)%Z.
Proof.
  eexists. split; [vm_compute; reflexivity|]. split; [reflexivity|].
  destruct match_over_needs_three_wins as [Hinv _].
  apply (Hinv demo_assets won_match); [vm_compute; reflexivity | reflexivity].
Defined.

(** C6 as stated fails in [FightScene].  The player wins two rounds, then
    a third: on the tick that brings the counter to 3 the victory dialogue
    opens and the match is not over. *)
Lemma third_win_opens_dialogue :
  exists s2 s3,
    FightScene.run
      (winning_round (73 # 50) ++ round_break
       ++ winning_round (103 # 50) ++ round_break)
      (FightScene.init demo_assets) = Some s2
    /\ FightScene.player_wins s2 = 2%Z
    /\ FightScene.ai_wins s2 = 0%Z
    /\ FightScene.run (winning_round (103 # 50)) s2 = Some s3
    /\ FightScene.player_wins s3 = 3%Z
    /\ FightScene.match_over s3 = false
    /\ FightScene.showing_dialogue s3 = true.
Proof.
  eexists. eexists.
  split; [vm_compute; reflexivity|].
  split; [reflexivity|]. split; [reflexivity|].
  split; [vm_compute; reflexivity|].
  repeat split; reflexivity.
Qed.

(** * Further properties *)

(** ** Animations *)

Lemma apply_animation_op_frames (o : AnimationOp) (a : Animation) :
  frames (apply_animation_op o a) = frames a.
Proof.
  destruct o; simpl; try reflexivity.
  unfold Animation_update. repeat split_test; reflexivity.
Qed.

Lemma apply_animation_op_in_range (o : AnimationOp) (a : Animation) :
  (current_frame a < frames a)%nat ->
  (current_frame (apply_animation_op o a) < frames (apply_animation_op o a))%nat.
Proof.
  intro H. rewrite apply_animation_op_frames.
  destruct o; simpl; try lia.
  unfold Animation_update.
  repeat split_test; simpl; try lia.
  match goal with E : Nat.leb _ _ = false |- _ => apply Nat.leb_gt in E end.
  lia.
Qed.

(** X1.  The frame index never leaves the clip: whatever calls an
    animation of [n] frames receives after its creation, in whatever
    order and with whatever [dt], [get_current_frame] finds a frame to
    return (the fallback surface when the clip is empty) and never
    indexes past the end. *)
Theorem get_current_frame_never_out_of_range
    (n : nat) (d : Q) (looping : bool) (ops : list AnimationOp) :
  exists surface,
    Animation_get_current_frame
      (apply_animation_ops ops (set_loop looping (Animation_init n d)))
    = Some surface.
Proof.
  assert (Hinv : forall a,
             frames a = n ->
             (n = 0%nat \/ (current_frame a < frames a)%nat) ->
             frames (apply_animation_ops ops a) = n
             /\ (n = 0%nat
                 \/ (current_frame (apply_animation_ops ops a)
                     < frames (apply_animation_ops ops a))%nat)).
  { unfold apply_animation_ops.
    induction ops as [|o rest IH]; intros a Hn Hr; simpl.
    - auto.
    - apply IH.
      + rewrite apply_animation_op_frames. exact Hn.
      + destruct Hr as [Hr|Hr]; [left; exact Hr|].
        right. apply apply_animation_op_in_range. exact Hr. }
  destruct (Hinv (set_loop looping (Animation_init n d))) as [Hn Hr].
  - reflexivity.
  - simpl. destruct n; [left; reflexivity | right; lia].
  - unfold Animation_get_current_frame. rewrite Hn.
    destruct Hr as [->|Hr]; [eexists; reflexivity|].
    destruct (Nat.eqb n 0); [eexists; reflexivity|].
    rewrite Hn in Hr. apply Nat.ltb_lt in Hr. rewrite Hr.
    eexists; reflexivity.
Qed.

(** A clip that does not loop, played from its start with every [dt] at
    least one frame long. *)
Lemma non_looping_progress (dts : list Q) :
  forall a : Animation,
    loop a = false -> is_playing a = true ->
    time_since_last_frame a == 0 ->
    (current_frame a < frames a)%nat ->
    Forall (fun dt => frame_duration a <= dt) dts ->
    let a' := Animation_updates dts a in
    frames a' = frames a /\ frame_duration a' = frame_duration a
    /\ loop a' = false
    /\ current_frame a'
       = Nat.min (current_frame a + List.length dts) (frames a - 1)
    /\ is_playing a'
       = Nat.ltb (current_frame a + List.length dts) (frames a).
Proof.
  induction dts as [|dt rest IH]; intros a Hl Hp Ht Hr Hd; cbv zeta.
  - simpl. repeat split; try assumption.
    + rewrite Nat.add_0_r. lia.
    + rewrite Nat.add_0_r. symmetry. rewrite Hp. apply Nat.ltb_lt. exact Hr.
  - inversion Hd as [|? ? Hdt Hrest]; subst. cbv beta in Hdt. simpl.
    assert (Hstep : Qleb (frame_duration a) (time_since_last_frame a + dt) = true).
    { apply Qleb_true_iff. rewrite Ht. lra. }
    destruct (Nat.leb (frames a) (S (current_frame a))) eqn:Hend.
    + (* the last frame: the clip stops *)
      apply Nat.leb_le in Hend.
      assert (Hu : Animation_update dt a
                   = mkAnimation (frames a) (frame_duration a) (frames a - 1)
                       0 false (loop a)).
      { unfold Animation_update. rewrite Hp. simpl.
        destruct (Nat.eqb (frames a) 0) eqn:E;
          [apply Nat.eqb_eq in E; lia|].
        rewrite Hstep. apply Nat.leb_le in Hend. rewrite Hend, Hl. reflexivity. }
      rewrite Hu. clear IH.
      assert (Hstop : forall l b, is_playing b = false -> Animation_updates l b = b).
      { induction l as [|x l IHl]; intros b Hb; simpl; [reflexivity|].
        assert (Animation_update x b = b)
          by (unfold Animation_update; rewrite Hb; reflexivity).
        rewrite H. apply IHl. exact Hb. }
      rewrite Hstop by reflexivity. simpl.
      repeat split; try assumption.
      * lia.
      * symmetry. apply Nat.ltb_ge. lia.
    + apply Nat.leb_gt in Hend.
      assert (Hu : Animation_update dt a
                   = mkAnimation (frames a) (frame_duration a) (S (current_frame a))
                       0 (is_playing a) (loop a)).
      { unfold Animation_update. rewrite Hp. simpl.
        destruct (Nat.eqb (frames a) 0) eqn:E;
          [apply Nat.eqb_eq in E; lia|].
        rewrite Hstep. apply Nat.leb_gt in Hend. rewrite Hend. reflexivity. }
      rewrite Hu.
      specialize (IH (mkAnimation (frames a) (frame_duration a)
                        (S (current_frame a)) 0 (is_playing a) (loop a))).
      cbn [frames frame_duration current_frame time_since_last_frame
             is_playing loop] in IH.
      destruct IH as (H1 & H2 & H3 & H4 & H5); try assumption.
      * reflexivity.
      * repeat split; try assumption.
        -- rewrite H4. simpl List.length. f_equal. lia.
        -- rewrite H5. simpl List.length. f_equal. lia.
Qed.

(** X2.  A clip of [n] frames that does not loop, played from its start
    with ticks of at least one frame duration each, shows frame [k] after
    [k] ticks, stops on its last frame at the [n]-th tick and is finished
    from then on, however many ticks follow; it is not finished before.
    A looping clip is never finished. *)
Theorem non_looping_clip_finishes
    (n : nat) (d : Q) (dts : list Q)
    (Hn : (0 < n)%nat)
    (Hd : Forall (fun dt => d <= dt) dts) :
  let played :=
    Animation_updates dts (Animation_reset (set_loop false (Animation_init n d))) in
  current_frame played = Nat.min (List.length dts) (n - 1)
  /\ (Animation_is_finished played = true <-> (n <= List.length dts)%nat)
  /\ (forall (a : Animation) (more : list Q),
         loop a = true -> Animation_is_finished (Animation_updates more a) = false).
Proof.
  cbv zeta.
  destruct (non_looping_progress dts
              (Animation_reset (set_loop false (Animation_init n d))))
    as (H1 & H2 & H3 & H4 & H5); try reflexivity; try assumption.
  split; [exact H4|]. split.
  - unfold Animation_is_finished. rewrite H3, H5. simpl.
    rewrite negb_true_iff. rewrite Nat.ltb_ge. reflexivity.
  - intros a more. revert a. induction more as [|x l IH]; intros a Hl; simpl.
    + unfold Animation_is_finished. rewrite Hl. reflexivity.
    + apply IH. unfold Animation_update. repeat split_test; simpl; assumption.
Qed.

Lemma non_looping_clip_finishes_witness :
  current_frame
    (Animation_updates [2 # 25; 1 # 10; 5; 2 # 25; 2 # 25; 2 # 25; 1]
       (Animation_reset (set_loop false (Animation_init 6 (2 # 25)))))
  = 5%nat.
Proof.
  apply (non_looping_clip_finishes 6 (2 # 25)
           [2 # 25; 1 # 10; 5; 2 # 25; 2 # 25; 2 # 25; 1]).
  - lia.
  - repeat constructor; discriminate.
Defined.

(** ** Death *)

(** X3.  [dead] is terminal: whatever ticks and blows follow, a dead
    combatant stays dead, and its position, velocity, health, stamina,
    flags and timers stay what they were; only its animator moves. *)
Theorem dead_is_terminal (ops : list Op) :
  forall c : Character,
    is_dead c = true ->
    exists sa, apply_ops ops c = Some (set_animator sa c).
Proof.
  induction ops as [|o rest IH]; intros c Hd.
  - exists (animator c). simpl. destruct c; reflexivity.
  - assert (H1 : exists sa, apply_op o c = Some (set_animator sa c)).
    { destruct o as [dt input | amount attacker_x]; simpl.
      - rewrite update_dead_shape by assumption. eexists; reflexivity.
      - rewrite take_damage_dead by assumption. simpl.
        exists (animator c). destruct c; reflexivity. }
    destruct H1 as (sa & H1). simpl. rewrite H1.
    destruct (IH (set_animator sa c) Hd) as (sa' & H2).
    exists sa'. rewrite H2. reflexivity.
Qed.

Lemma dead_is_terminal_witness :
  exists sa,
    apply_ops [Update_op (1 # 50) press_attack; TakeDamage_op 8 550;
               Update_op 3 walk_right]
      fallen_twin = Some (set_animator sa fallen_twin).
Proof. apply dead_is_terminal. reflexivity. Defined.

Lemma take_damage_is_blocking (damage : Z) (attacker_x : Q) (c : Character) :
  is_blocking (snd (take_damage damage attacker_x c)) = is_blocking c.
Proof. unfold take_damage, play. repeat split_test; reflexivity. Qed.

Lemma take_damage_is_dead (damage : Z) (attacker_x : Q) (c : Character) :
  is_blocking c = false -> is_dead c = false ->
  is_dead (snd (take_damage damage attacker_x c)) = (health c <=? damage)%Z.
Proof.
  intros Hb Hd. unfold take_damage, is_effective_block, play.
  rewrite Hb, Hd. simpl.
  destruct (Z.max 0 (health c - damage) <=? 0)%Z eqn:E; simpl.
  - symmetry. apply Z.leb_le. apply Z.leb_le in E. lia.
  - rewrite Hd. symmetry. apply Z.leb_gt. apply Z.leb_gt in E. lia.
Qed.

Lemma repeated_hits (d : Z) (attacker_x : Q) (n : nat) :
  forall c : Character,
    (0 <= d)%Z -> is_blocking c = false ->
    (is_dead c = false -> (0 < health c)%Z) ->
    (is_dead c = true -> health c = 0%Z) ->
    exists c',
      apply_ops (repeat (TakeDamage_op d attacker_x) n) c = Some c'
      /\ health c' = Z.max 0 (health c - Z.of_nat n * d)
      /\ is_dead c'
         = is_dead c || (Nat.ltb 0 n && (health c <=? Z.of_nat n * d)%Z).
Proof.
  induction n as [|n IH]; intros c Hd Hb Ha Hz.
  - exists c. simpl. split; [reflexivity|]. split.
    + destruct (is_dead c) eqn:E; [rewrite (Hz eq_refl); reflexivity|].
      specialize (Ha eq_refl). lia.
    + rewrite orb_false_r. reflexivity.
  - set (c1 := snd (take_damage d attacker_x c)).
    assert (Hb1 : is_blocking c1 = false)
      by (subst c1; rewrite take_damage_is_blocking; exact Hb).
    destruct (is_dead c) eqn:E.
    + assert (Hc1 : c1 = c) by (subst c1; rewrite take_damage_dead; auto).
      assert (Ha1 : is_dead c1 = false -> (0 < health c1)%Z)
        by (rewrite Hc1, E; discriminate).
      assert (Hz1 : is_dead c1 = true -> health c1 = 0%Z)
        by (rewrite Hc1, E; exact Hz).
      destruct (IH c1 Hd Hb1 Ha1 Hz1) as (c' & H1 & H2 & H3).
      exists c'. split; [exact H1|]. rewrite H2, H3, Hc1, E.
      rewrite (Hz eq_refl). split; [lia | reflexivity].
    + specialize (Ha eq_refl).
      assert (Hh1 : health c1 = Z.max 0 (health c - d))
        by (subst c1; apply take_damage_hit;
            [unfold is_effective_block; rewrite Hb; reflexivity | exact E]).
      assert (Hd1 : is_dead c1 = (health c <=? d)%Z)
        by (subst c1; apply take_damage_is_dead; assumption).
      assert (Ha1 : is_dead c1 = false -> (0 < health c1)%Z)
        by (rewrite Hd1, Hh1; intro H; apply Z.leb_gt in H; lia).
      assert (Hz1 : is_dead c1 = true -> health c1 = 0%Z)
        by (rewrite Hd1, Hh1; intro H; apply Z.leb_le in H; lia).
      destruct (IH c1 Hd Hb1 Ha1 Hz1) as (c' & H1 & H2 & H3).
      exists c'. split; [exact H1|]. rewrite H2, H3, Hh1, Hd1.
      replace (Z.of_nat (S n) * d)%Z with (Z.of_nat n * d + d)%Z by lia.
      assert (Hm : (0 <= Z.of_nat n * d)%Z) by nia.
      assert (Hm0 : (0 <? n)%nat = false -> (Z.of_nat n * d = 0)%Z)
        by (intro H; apply Nat.ltb_ge in H; nia).
      assert (Hm1 : (0 <? S n)%nat = true) by reflexivity.
      rewrite Hm1. clear Hm1.
      generalize dependent (Z.of_nat n * d)%Z. intros m H2 H3 Hm Hm0.
      split; [lia|]. cbn [orb andb].
      destruct (health c <=? d)%Z eqn:E1;
        destruct (health c <=? m + d)%Z eqn:E2;
        destruct (0 <? n)%nat eqn:E3;
        destruct (Z.max 0 (health c - d) <=? m)%Z eqn:E4;
        cbn [orb andb]; try reflexivity; exfalso;
        try specialize (Hm0 eq_refl);
        repeat match goal with
               | H : (_ <=? _)%Z = true |- _ => apply Z.leb_le in H
               | H : (_ <=? _)%Z = false |- _ => apply Z.leb_gt in H
               end; lia.
Qed.

(** X4.  Unblocked hits add up: [n] blows of [d] damage on a living
    combatant that is not blocking leave it with [max 0 (health - n d)]
    health, and it is dead exactly when the blows reach its health; the
    blows that come after its death change nothing. *)
Theorem unblocked_hits_add_up
    (c : Character) (d : Z) (attacker_x : Q) (n : nat)
    (Hd : (0 <= d)%Z) (Hblock : is_blocking c = false)
    (Halive : is_dead c = false) (Hhealth : (0 < health c)%Z) :
  exists c',
    apply_ops (repeat (TakeDamage_op d attacker_x) n) c = Some c'
    /\ health c' = Z.max 0 (health c - Z.of_nat n * d)
    /\ (is_dead c' = true <-> (health c <= Z.of_nat n * d)%Z).
Proof.
  destruct (repeated_hits d attacker_x n c) as (c' & H1 & H2 & H3);
    try assumption; try congruence.
  exists c'. split; [exact H1|]. split; [exact H2|].
  rewrite H3, Halive. simpl. rewrite andb_true_iff, Z.leb_le, Nat.ltb_lt.
  split; [tauto|]. intro H. split; [|exact H].
  destruct n; [simpl in H; lia | lia].
Qed.

(** Thirty-three blows of 3 leave the twin with 1 health; the
    thirty-fourth kills it. *)
Lemma unblocked_hits_add_up_witness :
  (exists c',
     apply_ops (repeat (TakeDamage_op 3 550) 33) (Samurai2 demo_assets 600 335)
     = Some c'
     /\ health c' = 1%Z /\ (is_dead c' = true <-> (100 <= 99)%Z))
  /\ (exists c',
        apply_ops (repeat (TakeDamage_op 3 550) 34) (Samurai2 demo_assets 600 335)
        = Some c'
        /\ health c' = 0%Z /\ (is_dead c' = true <-> (100 <= 102)%Z)).
Proof.
  split.
  - apply (unblocked_hits_add_up (Samurai2 demo_assets 600 335) 3 550 33);
      (reflexivity || lia).
  - apply (unblocked_hits_add_up (Samurai2 demo_assets 600 335) 3 550 34);
      (reflexivity || lia).
Defined.

Lemma nth_error_modify (i : nat) (f : Animation -> Animation) (s : list Animation)
    (a : Animation) :
  nth_error s i = Some a -> nth_error (modify i f s) i = Some (f a).
Proof.
  revert i. induction s as [|b rest IH]; intros [|j]; simpl; try discriminate.
  - intros [= ->]. reflexivity.
  - apply IH.
Qed.

(** A dead combatant's ticks advance its current clip and nothing else. *)
Lemma dead_ticks_advance_clip (ticks : list (Q * PlayerInput)) :
  forall (c : Character) (id : nat) (a : Animation),
    is_dead c = true ->
    current_animation (animator c) = Some id ->
    nth_error (store (animator c)) id = Some a ->
    exists c',
      apply_ops (update_ops ticks) c = Some c'
      /\ is_dead c' = true
      /\ current_animation_name (animator c') = current_animation_name (animator c)
      /\ current_object (animator c') = Some (Animation_updates (map fst ticks) a).
Proof.
  induction ticks as [|[dt input] rest IH]; intros c id a Hd Hc Hn.
  - exists c. simpl. repeat split; try assumption.
    unfold current_object. rewrite Hc. exact Hn.
  - simpl. rewrite update_dead_shape by assumption.
    set (c1 := set_animator (SpriteAnimator_update dt (animator c)) c).
    assert (Ha1 : animator c1
                  = mkSpriteAnimator
                      (modify id (Animation_update dt) (store (animator c)))
                      (animations (animator c)) (Some id)
                      (current_animation_name (animator c))).
    { subst c1. simpl. unfold SpriteAnimator_update. rewrite Hc. reflexivity. }
    destruct (IH c1 id (Animation_update dt a)) as (c' & H1 & H2 & H3 & H4).
    + exact Hd.
    + rewrite Ha1. reflexivity.
    + rewrite Ha1. simpl. apply nth_error_modify. exact Hn.
    + exists c'. split; [exact H1|]. split; [exact H2|]. split; [|exact H4].
      rewrite H3, Ha1. reflexivity.
Qed.

(** X5.  Death needs no further input to finish.  A living combatant
    takes a blow that is not blocked and is at least its health; with a
    death clip of [n] frames that does not loop,
    [is_death_animation_finished] is false after fewer than [n] ticks and
    true after [n] ticks or more, whatever the intents, when every tick
    lasts at least one frame of the clip. *)
Theorem death_clip_finishes
    (c : Character) (damage : Z) (attacker_x : Q)
    (id : nat) (clip : Animation) (ticks : list (Q * PlayerInput))
    (Halive : is_dead c = false)
    (Hblock : is_effective_block attacker_x c = false)
    (Hlethal : (health c <= damage)%Z)
    (Hname : lookup "dead" (animations (animator c)) = Some id)
    (Hclip : nth_error (store (animator c)) id = Some clip)
    (Hloop : loop clip = false)
    (Hframes : (0 < frames clip)%nat)
    (Hticks : Forall (fun t => frame_duration clip <= fst t) ticks) :
  exists c',
    apply_ops (TakeDamage_op damage attacker_x :: update_ops ticks) c = Some c'
    /\ is_dead c' = true
    /\ is_death_animation_finished c'
       = Some (Nat.leb (frames clip) (List.length ticks)).
Proof.
  simpl.
  set (c1 := snd (take_damage damage attacker_x c)).
  assert (Hd1 : is_dead c1 = true
                /\ animator c1 = play_animation "dead" true (animator c)).
  { subst c1. unfold take_damage. rewrite Hblock, Halive. simpl.
    assert (E : (Z.max 0 (health c - damage) <=? 0)%Z = true)
      by (apply Z.leb_le; lia).
    rewrite E. simpl. split; reflexivity. }
  destruct Hd1 as [Hd1 Ha1].
  assert (Hp : animator c1
               = mkSpriteAnimator
                   (modify id Animation_play
                      (modify id Animation_reset (store (animator c))))
                   (animations (animator c)) (Some id) "dead").
  { rewrite Ha1. unfold play_animation. rewrite Hname.
    rewrite orb_true_r. reflexivity. }
  clearbody c1.
  destruct (dead_ticks_advance_clip ticks c1 id
              (Animation_play (Animation_reset clip)))
    as (c' & H1 & H2 & H3 & H4).
  - exact Hd1.
  - rewrite Hp. reflexivity.
  - rewrite Hp. simpl. apply nth_error_modify. apply nth_error_modify. exact Hclip.
  - exists c'. split; [exact H1|]. split; [exact H2|].
    unfold is_death_animation_finished. rewrite H2, H3, Hp. simpl.
    rewrite H4. f_equal.
    destruct (non_looping_progress (map fst ticks)
                (Animation_play (Animation_reset clip)))
      as (_ & _ & Hl & _ & Hpl); try reflexivity; try assumption.
    + clear - Hticks. induction Hticks; simpl; constructor; assumption.
    + unfold Animation_is_finished. rewrite Hl, Hpl. simpl.
      rewrite length_map.
      destruct (Nat.ltb_spec (List.length ticks) (frames clip));
        destruct (Nat.leb_spec (frames clip) (List.length ticks));
        simpl; try reflexivity; lia.
Qed.

(** The twin's death clip has six frames of 0.15 s. *)
Lemma death_clip_finishes_witness :
  exists c',
    apply_ops
      (TakeDamage_op 100 550
       :: update_ops (repeat (3 # 20, press_attack) 6))
      (Samurai2 demo_assets 600 335) = Some c'
    /\ is_dead c' = true
    /\ is_death_animation_finished c' = Some true.
Proof.
  apply (death_clip_finishes (Samurai2 demo_assets 600 335) 100 550 4
           (set_loop false (Animation_init 6 (3 # 20)))
           (repeat (3 # 20, press_attack) 6));
    try reflexivity; try lia; repeat constructor; discriminate.
Defined.

(** ** Ticks of a living combatant *)

(** Like [frames], through the physics and combat paragraphs as well. *)
Ltac deep_frames :=
  intros;
  repeat first [ progress unfold _update_combat
               | progress unfold _update_physics ];
  frames.

Lemma handle_input_stunned (input_state : PlayerInput) (dt : Q) (c : Character) :
  is_stunned c = true ->
  _handle_input input_state dt c = set_velocity_x 0 (set_is_blocking false c).
Proof. intro H. unfold _handle_input. rewrite H. reflexivity. Qed.

Lemma update_combat_is_stunned (dt : Q) (c : Character) :
  is_stunned c = true ->
  is_stunned (_update_combat dt c) = negb (Qleb (stun_duration c - dt) 0).
Proof.
  intro H. unfold _update_combat. cbv zeta. repeat peel.
  unfold tick_stun. rewrite H. cbv zeta. fields.
  split_test; fields; [reflexivity | exact H].
Qed.

Lemma update_combat_stamina_stunned (dt : Q) (c : Character) :
  is_stunned c = true -> dt < stun_duration c ->
  stamina (_update_combat dt c) = stamina c.
Proof.
  intros H Hdt. unfold _update_combat. cbv zeta.
  set (c5 := tick_cooldowns dt (tick_special dt (tick_hit dt (tick_attack dt
               (tick_stun dt c))))).
  assert (Hs5 : is_stunned c5 = true).
  { subst c5. repeat peel. unfold tick_stun. rewrite H. cbv zeta. fields.
    split_test; fields; [|exact H]. order_facts. lra. }
  assert (Hst5 : stamina c5 = stamina c) by (subst c5; frames).
  clearbody c5. unfold regen_stamina. cbv zeta. rewrite Hs5.
  rewrite andb_false_r. simpl. split_test; fields; exact Hst5.
Qed.

(** X6.  A stunned combatant does not answer its intent.  The tick of a
    living, stunned combatant is the same whatever the intent; it leaves
    the combatant without horizontal velocity and not blocking, starts no
    attack and no special attack, and, as long as the stun outlasts the
    tick, keeps it stunned with the stamina it had.  The stun ends in the
    tick in which its duration runs out. *)
Theorem stunned_tick_ignores_intent
    (c : Character) (player_input : PlayerInput) (dt : Q)
    (Hok : animator_okb (animator c) = true)
    (Halive : is_dead c = false)
    (Hstunned : is_stunned c = true) :
  update dt player_input c = update dt PlayerInput_init c
  /\ exists c',
       update dt player_input c = Some c'
       /\ velocity_x c' = 0
       /\ is_blocking c' = false
       /\ current_attack_id c' = current_attack_id c
       /\ current_special_attack_id c' = current_special_attack_id c
       /\ (dt < stun_duration c ->
           is_stunned c' = true /\ stamina c' = stamina c)
       /\ (stun_duration c <= dt -> is_stunned c' = false).
Proof.
  split.
  { unfold update. rewrite Halive. cbv zeta.
    rewrite !handle_input_stunned by assumption. reflexivity. }
  destruct (update_defined dt player_input c Hok) as (c' & Hu & _).
  exists c'. split; [exact Hu|].
  apply update_alive_shape in Hu; [|assumption].
  rewrite handle_input_stunned in Hu by assumption.
  set (c1 := set_velocity_x 0 (set_is_blocking false c)) in Hu.
  assert (Hs1 : is_stunned c1 = true) by exact Hstunned.
  assert (Hd1 : stun_duration c1 = stun_duration c) by reflexivity.
  assert (Hs2 : is_stunned (_update_physics dt c1) = true)
    by (rewrite <- Hs1; deep_frames).
  assert (Hd2 : stun_duration (_update_physics dt c1) = stun_duration c)
    by (rewrite <- Hd1; deep_frames).
  rewrite Hu. unfold with_animation.
  split; [deep_frames|].
  split; [repeat peel; apply update_combat_not_blocking; deep_frames|].
  split; [deep_frames|]. split; [deep_frames|]. split.
  - intro Hdt. split.
    + repeat peel. rewrite update_combat_is_stunned by exact Hs2.
      rewrite Hd2. apply negb_true_iff. apply Qleb_false_iff. lra.
    + repeat peel. rewrite update_combat_stamina_stunned;
        [deep_frames | exact Hs2 | rewrite Hd2; exact Hdt].
  - intro Hdt. repeat peel. rewrite update_combat_is_stunned by exact Hs2.
    rewrite Hd2. apply negb_false_iff. apply Qleb_true_iff. lra.
Qed.

Lemma stunned_tick_ignores_intent_witness :
  update (1 # 50) press_attack stunned_player
  = update (1 # 50) PlayerInput_init stunned_player.
Proof.
  apply (proj1 (stunned_tick_ignores_intent stunned_player press_attack (1 # 50)
                  eq_refl eq_refl eq_refl)).
Defined.

Lemma handle_jump_stunned (input_state : PlayerInput) (c : Character) :
  is_stunned c = true -> handle_jump input_state c = c.
Proof.
  intro H. unfold handle_jump. rewrite H. simpl.
  rewrite !andb_false_r. reflexivity.
Qed.

Lemma handle_attack_stunned (input_state : PlayerInput) (c : Character) :
  is_stunned c = true -> handle_attack input_state c = c.
Proof.
  intro H. unfold handle_attack. rewrite H. simpl.
  rewrite !andb_false_r. reflexivity.
Qed.

Lemma handle_special_stunned (input_state : PlayerInput) (c : Character) :
  is_stunned c = true -> handle_special input_state c = c.
Proof.
  intro H. unfold handle_special. rewrite H. simpl.
  rewrite !andb_false_r. reflexivity.
Qed.

(** The block paragraph when the block starts on too little stamina. *)
Lemma handle_block_depletes (input_state : PlayerInput) (c : Character) :
  is_blocking c = false -> is_attacking c = false ->
  0 < stamina c -> stamina c <= stamina_per_block ->
  block input_state = true ->
  handle_block input_state c
  = set_is_blocking false
      (set_stun_duration stun_time
         (set_is_stunned true
            (set_last_block_time 0
               (set_stamina 0 (set_is_blocking true c))))).
Proof.
  intros Hb Ha Hs Hs' Hi. unfold handle_block, stun_if_depleted. cbv zeta.
  rewrite Hb, Ha, Hi. apply Qltb_true_iff in Hs. rewrite Hs. simpl. fields.
  assert (E : py_max 0 (stamina c - stamina_per_block) = 0).
  { unfold py_max. split_test; [|reflexivity]. order_facts. lra. }
  rewrite E. reflexivity.
Qed.

(** X7.  A block that starts on 50 stamina or less spends it all and
    stuns: in that same tick the combatant is stunned for 2.5 s less the
    tick, is not blocking, has no stamina and no horizontal velocity, and
    no attack starts whatever else the intent asks for. *)
Theorem block_on_low_stamina_stuns
    (c : Character) (player_input : PlayerInput) (dt : Q)
    (Hok : animator_okb (animator c) = true)
    (Halive : is_dead c = false)
    (Hstunned : is_stunned c = false)
    (Hblocking : is_blocking c = false)
    (Hattacking : is_attacking c = false)
    (Hstamina : 0 < stamina c /\ stamina c <= stamina_per_block)
    (Hblock : block player_input = true)
    (Hdt : dt < stun_time) :
  exists c',
    update dt player_input c = Some c'
    /\ is_stunned c' = true
    /\ stun_duration c' = stun_time - dt
    /\ is_blocking c' = false
    /\ stamina c' = 0
    /\ velocity_x c' = 0
    /\ current_attack_id c' = current_attack_id c.
Proof.
  destruct Hstamina as [Hs Hs'].
  destruct (update_defined dt player_input c Hok) as (c' & Hu & _).
  exists c'. split; [exact Hu|].
  apply update_alive_shape in Hu; [|assumption].
  assert (Hin : _handle_input player_input dt c
                = set_velocity_x 0
                    (set_is_blocking false
                       (set_stun_duration stun_time
                          (set_is_stunned true
                             (set_last_block_time 0
                                (set_stamina 0 (set_is_blocking true c))))))).
  { unfold _handle_input. rewrite Hstunned. cbv zeta.
    rewrite handle_block_depletes by assumption.
    set (c1 := set_is_blocking false _).
    assert (H1 : is_stunned c1 = true) by reflexivity.
    assert (H2 : handle_movement player_input c1 = set_velocity_x 0 c1)
      by (unfold handle_movement; rewrite H1; rewrite andb_false_r; reflexivity).
    rewrite H2.
    rewrite handle_jump_stunned, handle_attack_stunned, handle_special_stunned;
      reflexivity. }
  rewrite Hin in Hu. clear Hin.
  set (c1 := set_velocity_x 0 _) in Hu.
  assert (Hs1 : is_stunned c1 = true) by reflexivity.
  assert (Hd1 : stun_duration c1 = stun_time) by reflexivity.
  assert (Hst1 : stamina c1 = 0) by reflexivity.
  assert (Hv1 : velocity_x c1 = 0) by reflexivity.
  assert (Hb1 : is_blocking c1 = false) by reflexivity.
  assert (Hi1 : current_attack_id c1 = current_attack_id c) by reflexivity.
  clearbody c1.
  assert (Hs2 : is_stunned (_update_physics dt c1) = true)
    by (rewrite <- Hs1; deep_frames).
  assert (Hd2 : stun_duration (_update_physics dt c1) = stun_time)
    by (rewrite <- Hd1; deep_frames).
  rewrite Hu. unfold with_animation.
  split.
  { repeat peel. rewrite update_combat_is_stunned by exact Hs2.
    rewrite Hd2. apply negb_true_iff. apply Qleb_false_iff. lra. }
  split.
  { repeat peel. unfold _update_combat. cbv zeta. repeat peel.
    unfold tick_stun. rewrite Hs2. cbv zeta. fields. rewrite Hd2.
    split_test; fields; [order_facts; lra | reflexivity]. }
  split; [repeat peel; apply update_combat_not_blocking; deep_frames;
          exact Hb1|].
  split.
  { repeat peel. rewrite update_combat_stamina_stunned;
      [rewrite <- Hst1; deep_frames | exact Hs2 | rewrite Hd2; exact Hdt]. }
  split; [rewrite <- Hv1; deep_frames | rewrite <- Hi1; deep_frames].
Qed.

Lemma block_on_low_stamina_stuns_witness :
  exists c',
    update (1 # 50) (mkPlayerInput false true false false true true false)
      tired_player = Some c'
    /\ is_stunned c' = true
    /\ stun_duration c' = stun_time - (1 # 50)
    /\ is_blocking c' = false
    /\ stamina c' = 0
    /\ velocity_x c' = 0
    /\ current_attack_id c' = 0%Z.
Proof.
  apply (block_on_low_stamina_stuns tired_player
           (mkPlayerInput false true false false true true false) (1 # 50));
    try reflexivity.
  split; [reflexivity | discriminate].
Defined.

Lemma update_physics_in_arena (dt : Q) (c : Character) :
  inject_Z (width c) <= 1000 ->
  - (100) <= x (_update_physics dt c)
  /\ x (_update_physics dt c) <= 900 - inject_Z (width c)
  /\ y (_update_physics dt c) <= ground_y c.
Proof.
  intro Hw. unfold _update_physics. cbv zeta.
  set (c2 := update_position dt (apply_gravity dt c)).
  assert (Hg2 : ground_y c2 = ground_y c) by (subst c2; frames).
  assert (Hw2 : width c2 = width c) by (subst c2; frames).
  clearbody c2.
  set (c3 := ground_collision c2).
  assert (Hy3 : y c3 <= ground_y c).
  { subst c3. unfold ground_collision.
    split_test; fields; order_facts; rewrite ?Hg2 in *; lra. }
  assert (Hw3 : width c3 = width c) by (subst c3; rewrite <- Hw2; frames).
  clearbody c3. unfold screen_boundaries. cbv zeta.
  repeat split_test; fields; order_facts; rewrite ?Hw3 in *;
    repeat split; lra.
Qed.

(** X8.  After every tick a living combatant no wider than the arena
    stands between its walls, [-100 <= x <= 900 - width], and not below
    its ground line, wherever it stood before and whatever [dt] and the
    intent are. *)
Theorem tick_keeps_combatant_in_arena
    (c : Character) (player_input : PlayerInput) (dt : Q)
    (Hok : animator_okb (animator c) = true)
    (Halive : is_dead c = false)
    (Hwidth : inject_Z (width c) <= 1000) :
  exists c',
    update dt player_input c = Some c'
    /\ - (100) <= x c'
    /\ x c' <= 900 - inject_Z (width c')
    /\ y c' <= ground_y c'.
Proof.
  destruct (update_defined dt player_input c Hok) as (c' & Hu & _).
  exists c'. split; [exact Hu|].
  apply update_alive_shape in Hu; [|assumption].
  set (c1 := _handle_input player_input dt c) in Hu.
  assert (Hw1 : width c1 = width c) by (subst c1; frames).
  assert (Hg1 : ground_y c1 = ground_y c) by (subst c1; frames).
  clearbody c1.
  destruct (update_physics_in_arena dt c1) as (H1 & H2 & H3);
    [rewrite Hw1; exact Hwidth|].
  assert (Hx : x c' = x (_update_physics dt c1))
    by (rewrite Hu; unfold with_animation; frames).
  assert (Hy : y c' = y (_update_physics dt c1))
    by (rewrite Hu; unfold with_animation; frames).
  assert (Hw : width c' = width c1)
    by (rewrite Hu; unfold with_animation; frames).
  assert (Hg : ground_y c' = ground_y c1)
    by (rewrite Hu; unfold with_animation; frames).
  rewrite Hx, Hy, Hw, Hg. repeat split; assumption.
Qed.

Lemma tick_keeps_combatant_in_arena_witness :
  exists c',
    update 100 walk_right (Samurai1 demo_assets 150 335) = Some c'
    /\ - (100) <= x c'
    /\ x c' <= 900 - inject_Z (width c')
    /\ y c' <= ground_y c'.
Proof.
  apply (tick_keeps_combatant_in_arena (Samurai1 demo_assets 150 335)
           walk_right 100); try reflexivity.
  discriminate.
Defined.

(** The input paragraph starts no attack against the gates. *)
Lemma handle_input_attack_gate (input_state : PlayerInput) (dt : Q) (c : Character) :
  0 < attack_cooldown c \/ is_attacking c = true
  \/ is_special_attacking c = true \/ is_stunned c = true
  \/ attack input_state = false ->
  current_attack_id (_handle_input input_state dt c) = current_attack_id c.
Proof.
  intro Hgate. unfold _handle_input. cbv zeta.
  destruct (is_stunned c) eqn:Hst; [frames|]. peel.
  set (c3 := handle_jump input_state
               (handle_movement input_state (handle_block input_state c))).
  assert (H1 : attack_cooldown c3 = attack_cooldown c) by (subst c3; frames).
  assert (H2 : is_attacking c3 = is_attacking c) by (subst c3; frames).
  assert (H3 : is_special_attacking c3 = is_special_attacking c)
    by (subst c3; frames).
  assert (H4 : current_attack_id c3 = current_attack_id c) by (subst c3; frames).
  clearbody c3. unfold handle_attack. rewrite H1, H2, H3.
  destruct Hgate as [H|[H|[H|[H|H]]]]; try discriminate; rewrite ?H.
  - apply Qleb_false_iff in H. rewrite H.
    rewrite ?andb_false_r. simpl. exact H4.
  - rewrite ?andb_false_r. simpl. exact H4.
  - rewrite ?andb_false_r. simpl. exact H4.
  - simpl. exact H4.
Qed.

Lemma handle_input_special_gate (input_state : PlayerInput) (dt : Q) (c : Character) :
  0 < special_attack_cooldown c \/ is_attacking c = true
  \/ is_special_attacking c = true \/ is_stunned c = true
  \/ special input_state = false ->
  current_special_attack_id (_handle_input input_state dt c)
  = current_special_attack_id c.
Proof.
  intro Hgate. unfold _handle_input. cbv zeta.
  destruct (is_stunned c) eqn:Hst; [frames|].
  set (c3 := handle_jump input_state
               (handle_movement input_state (handle_block input_state c))).
  assert (H1 : special_attack_cooldown c3 = special_attack_cooldown c)
    by (subst c3; frames).
  assert (H2 : is_attacking c3 = is_attacking c) by (subst c3; frames).
  assert (H3 : is_special_attacking c3 = is_special_attacking c)
    by (subst c3; frames).
  assert (H4 : current_special_attack_id c3 = current_special_attack_id c)
    by (subst c3; frames).
  clearbody c3.
  set (c4 := handle_attack input_state c3).
  assert (G1 : special_attack_cooldown c4 = special_attack_cooldown c)
    by (subst c4; rewrite <- H1; frames).
  assert (G3 : is_special_attacking c4 = is_special_attacking c)
    by (subst c4; rewrite <- H3; frames).
  assert (G4 : current_special_attack_id c4 = current_special_attack_id c)
    by (subst c4; rewrite <- H4; frames).
  assert (G2 : is_attacking c = true -> is_attacking c4 = true).
  { intro H. subst c4. unfold handle_attack. rewrite H2, H.
    rewrite ?andb_false_r. simpl. congruence. }
  clearbody c4. unfold handle_special, start_special_attack. rewrite G1, G3.
  destruct Hgate as [H|[H|[H|[H|H]]]]; try discriminate.
  - apply Qleb_false_iff in H. rewrite H.
    split_test; simpl; exact G4.
  - rewrite (G2 H). rewrite ?andb_false_r. simpl. exact G4.
  - rewrite H. rewrite ?andb_false_r. simpl. exact G4.
  - rewrite H. simpl. exact G4.
Qed.

(** X9.  Gated actions are ignored in silence.  A tick starts no new
    attack when the attack cooldown is running, an attack or a special
    attack is in progress, the combatant is stunned or dead, or the
    intent does not ask for one; and no new special attack under the same
    conditions on the special cooldown and the special intent.  The tick
    itself goes through. *)
Theorem gated_actions_are_ignored
    (c : Character) (player_input : PlayerInput) (dt : Q)
    (Hok : animator_okb (animator c) = true) :
  exists c',
    update dt player_input c = Some c'
    /\ (0 < attack_cooldown c \/ is_attacking c = true
        \/ is_special_attacking c = true \/ is_stunned c = true
        \/ attack player_input = false \/ is_dead c = true ->
        current_attack_id c' = current_attack_id c)
    /\ (0 < special_attack_cooldown c \/ is_attacking c = true
        \/ is_special_attacking c = true \/ is_stunned c = true
        \/ special player_input = false \/ is_dead c = true ->
        current_special_attack_id c' = current_special_attack_id c).
Proof.
  destruct (update_defined dt player_input c Hok) as (c' & Hu & _).
  exists c'. split; [exact Hu|].
  destruct (is_dead c) eqn:Hd.
  { rewrite update_dead_shape in Hu by assumption. injection Hu as <-.
    split; intros _; reflexivity. }
  apply update_alive_shape in Hu; [|assumption].
  split; intro Hgate.
  - rewrite Hu. unfold with_animation. deep_frames.
    apply handle_input_attack_gate.
    destruct Hgate as [H|[H|[H|[H|[H|H]]]]]; try discriminate; tauto.
  - rewrite Hu. unfold with_animation. deep_frames.
    apply handle_input_special_gate.
    destruct Hgate as [H|[H|[H|[H|[H|H]]]]]; try discriminate; tauto.
Qed.

Lemma gated_actions_are_ignored_witness :
  exists c',
    update (1 # 50) press_attack
      (set_attack_cooldown (1 # 2) (Samurai1 demo_assets 150 335)) = Some c'
    /\ current_attack_id c' = 0%Z.
Proof.
  destruct (gated_actions_are_ignored
              (set_attack_cooldown (1 # 2) (Samurai1 demo_assets 150 335))
              press_attack (1 # 50) eq_refl) as (c' & Hu & Hgate & _).
  exists c'. split; [exact Hu|]. apply Hgate. left. reflexivity.
Defined.

Lemma handle_input_while_attacking (input_state : PlayerInput) (dt : Q) (c : Character) :
  is_attacking c = true ->
  is_attacking (_handle_input input_state dt c) = true
  /\ attack_duration (_handle_input input_state dt c) = attack_duration c
  /\ attack_cooldown (_handle_input input_state dt c) = attack_cooldown c.
Proof.
  intro Ha. unfold _handle_input. cbv zeta.
  destruct (is_stunned c); [repeat split; frames; exact Ha|].
  set (c3 := handle_jump input_state
               (handle_movement input_state (handle_block input_state c))).
  assert (H1 : is_attacking c3 = true) by (subst c3; frames; exact Ha).
  assert (H2 : attack_duration c3 = attack_duration c) by (subst c3; frames).
  assert (H3 : attack_cooldown c3 = attack_cooldown c) by (subst c3; frames).
  clearbody c3.
  assert (E4 : handle_attack input_state c3 = c3)
    by (unfold handle_attack; rewrite H1; rewrite ?andb_false_r; reflexivity).
  rewrite E4.
  assert (E5 : handle_special input_state c3 = c3)
    by (apply handle_special_while_attacking; exact H1).
  rewrite E5. auto.
Qed.

Lemma update_combat_attack_ends (dt : Q) (c : Character) :
  is_attacking c = true -> attack_duration c <= dt ->
  is_attacking (_update_combat dt c) = false
  /\ attack_cooldown (_update_combat dt c) = py_max 0 (attack_cooldown_time - dt).
Proof.
  intros Ha Hdt. unfold _update_combat. cbv zeta.
  set (c1 := tick_stun dt c).
  assert (H1 : is_attacking c1 = true) by (subst c1; frames; exact Ha).
  assert (H2 : attack_duration c1 = attack_duration c) by (subst c1; frames).
  clearbody c1.
  assert (E : tick_attack dt c1
              = set_attack_cooldown attack_cooldown_time
                  (set_is_attacking false
                     (set_attack_duration (attack_duration c1 - dt) c1))).
  { unfold tick_attack. rewrite H1. cbv zeta. fields.
    split_test; [reflexivity|]. order_facts. rewrite H2 in *. lra. }
  rewrite E. clear E.
  set (c2 := set_attack_cooldown _ _).
  assert (G1 : is_attacking c2 = false) by reflexivity.
  assert (G2 : attack_cooldown c2 = attack_cooldown_time) by reflexivity.
  clearbody c2. split; [frames; exact G1|].
  peel.
  set (c4 := tick_special dt (tick_hit dt c2)).
  assert (K : attack_cooldown c4 = attack_cooldown_time)
    by (subst c4; rewrite <- G2; frames).
  clearbody c4. unfold tick_cooldowns. cbv zeta. rewrite K.
  assert (Hpos : Qltb 0 attack_cooldown_time = true) by reflexivity.
  rewrite Hpos. split_test; fields; reflexivity.
Qed.

Lemma update_combat_attack_goes_on (dt : Q) (c : Character) :
  is_attacking c = true -> dt < attack_duration c ->
  attack_duration (_update_combat dt c) = attack_duration c - dt.
Proof.
  intros Ha Hdt. unfold _update_combat. cbv zeta. repeat peel.
  set (c1 := tick_stun dt c).
  assert (H1 : is_attacking c1 = true) by (subst c1; frames; exact Ha).
  assert (H2 : attack_duration c1 = attack_duration c) by (subst c1; frames).
  clearbody c1. unfold tick_attack. rewrite H1. cbv zeta. fields.
  split_test; fields; rewrite H2; reflexivity.
Qed.

(** X10.  An attack runs its course.  While the remaining duration
    outlasts the tick the attack goes on, shortened by [dt], whatever the
    intent; in the tick in which the duration runs out the attack ends
    and the cooldown of 0.5 s starts, already reduced by that same
    tick. *)
Theorem attack_runs_its_course
    (c : Character) (player_input : PlayerInput) (dt : Q)
    (Hok : animator_okb (animator c) = true)
    (Halive : is_dead c = false)
    (Hattacking : is_attacking c = true) :
  exists c',
    update dt player_input c = Some c'
    /\ current_attack_id c' = current_attack_id c
    /\ (dt < attack_duration c ->
        is_attacking c' = true /\ attack_duration c' = attack_duration c - dt)
    /\ (attack_duration c <= dt ->
        is_attacking c' = false
        /\ attack_cooldown c' = py_max 0 (attack_cooldown_time - dt)).
Proof.
  destruct (update_defined dt player_input c Hok) as (c' & Hu & _).
  exists c'. split; [exact Hu|].
  apply update_alive_shape in Hu; [|assumption].
  destruct (handle_input_while_attacking player_input dt c Hattacking)
    as (H1 & H2 & H3).
  assert (Hid : current_attack_id (_handle_input player_input dt c)
                = current_attack_id c)
    by (apply handle_input_attack_gate; auto).
  set (c1 := _handle_input player_input dt c) in *. clearbody c1.
  assert (P1 : is_attacking (_update_physics dt c1) = true)
    by (rewrite <- H1; frames).
  assert (P2 : attack_duration (_update_physics dt c1) = attack_duration c)
    by (rewrite <- H2; frames).
  rewrite Hu. unfold with_animation.
  split; [frames; exact Hid|]. split; intro Hdt.
  - split; repeat peel.
    + apply update_combat_still_attacking; [exact P1 | rewrite P2; exact Hdt].
    + rewrite update_combat_attack_goes_on;
        [rewrite P2; reflexivity | exact P1 | rewrite P2; exact Hdt].
  - destruct (update_combat_attack_ends dt (_update_physics dt c1) P1)
      as [E1 E2]; [rewrite P2; exact Hdt|].
    split; repeat peel; assumption.
Qed.

Lemma attack_runs_its_course_witness :
  exists c',
    update (1 # 2) press_attack (start_attack (Samurai1 demo_assets 150 335))
    = Some c'
    /\ is_attacking c' = false
    /\ attack_cooldown c' = py_max 0 (attack_cooldown_time - (1 # 2)).
Proof.
  destruct (attack_runs_its_course (start_attack (Samurai1 demo_assets 150 335))
              press_attack (1 # 2) eq_refl eq_refl eq_refl)
    as (c' & Hu & _ & _ & Hend).
  exists c'. split; [exact Hu|]. apply Hend. discriminate.
Defined.

(** What each paragraph does to [block_exclusive]. *)
Ltac bool_facts :=
  repeat match goal with
         | H : _ && _ = true |- _ => apply andb_true_iff in H; destruct H
         | H : negb _ = true |- _ => apply negb_true_iff in H
         | H : negb _ = false |- _ => apply negb_false_iff in H
         end.

Ltac block_exclusive_stage :=
  unfold block_exclusive; autounfold with stages; cbv zeta;
  repeat split_test; fields; intros; bool_facts;
  intuition congruence.

Lemma handle_block_exclusive (input_state : PlayerInput) (c : Character) :
  is_stunned c = false -> block_exclusive (handle_block input_state c).
Proof. block_exclusive_stage. Qed.

Lemma handle_movement_exclusive (input_state : PlayerInput) (c : Character) :
  block_exclusive c -> block_exclusive (handle_movement input_state c).
Proof. block_exclusive_stage. Qed.

Lemma handle_jump_exclusive (input_state : PlayerInput) (c : Character) :
  block_exclusive c -> block_exclusive (handle_jump input_state c).
Proof. block_exclusive_stage. Qed.
Lemma handle_attack_exclusive (input_state : PlayerInput) (c : Character) :
  block_exclusive c -> block_exclusive (handle_attack input_state c).
Proof. block_exclusive_stage. Qed.

Lemma handle_special_exclusive (input_state : PlayerInput) (c : Character) :
  block_exclusive c -> block_exclusive (handle_special input_state c).
Proof. block_exclusive_stage. Qed.
Lemma handle_input_exclusive (input_state : PlayerInput) (dt : Q) (c : Character) :
  block_exclusive (_handle_input input_state dt c).
Proof.
  unfold _handle_input. cbv zeta.
  destruct (is_stunned c) eqn:Hs.
  - unfold block_exclusive. fields. discriminate.
  - apply handle_special_exclusive, handle_attack_exclusive,
      handle_jump_exclusive, handle_movement_exclusive,
      handle_block_exclusive, Hs.
Qed.

Lemma tick_stun_exclusive (dt : Q) (c : Character) :
  block_exclusive c -> block_exclusive (tick_stun dt c).
Proof. block_exclusive_stage. Qed.

Lemma tick_attack_exclusive (dt : Q) (c : Character) :
  block_exclusive c -> block_exclusive (tick_attack dt c).
Proof. block_exclusive_stage. Qed.

Lemma tick_hit_exclusive (dt : Q) (c : Character) :
  block_exclusive c -> block_exclusive (tick_hit dt c).
Proof. block_exclusive_stage. Qed.
Lemma tick_special_exclusive (dt : Q) (c : Character) :
  block_exclusive c -> block_exclusive (tick_special dt c).
Proof. block_exclusive_stage. Qed.

Lemma tick_cooldowns_exclusive (dt : Q) (c : Character) :
  block_exclusive c -> block_exclusive (tick_cooldowns dt c).
Proof. block_exclusive_stage. Qed.

Lemma regen_stamina_exclusive (dt : Q) (c : Character) :
  block_exclusive c -> block_exclusive (regen_stamina dt c).
Proof. block_exclusive_stage. Qed.
Lemma update_physics_exclusive (dt : Q) (c : Character) :
  block_exclusive c -> block_exclusive (_update_physics dt c).
Proof.
  unfold block_exclusive. intro H.
  assert (E1 : is_blocking (_update_physics dt c) = is_blocking c) by frames.
  assert (E2 : is_stunned (_update_physics dt c) = is_stunned c) by deep_frames.
  assert (E3 : is_attacking (_update_physics dt c) = is_attacking c) by frames.
  rewrite E1, E2, E3. exact H.
Qed.

Lemma update_combat_exclusive (dt : Q) (c : Character) :
  block_exclusive c -> block_exclusive (_update_combat dt c).
Proof.
  intro H. unfold _update_combat. cbv zeta.
  apply regen_stamina_exclusive, tick_cooldowns_exclusive,
    tick_special_exclusive, tick_hit_exclusive, tick_attack_exclusive,
    tick_stun_exclusive, H.
Qed.
(** X11.  After a tick, a living combatant that is blocking is neither
    stunned nor attacking, whatever state it was in before the tick.  (It
    may be in a special attack: a block can start during one.) *)
Theorem blocking_excludes_stun_and_attack
    (c c' : Character) (player_input : PlayerInput) (dt : Q)
    (Halive : is_dead c = false)
    (Hupdate : update dt player_input c = Some c')
    (Hblocking : is_blocking c' = true) :
  is_stunned c' = false /\ is_attacking c' = false.
Proof.
  apply update_alive_shape in Hupdate; [|assumption].
  assert (H := update_combat_exclusive dt _
                 (update_physics_exclusive dt _
                    (handle_input_exclusive player_input dt c))).
  set (c3 := _update_combat dt _) in *. clearbody c3.
  assert (E1 : is_blocking c' = is_blocking c3)
    by (rewrite Hupdate; unfold with_animation; frames).
  assert (E2 : is_stunned c' = is_stunned c3)
    by (rewrite Hupdate; unfold with_animation; frames).
  assert (E3 : is_attacking c' = is_attacking c3)
    by (rewrite Hupdate; unfold with_animation; frames).
  rewrite E2, E3. apply H. rewrite <- E1. exact Hblocking.
Qed.
Lemma blocking_excludes_stun_and_attack_witness :
  exists c',
    update (1 # 60) hold_block (Samurai1 demo_assets 150 335) = Some c'
    /\ is_blocking c' = true
    /\ is_stunned c' = false /\ is_attacking c' = false.
Proof.
  cbv zeta. eexists. split; [vm_compute; reflexivity|].
  split; [vm_compute; reflexivity|].
  apply (blocking_excludes_stun_and_attack (Samurai1 demo_assets 150 335) _
           hold_block (1 # 60)); vm_compute; reflexivity.
Defined.

(** What each paragraph does to [one_attack_at_a_time]. *)
Ltac one_attack_stage :=
  unfold one_attack_at_a_time; autounfold with stages; cbv zeta;
  repeat split_test; fields; intros; bool_facts;
  repeat match goal with
         | |- context [is_attacking ?c] => destruct (is_attacking c) eqn:?
         | |- context [is_special_attacking ?c] =>
             destruct (is_special_attacking c) eqn:?
         end;
  simpl in *; congruence.

Lemma handle_block_one_attack (input_state : PlayerInput) (c : Character) :
  one_attack_at_a_time c -> one_attack_at_a_time (handle_block input_state c).
Proof. one_attack_stage. Qed.

Lemma handle_movement_one_attack (input_state : PlayerInput) (c : Character) :
  one_attack_at_a_time c -> one_attack_at_a_time (handle_movement input_state c).
Proof. one_attack_stage. Qed.

Lemma handle_jump_one_attack (input_state : PlayerInput) (c : Character) :
  one_attack_at_a_time c -> one_attack_at_a_time (handle_jump input_state c).
Proof. one_attack_stage. Qed.

Lemma handle_attack_one_attack (input_state : PlayerInput) (c : Character) :
  one_attack_at_a_time c -> one_attack_at_a_time (handle_attack input_state c).
Proof. one_attack_stage. Qed.

Lemma handle_special_one_attack (input_state : PlayerInput) (c : Character) :
  one_attack_at_a_time c -> one_attack_at_a_time (handle_special input_state c).
Proof. one_attack_stage. Qed.

Lemma handle_input_one_attack (input_state : PlayerInput) (dt : Q) (c : Character) :
  one_attack_at_a_time c -> one_attack_at_a_time (_handle_input input_state dt c).
Proof.
  intro H. unfold _handle_input. cbv zeta.
  destruct (is_stunned c).
  - revert H. unfold one_attack_at_a_time. fields. trivial.
  - apply handle_special_one_attack, handle_attack_one_attack,
      handle_jump_one_attack, handle_movement_one_attack,
      handle_block_one_attack, H.
Qed.

Lemma update_physics_one_attack (dt : Q) (c : Character) :
  one_attack_at_a_time c -> one_attack_at_a_time (_update_physics dt c).
Proof.
  unfold one_attack_at_a_time. intro H.
  assert (E1 : is_attacking (_update_physics dt c) = is_attacking c) by frames.
  assert (E2 : is_special_attacking (_update_physics dt c)
               = is_special_attacking c) by deep_frames.
  rewrite E1, E2. exact H.
Qed.

Lemma tick_stun_one_attack (dt : Q) (c : Character) :
  one_attack_at_a_time c -> one_attack_at_a_time (tick_stun dt c).
Proof. one_attack_stage. Qed.

Lemma tick_attack_one_attack (dt : Q) (c : Character) :
  one_attack_at_a_time c -> one_attack_at_a_time (tick_attack dt c).
Proof. one_attack_stage. Qed.

Lemma tick_hit_one_attack (dt : Q) (c : Character) :
  one_attack_at_a_time c -> one_attack_at_a_time (tick_hit dt c).
Proof. one_attack_stage. Qed.

Lemma tick_special_one_attack (dt : Q) (c : Character) :
  one_attack_at_a_time c -> one_attack_at_a_time (tick_special dt c).
Proof. one_attack_stage. Qed.

Lemma tick_cooldowns_one_attack (dt : Q) (c : Character) :
  one_attack_at_a_time c -> one_attack_at_a_time (tick_cooldowns dt c).
Proof. one_attack_stage. Qed.

Lemma regen_stamina_one_attack (dt : Q) (c : Character) :
  one_attack_at_a_time c -> one_attack_at_a_time (regen_stamina dt c).
Proof. one_attack_stage. Qed.

Lemma update_combat_one_attack (dt : Q) (c : Character) :
  one_attack_at_a_time c -> one_attack_at_a_time (_update_combat dt c).
Proof.
  intro H. unfold _update_combat. cbv zeta.
  apply regen_stamina_one_attack, tick_cooldowns_one_attack,
    tick_special_one_attack, tick_hit_one_attack, tick_attack_one_attack,
    tick_stun_one_attack, H.
Qed.

Lemma update_one_attack (dt : Q) (player_input : PlayerInput) (c c' : Character) :
  one_attack_at_a_time c -> update dt player_input c = Some c' ->
  one_attack_at_a_time c'.
Proof.
  intros H Hu. destruct (is_dead c) eqn:Hd.
  - rewrite update_dead_shape in Hu by assumption.
    injection Hu as <-. exact H.
  - apply update_alive_shape in Hu; [|assumption].
    assert (H3 := update_combat_one_attack dt _
                    (update_physics_one_attack dt _
                       (handle_input_one_attack player_input dt c H))).
    set (c3 := _update_combat dt _) in *. clearbody c3.
    assert (E1 : is_attacking c' = is_attacking c3)
      by (rewrite Hu; unfold with_animation; frames).
    assert (E2 : is_special_attacking c' = is_special_attacking c3)
      by (rewrite Hu; unfold with_animation; frames).
    unfold one_attack_at_a_time in *. rewrite E1, E2. exact H3.
Qed.

Lemma take_damage_one_attack (damage : Z) (attacker_x : Q) (c : Character) :
  one_attack_at_a_time c ->
  one_attack_at_a_time (snd (take_damage damage attacker_x c)).
Proof.
  unfold one_attack_at_a_time, take_damage, play. intro H.
  repeat split_test; exact H.
Qed.

(** X12.  A normal and a special attack are never in progress together:
    whatever the ticks, intents and blows, a combatant that is not in
    both attacks at once never gets there. *)
Theorem never_two_attacks_at_once (ops : list Op) :
  forall c c' : Character,
    one_attack_at_a_time c ->
    apply_ops ops c = Some c' ->
    one_attack_at_a_time c'.
Proof.
  induction ops as [|o rest IH]; intros c c' H Hrun; simpl in Hrun.
  - injection Hrun as <-. exact H.
  - destruct (apply_op o c) as [c1|] eqn:E; [|discriminate].
    apply (IH c1 c'); [|exact Hrun].
    destruct o as [dt input | amount attacker_x]; simpl in E.
    + exact (update_one_attack dt input c c1 H E).
    + injection E as <-. apply take_damage_one_attack. exact H.
Qed.

Lemma never_two_attacks_at_once_witness :
  exists c',
    apply_ops [Update_op (1 # 50)
                 (mkPlayerInput false false false false true false true);
               TakeDamage_op 3 550;
               Update_op (1 # 50)
                 (mkPlayerInput false false false false false false true)]
      (Samurai1 demo_assets 150 335) = Some c'
    /\ is_attacking c' = true
    /\ one_attack_at_a_time c'.
Proof.
  cbv zeta. eexists. split; [vm_compute; reflexivity|].
  split; [vm_compute; reflexivity|].
  apply (never_two_attacks_at_once
           [Update_op (1 # 50)
              (mkPlayerInput false false false false true false true);
            TakeDamage_op 3 550;
            Update_op (1 # 50)
              (mkPlayerInput false false false false false false true)]
           (Samurai1 demo_assets 150 335));
    vm_compute; reflexivity.
Defined.

(** ** The Yellow Ninja *)

Lemma play_can_hit (name : string) (reset : bool) (c : Character) :
  can_hit (play name reset c) = can_hit c.
Proof. reflexivity. Qed.

Lemma play_health (name : string) (reset : bool) (c : Character) :
  health (play name reset c) = health c.
Proof. reflexivity. Qed.

Lemma Character_attack_can_hit (c : Character) :
  can_hit c = false -> can_hit (Character_attack c) = false.
Proof.
  intro H. unfold Character_attack. split_test; [exact H|]. reflexivity.
Qed.

Lemma Character_attack_health (c : Character) :
  health (Character_attack c) = health c.
Proof. unfold Character_attack. split_test; reflexivity. Qed.

Section NinjaStages.
Import YellowNinja.

Lemma physics_can_hit (dt gravity ground_y : Q) (c : Character) :
  can_hit (physics dt gravity ground_y c) = can_hit c.
Proof. unfold physics. cbv zeta. repeat split_test; reflexivity. Qed.

Lemma physics_health (dt gravity ground_y : Q) (c : Character) :
  health (physics dt gravity ground_y c) = health c.
Proof. unfold physics. cbv zeta. repeat split_test; reflexivity. Qed.

Lemma boundaries_can_hit (arena_left arena_right : Q) (c : Character) :
  can_hit (boundaries arena_left arena_right c) = can_hit c.
Proof. unfold boundaries. repeat split_test; reflexivity. Qed.

Lemma boundaries_health (arena_left arena_right : Q) (c : Character) :
  health (boundaries arena_left arena_right c) = health c.
Proof. unfold boundaries. repeat split_test; reflexivity. Qed.

Lemma update_animation_state_can_hit (c : Character) :
  can_hit (_update_animation_state c) = can_hit c.
Proof. unfold _update_animation_state. cbv zeta. split_test; reflexivity. Qed.

Lemma update_animation_state_health (c : Character) :
  health (_update_animation_state c) = health c.
Proof. unfold _update_animation_state. cbv zeta. split_test; reflexivity. Qed.

Lemma tick_blink_body (dt : Q) (n : t) : body (tick_blink dt n) = body n.
Proof. unfold tick_blink. destruct (_blink_timer (mind n)); [split_test|]; reflexivity. Qed.

Lemma make_ai_decision_body (draw : Q) (player : Character) (n : t) :
  body (_make_ai_decision draw player n) = body n.
Proof. unfold _make_ai_decision. cbv zeta. repeat split_test; reflexivity. Qed.

Lemma teleport_can_hit (player : Character) (n : t) :
  can_hit (body (teleport player n)) = false.
Proof.
  unfold teleport. cbv zeta.
  destruct (facing_right player); simpl;
    match goal with |- context [lookup ?k ?d] => destruct (lookup k d) end;
    reflexivity.
Qed.

Lemma teleport_health (player : Character) (n : t) :
  health (body (teleport player n)) = health (body n).
Proof.
  unfold teleport. cbv zeta.
  destruct (facing_right player); simpl;
    match goal with |- context [lookup ?k ?d] => destruct (lookup k d) end;
    reflexivity.
Qed.

Lemma execute_ai_action_can_hit (dt : Q) (player : Character) (n : t) :
  can_hit (body n) = false ->
  can_hit (body (_execute_ai_action dt player n)) = false.
Proof.
  intro H. unfold _execute_ai_action. cbv zeta.
  repeat split_test; cbn [body on_body];
    first [ exact H
          | apply teleport_can_hit
          | apply Character_attack_can_hit; exact H ].
Qed.

Lemma execute_ai_action_health (dt : Q) (player : Character) (n : t) :
  health (body (_execute_ai_action dt player n)) = health (body n).
Proof.
  unfold _execute_ai_action. cbv zeta.
  repeat split_test; cbn [body on_body];
    rewrite ?teleport_health, ?Character_attack_health; reflexivity.
Qed.

Lemma update_ai_can_hit (draw dt : Q) (player : Character) (n : t) :
  can_hit (body n) = false ->
  can_hit (body (_update_ai draw dt player n)) = false.
Proof.
  intro H. unfold _update_ai. destruct (is_dead (body n)); [exact H|].
  cbv zeta. apply execute_ai_action_can_hit.
  split_test; [rewrite make_ai_decision_body|]; exact H.
Qed.

Lemma update_ai_health (draw dt : Q) (player : Character) (n : t) :
  health (body (_update_ai draw dt player n)) = health (body n).
Proof.
  unfold _update_ai. destruct (is_dead (body n)); [reflexivity|].
  cbv zeta. rewrite execute_ai_action_health.
  split_test; [rewrite make_ai_decision_body|]; reflexivity.
Qed.

Lemma ninja_update_can_hit (draw dt gravity ground_y : Q) (opponent : Character)
    (arena_left arena_right : Q) (n : t) :
  can_hit (body n) = false ->
  can_hit (body (update draw dt gravity ground_y opponent arena_left arena_right n))
  = false.
Proof.
  intro H. unfold update. cbv zeta.
  assert (H1 : can_hit (body (on_body (_update_combat dt) n)) = false)
    by (unfold on_body; cbn [body]; rewrite <- H; deep_frames).
  set (n1 := on_body (_update_combat dt) n) in *. clearbody n1.
  assert (H2 : can_hit (body (on_body (physics dt gravity ground_y)
                                (tick_blink dt n1))) = false)
    by (unfold on_body; cbn [body]; rewrite physics_can_hit, tick_blink_body;
        exact H1).
  set (n2 := on_body (physics dt gravity ground_y) _) in *. clearbody n2.
  assert (H3 := update_ai_can_hit draw dt opponent n2 H2).
  set (n3 := _update_ai draw dt opponent n2) in *. clearbody n3.
  unfold on_body. cbn [body].
  change (can_hit (_update_animation_state
                     (boundaries arena_left arena_right (body n3))) = false).
  rewrite update_animation_state_can_hit, boundaries_can_hit. exact H3.
Qed.

Lemma ninja_update_health (draw dt gravity ground_y : Q) (opponent : Character)
    (arena_left arena_right : Q) (n : t) :
  health (body (update draw dt gravity ground_y opponent arena_left arena_right n))
  = health (body n).
Proof.
  unfold update. cbv zeta.
  assert (H1 : health (body (on_body (_update_combat dt) n)) = health (body n))
    by (unfold on_body; cbn [body]; deep_frames).
  set (n1 := on_body (_update_combat dt) n) in *. clearbody n1.
  assert (H2 : health (body (on_body (physics dt gravity ground_y)
                               (tick_blink dt n1))) = health (body n))
    by (unfold on_body; cbn [body]; rewrite physics_health, tick_blink_body;
        exact H1).
  set (n2 := on_body (physics dt gravity ground_y) _) in *. clearbody n2.
  assert (H3 := update_ai_health draw dt opponent n2).
  set (n3 := _update_ai draw dt opponent n2) in *. clearbody n3.
  unfold on_body. cbn [body].
  change (health (_update_animation_state
                    (boundaries arena_left arena_right (body n3)))
          = health (body n)).
  rewrite update_animation_state_health, boundaries_health, H3. exact H2.
Qed.

End NinjaStages.

(** X13.  The ninja never arms its attack.  [YellowNinja.update]
    replaces [Character.update] and leaves [_update_animations] out, the
    only code that sets [can_hit]; so whatever the ticks, draws and
    opponents, the latch of the ninja stays clear and its attack has no
    hit box. *)
Theorem ninja_never_arms_its_attack (ks : list NinjaTick) :
  forall n : YellowNinja.t,
    can_hit (YellowNinja.body n) = false ->
    can_hit (YellowNinja.body (ninja_ticks ks n)) = false
    /\ get_attack_rect (YellowNinja.body (ninja_ticks ks n)) = None.
Proof.
  assert (Hlatch : forall n, can_hit (YellowNinja.body n) = false ->
                     can_hit (YellowNinja.body (ninja_ticks ks n)) = false).
  { induction ks as [|k rest IH]; intros n H; [exact H|].
    unfold ninja_ticks. simpl. apply IH. unfold ninja_tick.
    apply ninja_update_can_hit. exact H. }
  intros n H. split; [apply Hlatch; exact H|].
  unfold get_attack_rect. rewrite (Hlatch n H). rewrite orb_true_r.
  reflexivity.
Qed.

Lemma ninja_never_arms_its_attack_witness :
  is_attacking
    (YellowNinja.body
       (ninja_ticks
          [mkNinjaTick 0 (1 # 5) 2000 600 (Samurai1 demo_assets 560 335)
             (- (100)) 900;
           mkNinjaTick 0 (1 # 10) 2000 600 (Samurai1 demo_assets 560 335)
             (- (100)) 900]
          demo_ninja)) = true
  /\ can_hit
       (YellowNinja.body
          (ninja_ticks
             [mkNinjaTick 0 (1 # 5) 2000 600 (Samurai1 demo_assets 560 335)
                (- (100)) 900;
              mkNinjaTick 0 (1 # 10) 2000 600 (Samurai1 demo_assets 560 335)
                (- (100)) 900]
             demo_ninja)) = false.
Proof.
  split; [vm_compute; reflexivity|].
  apply (ninja_never_arms_its_attack
           [mkNinjaTick 0 (1 # 5) 2000 600 (Samurai1 demo_assets 560 335)
              (- (100)) 900;
            mkNinjaTick 0 (1 # 10) 2000 600 (Samurai1 demo_assets 560 335)
              (- (100)) 900]
           demo_ninja).
  vm_compute. reflexivity.
Defined.

(** X14.  The ninja stays between the arena bounds it is given: the clamp
    of [update] comes after every change of its position, the teleport
    included.  (The bound is on its left edge; unlike the player's clamp
    it leaves the width out.) *)
Theorem ninja_stays_in_arena
    (draw dt gravity ground_y : Q) (opponent : Character)
    (arena_left arena_right : Q) (n : YellowNinja.t)
    (Harena : arena_left <= arena_right) :
  arena_left
  <= x (YellowNinja.body
          (YellowNinja.update draw dt gravity ground_y opponent
             arena_left arena_right n))
  /\ x (YellowNinja.body
          (YellowNinja.update draw dt gravity ground_y opponent
             arena_left arena_right n))
     <= arena_right.
Proof.
  unfold YellowNinja.update. cbv zeta.
  set (n3 := YellowNinja._update_ai _ _ _ _). clearbody n3.
  unfold YellowNinja.on_body. cbn [YellowNinja.body].
  change (x (set_animator ?sa ?c)) with (x c).
  assert (E : forall c, x (YellowNinja._update_animation_state c) = x c)
    by (intro c; unfold YellowNinja._update_animation_state; cbv zeta;
        split_test; reflexivity).
  rewrite E. clear E. unfold YellowNinja.boundaries.
  repeat split_test; order_facts; fields; split;
    try apply Qle_refl; try assumption; lra.
Qed.

Lemma ninja_stays_in_arena_witness :
  - (100)
  <= x (YellowNinja.body
          (YellowNinja.update 0 (1 # 5) 2000 600 (Samurai1 demo_assets 880 335)
             (- (100)) 900 (YellowNinja.init 32 32 890 335)))
  /\ x (YellowNinja.body
          (YellowNinja.update 0 (1 # 5) 2000 600 (Samurai1 demo_assets 880 335)
             (- (100)) 900 (YellowNinja.init 32 32 890 335)))
     <= 900.
Proof.
  apply (ninja_stays_in_arena 0 (1 # 5) 2000 600 (Samurai1 demo_assets 880 335)
           (- (100)) 900 (YellowNinja.init 32 32 890 335)).
  discriminate.
Defined.

(** X15.  The ninja's special attack is a teleport behind the player:
    when the action is ["special_attack"] and its gates are open, the
    ninja comes out facing the player from the side the player's back is
    turned to, at least 30 pixels away, in an attack whose latch is
    clear, and with its special cooldown started. *)
Theorem ninja_teleports_behind_the_player
    (dt : Q) (player : Character) (n : YellowNinja.t)
    (Haction : YellowNinja.ai_current_action (YellowNinja.mind n)
               = "special_attack")
    (Hattack : is_attacking (YellowNinja.body n) = false)
    (Hspecial : is_special_attacking (YellowNinja.body n) = false)
    (Hcooldown : special_attack_cooldown (YellowNinja.body n) <= 0)
    (Hwidth : (0 <= width (YellowNinja.body n))%Z)
    (Hplayer : (0 <= width player)%Z) :
  let n' := YellowNinja._execute_ai_action dt player n in
  Level2Scene._is_facing_target (YellowNinja.body n') player = true
  /\ Level2Scene._is_facing_target player (YellowNinja.body n') = false
  /\ 30 <= py_abs (x (YellowNinja.body n') - x player)
  /\ is_attacking (YellowNinja.body n') = true
  /\ can_hit (YellowNinja.body n') = false
  /\ special_attack_cooldown (YellowNinja.body n')
     = special_attack_cooldown_time (YellowNinja.body n).
Proof.
  intro n'. subst n'. unfold YellowNinja._execute_ai_action. cbv zeta.
  rewrite Haction.
  change (String.eqb "special_attack" "approach") with false.
  change (String.eqb "special_attack" "retreat") with false.
  change (String.eqb "special_attack" "attack") with false.
  change (String.eqb "special_attack" "special_attack") with true.
  cbv iota.
  assert (G : negb (is_attacking (YellowNinja.body
                      (YellowNinja.on_body (set_velocity_x 0) n)))
              && Qleb (special_attack_cooldown (YellowNinja.body
                         (YellowNinja.on_body (set_velocity_x 0) n))) 0
              && negb (is_special_attacking (YellowNinja.body
                         (YellowNinja.on_body (set_velocity_x 0) n))) = true).
  { cbn [YellowNinja.body YellowNinja.on_body]. fields.
    rewrite Hattack, Hspecial. apply Qleb_true_iff in Hcooldown.
    rewrite Hcooldown. reflexivity. }
  rewrite G. clear G.
  assert (Hw : 0 <= inject_Z (width (YellowNinja.body n)))
    by (change 0 with (inject_Z 0); rewrite <- Zle_Qle; exact Hwidth).
  assert (Hp : 0 <= inject_Z (width player))
    by (change 0 with (inject_Z 0); rewrite <- Zle_Qle; exact Hplayer).
  unfold YellowNinja.teleport. cbv zeta.
  unfold Level2Scene._is_facing_target, py_abs.
  destruct (facing_right player) eqn:Hf;
    cbn [YellowNinja.body YellowNinja.on_body YellowNinja.set__blink_timer];
    match goal with |- context [lookup ?k ?d] => destruct (lookup k d) end;
    cbn [YellowNinja.body YellowNinja.on_body YellowNinja.set__blink_timer];
    unfold play; fields;
    rewrite ?Hf; cbn [negb andb];
    repeat split_test; order_facts; repeat split;
      try reflexivity; try lra; exfalso; lra.
Qed.

Lemma ninja_teleports_behind_the_player_witness :
  Level2Scene._is_facing_target
    (YellowNinja.body
       (YellowNinja._execute_ai_action (1 # 50) (Samurai1 demo_assets 560 335)
          (YellowNinja.set_ai_current_action "special_attack" demo_ninja)))
    (Samurai1 demo_assets 560 335) = true
  /\ x (YellowNinja.body
          (YellowNinja._execute_ai_action (1 # 50) (Samurai1 demo_assets 560 335)
             (YellowNinja.set_ai_current_action "special_attack" demo_ninja)))
     == 458.
Proof.
  split; [|vm_compute; reflexivity].
  apply (ninja_teleports_behind_the_player (1 # 50)
           (Samurai1 demo_assets 560 335)
           (YellowNinja.set_ai_current_action "special_attack" demo_ninja));
    vm_compute; first [reflexivity | discriminate].
Defined.

(** ** Level 2 against the ninja *)

Lemma update_is_dead (dt : Q) (player_input : PlayerInput) (c c' : Character) :
  update dt player_input c = Some c' -> is_dead c' = is_dead c.
Proof.
  intro H. destruct (is_dead c) eqn:Hd.
  - rewrite update_dead_shape in H by assumption. injection H as <-. exact Hd.
  - apply update_alive_shape in H; [|assumption]. rewrite H.
    unfold with_animation. rewrite <- Hd. deep_frames.
Qed.

Section Level2Duel.
Import Level2Scene.

Lemma end_round_players (reason : string) (s : t) :
  player1 (_end_round reason s) = player1 s
  /\ player2 (_end_round reason s) = player2 s.
Proof. unfold _end_round. cbv zeta. repeat split_test; split; reflexivity. Qed.

Lemma end_round_unhurt (reason : string) (s : t) :
  player_unhurt s -> player_unhurt (_end_round reason s).
Proof.
  unfold player_unhurt. destruct (end_round_players reason s) as [-> ->].
  trivial.
Qed.

Lemma end_round_ai_wins (reason : string) (s : t) :
  String.eqb reason "ai_wins" = false ->
  (health (player2 s) <= health (player1 s))%Z ->
  ai_wins (_end_round reason s) = ai_wins s.
Proof.
  intros Hr Hh. unfold _end_round. cbv zeta. rewrite Hr.
  repeat split_test; simpl in *; leb_facts;
    try reflexivity;
    repeat match goal with
           | H : (_ <? _)%Z = true |- _ => apply Z.ltb_lt in H
           end; lia.
Qed.

Lemma start_next_round_unhurt (s : t) :
  can_hit (player2 s) = false ->
  player_unhurt (_start_next_round s)
  /\ ai_wins (_start_next_round s) = ai_wins s.
Proof.
  intro H. unfold player_unhurt, _start_next_round, reset_state. cbv zeta.
  simpl. destruct (ground_image s); simpl;
    repeat split; try exact H; try reflexivity; apply Z.le_refl.
Qed.

Lemma deal_damage_health (damage : Z) (c : Character) :
  (0 <= damage)%Z -> (health (_deal_damage damage c) <= health c)%Z
  \/ (health (_deal_damage damage c) = 0)%Z.
Proof.
  intro Hd. unfold _deal_damage. cbv zeta. split_test; simpl; lia.
Qed.

Lemma block_cost_health (c : Character) : health (block_cost c) = health c.
Proof.
  unfold block_cost, start_stun, play. cbv zeta.
  repeat (split_test || match goal with
                        | |- context [match ?o with Some _ => _ | None => _ end] =>
                            destruct o
                        end); reflexivity.
Qed.

Lemma check_collisions_unhurt (s : t) :
  player_unhurt s ->
  player_unhurt (_check_collisions s)
  /\ ai_wins (_check_collisions s) = ai_wins s.
Proof.
  unfold player_unhurt. intros (H1 & H2 & H3 & H4).
  unfold _check_collisions. cbv zeta.
  set (distance := py_abs _). clearbody distance.
  assert (G : player_unhurt (player1_attacks distance s)
              /\ ai_wins (player1_attacks distance s) = ai_wins s).
  { unfold player_unhurt, player1_attacks. cbv zeta.
    split_test; [|auto]. split_test; simpl.
    - rewrite block_cost_can_hit, block_cost_health. auto.
    - rewrite deal_damage_can_hit.
      repeat split; try assumption.
      match goal with
      | |- (health (_deal_damage ?d _) <= _)%Z =>
          destruct (deal_damage_health d (player2 s)) as [E|E];
            [destruct (god_mode (player1 s)); simpl; lia
            | lia
            | rewrite E; unfold max_health; lia]
      end. }
  destruct G as ((G1 & G2 & G3 & G4) & G5).
  set (s1 := player1_attacks distance s) in *. clearbody s1.
  unfold player_unhurt, player2_attacks. rewrite G3.
  rewrite andb_false_r. simpl. auto.
Qed.

Lemma ninja_opponent_keeps (draw : YellowNinja.Mind * Q) (dt gravity ground_y : Q)
    (opponent : Character) (arena_left arena_right : Q) (c c' : Character) :
  ninja_opponent draw dt gravity ground_y opponent arena_left arena_right c
  = Some c' ->
  can_hit c = false ->
  can_hit c' = false /\ health c' = health c.
Proof.
  unfold ninja_opponent. intros [= <-] H. split.
  - apply ninja_update_can_hit. exact H.
  - apply ninja_update_health.
Qed.

Lemma Level2_update_unhurt (m : YellowNinja.Mind) (draw dt : Q)
    (player1_input : option PlayerInput) (s s' : t) :
  player_unhurt s ->
  update (YellowNinja.Mind * Q)%type ninja_opponent (m, draw) dt player1_input s
  = Some s' ->
  player_unhurt s' /\ ai_wins s' = ai_wins s.
Proof.
  intros Hok Hu. revert Hu. unfold update.
  destruct (showing_dialogue s); [intros [= <-]; split; [exact Hok|reflexivity]|].
  destruct (is_paused s); [intros [= <-]; split; [exact Hok|reflexivity]|].
  destruct (match_over s); [intros [= <-]; split; [exact Hok|reflexivity]|].
  destruct (round_over s).
  { cbv zeta. destruct (Qleb _ _); intros [= <-].
    - match goal with
      | |- context [_start_next_round ?s0] =>
          destruct (start_next_round_unhurt s0) as [G1 G2];
            [simpl; apply Hok|]
      end.
      split; [exact G1|]. rewrite G2. reflexivity.
    - split; [exact Hok|reflexivity]. }
  cbv zeta. destruct (Qleb _ _).
  { intros [= <-]. split.
    - apply end_round_unhurt. exact Hok.
    - rewrite end_round_ai_wins; [reflexivity|reflexivity|].
      simpl. destruct Hok as (-> & _ & _ & H4). exact H4. }
  destruct (Character_update _ _ _) as [p1|] eqn:E1; [|discriminate].
  cbv zeta.
  match goal with
  | |- context [ninja_opponent ?a ?b ?c ?d ?e ?f ?g ?h] =>
      destruct (ninja_opponent a b c d e f g h) as [p2|] eqn:E2;
        [|discriminate]
  end.
  simpl in E1, E2.
  destruct Hok as (H1 & H2 & H3 & H4).
  assert (P1 : health p1 = max_health)
    by (rewrite (update_health _ _ _ _ E1); exact H1).
  assert (P2 : is_dead p1 = false)
    by (rewrite (update_is_dead _ _ _ _ E1); exact H2).
  destruct (ninja_opponent_keeps _ _ _ _ _ _ _ _ _ E2 H3) as [P3 P4].
  match goal with
  | |- context [_check_collisions ?s0] =>
      assert (G : player_unhurt s0) by (repeat split; simpl; congruence);
      apply check_collisions_unhurt in G;
      set (s1 := _check_collisions s0) in *
  end.
  assert (A : ai_wins s1 = ai_wins s) by (destruct G as [_ G]; exact G).
  destruct G as (G & _). clearbody s1.
  assert (D : is_dead (player1 s1) = false) by apply G.
  rewrite D. simpl.
  destruct (is_dead (player2 s1) && negb (round_over s1)); intros [= <-].
  - split; [apply end_round_unhurt; exact G|].
    rewrite end_round_ai_wins; [exact A|reflexivity|].
    destruct G as (-> & _ & _ & G4). exact G4.
  - split; assumption.
Qed.

End Level2Duel.

(** X16.  In Level 2 the ninja never hurts the player and never wins a
    round.  Its half of [_check_collisions] asks for [can_hit], which its
    [update] never sets; so from a state with the player unhurt and the
    ninja's latch clear -- the state the scene starts in -- every run of
    ticks, whatever the ninja has in mind, leaves the player at full
    health and alive and the ninja's win counter where it was. *)
Theorem ninja_never_wins_a_round
    (ticks : list (YellowNinja.Mind * Q * Q * option PlayerInput)) :
  forall s s' : Level2Scene.t,
    player_unhurt s ->
    Level2_run ticks s = Some s' ->
    health (Level2Scene.player1 s') = max_health
    /\ is_dead (Level2Scene.player1 s') = false
    /\ Level2Scene.ai_wins s' = Level2Scene.ai_wins s.
Proof.
  induction ticks as [|[[[m draw] dt] i] rest IH]; intros s s' Hok Hrun;
    simpl in Hrun.
  - injection Hrun as <-. destruct Hok as (H1 & H2 & _). auto.
  - destruct (Level2Scene.update _ _ _ _ _ _) as [s1|] eqn:E; [|discriminate].
    destruct (Level2_update_unhurt m draw dt i s s1 Hok E) as [Hok1 A1].
    destruct (IH s1 s' Hok1 Hrun) as (H1 & H2 & H3).
    repeat split; try assumption. rewrite H3. exact A1.
Qed.

Lemma ninja_never_wins_a_round_witness :
  exists s',
    Level2_run
      [(YellowNinja.mkMind 0 "idle" None, 0, 1 # 5, Some walk_right);
       (YellowNinja.mkMind (1 # 5) "attack" None, 0, 1 # 5, None);
       (YellowNinja.mkMind 0 "attack" None, 1 # 2, 99, Some press_attack)]
      (Level2Scene_init 600 demo_assets 32 32 None) = Some s'
    /\ Level2Scene.round_over s' = true
    /\ health (Level2Scene.player1 s') = max_health
    /\ is_dead (Level2Scene.player1 s') = false
    /\ Level2Scene.ai_wins s'
       = Level2Scene.ai_wins (Level2Scene_init 600 demo_assets 32 32 None).
Proof.
  cbv zeta. eexists. split; [vm_compute; reflexivity|].
  split; [vm_compute; reflexivity|].
  apply (ninja_never_wins_a_round
           [(YellowNinja.mkMind 0 "idle" None, 0, 1 # 5, Some walk_right);
            (YellowNinja.mkMind (1 # 5) "attack" None, 0, 1 # 5, None);
            (YellowNinja.mkMind 0 "attack" None, 1 # 2, 99, Some press_attack)]
           (Level2Scene_init 600 demo_assets 32 32 None)).
  - repeat split; vm_compute; first [reflexivity | discriminate].
  - vm_compute. reflexivity.
Defined.

(** ** The cheat code *)

Lemma substring_length (n m : nat) (s : string) :
  (String.length (String.substring n m s) <= m)%nat.
Proof.
  revert n m. induction s as [|a s IH]; intros n m.
  - destruct n, m; simpl; lia.
  - destruct n as [|n]; simpl.
    + destruct m as [|m]; simpl; [lia|]. specialize (IH 0%nat m). lia.
    + apply IH.
Qed.

Lemma prefix_length (a b : string) :
  String.prefix a b = true -> (String.length a <= String.length b)%nat.
Proof.
  revert b. induction a as [|x a IH]; intros b H; simpl; [lia|].
  destruct b as [|y b]; simpl in H; [discriminate|].
  destruct (Ascii.ascii_dec x y); [|discriminate].
  specialize (IH b H). simpl. lia.
Qed.

Lemma contains_length (needle hay : string) :
  contains needle hay = true ->
  (String.length needle <= String.length hay)%nat.
Proof.
  induction hay as [|y hay IH]; cbn [contains]; intro H.
  - rewrite orb_false_r in H. apply prefix_length in H. exact H.
  - apply orb_true_iff in H. destruct H as [H|H].
    + apply prefix_length in H. exact H.
    + specialize (IH H). cbn [String.length]. lia.
Qed.

Lemma contains_short (needle hay : string) :
  (String.length hay < String.length needle)%nat ->
  contains needle hay = false.
Proof.
  intro H. destruct (contains needle hay) eqn:E; [|reflexivity].
  apply contains_length in E. lia.
Qed.

Lemma lower_length (s : string) : String.length (lower s) = String.length s.
Proof. induction s as [|a s IH]; simpl; congruence. Qed.

Lemma append_length (a b : string) :
  String.length (a ++ b) = (String.length a + String.length b)%nat.
Proof. induction a as [|x a IH]; simpl; congruence. Qed.

Lemma process_cheat_input_length (character : string) (dt : Q)
    (k : CheatBuffer) (c : Character) :
  (String.length (cheat_input k) <= 6)%nat ->
  (String.length (cheat_input (fst (process_cheat_input character dt k c))) <= 6)%nat.
Proof.
  intro H. unfold process_cheat_input, last_chars.
  repeat split_test; cbn [fst cheat_input String.length]; try lia;
    try exact H.
  - apply substring_length.
  - match goal with
    | E : Nat.ltb 6 _ = false |- _ => apply Nat.ltb_ge in E; exact E
    end.
Qed.

(** X17.  The cheat buffer never holds more than six characters,
    whatever is typed and however long each key stroke is. *)
Theorem cheat_buffer_holds_six (keys : list (string * Q)) :
  forall (k : CheatBuffer) (c : Character),
    (String.length (cheat_input k) <= 6)%nat ->
    (String.length (cheat_input (fst (type_keys keys k c))) <= 6)%nat.
Proof.
  induction keys as [|[character dt] rest IH]; intros k c H; simpl; [exact H|].
  destruct (process_cheat_input character dt k c) as [k1 c1] eqn:E.
  apply IH.
  change k1 with (fst (k1, c1)). rewrite <- E.
  apply process_cheat_input_length. exact H.
Qed.

Lemma cheat_buffer_holds_six_witness :
  (String.length
     (cheat_input
        (fst (type_keys [("hideo", 1%Q); ("KOJ", 1%Q); ("x", (1 # 2)%Q)]
                CheatBuffer_init (Samurai1 demo_assets 150 335)))) <= 6)%nat.
Proof.
  apply (cheat_buffer_holds_six [("hideo", 1%Q); ("KOJ", 1%Q); ("x", (1 # 2)%Q)]).
  simpl. lia.
Defined.

Lemma process_key_kept (character b : string) (dt : Q) (k : CheatBuffer)
    (c : Character) :
  String.eqb character "" = false -> dt <= 2 ->
  cheat_input k ++ lower character = b ->
  Nat.ltb 6 (String.length b) = false ->
  contains "kojima" b = false ->
  exists t, process_cheat_input character dt k c = (mkCheatBuffer b t, c).
Proof.
  intros Hc Hdt Hb Hlen Hno. unfold process_cheat_input. rewrite Hc.
  cbn [negb cheat_input cheat_timer]. rewrite Hb, Hlen.
  cbn [negb cheat_input cheat_timer]. rewrite Hno.
  cbn [cheat_input cheat_timer].
  assert (E : Qltb 2 (0 + dt) = false) by (apply Qltb_false_iff; lra).
  rewrite E. eexists. reflexivity.
Qed.

Lemma process_key_trigger (character b : string) (dt : Q) (k : CheatBuffer)
    (c : Character) :
  String.eqb character "" = false -> dt <= 2 ->
  cheat_input k ++ lower character = b ->
  Nat.ltb 6 (String.length b) = false ->
  contains "kojima" b = true ->
  exists t,
    process_cheat_input character dt k c
    = (mkCheatBuffer "" t, set_god_mode (negb (god_mode c)) c).
Proof.
  intros Hc Hdt Hb Hlen Hyes. unfold process_cheat_input. rewrite Hc.
  cbn [negb cheat_input cheat_timer]. rewrite Hb, Hlen.
  cbn [negb cheat_input cheat_timer]. rewrite Hyes.
  cbn [cheat_input cheat_timer].
  assert (E : Qltb 2 (0 + dt) = false) by (apply Qltb_false_iff; lra).
  rewrite E. eexists. reflexivity.
Qed.

(** X18.  The cheat code works as typed: from an empty buffer, the six
    letters of "kojima", each within two seconds of the one before,
    toggle god mode once -- on the last letter -- and leave the buffer
    empty; nothing else of the combatant changes. *)
Theorem kojima_toggles_god_mode
    (d1 d2 d3 d4 d5 d6 t0 : Q) (c : Character)
    (H1 : d1 <= 2) (H2 : d2 <= 2) (H3 : d3 <= 2)
    (H4 : d4 <= 2) (H5 : d5 <= 2) (H6 : d6 <= 2) :
  cheat_input
    (fst (type_keys [("k", d1); ("o", d2); ("j", d3); ("i", d4); ("m", d5);
                     ("a", d6)] (mkCheatBuffer "" t0) c)) = ""
  /\ snd (type_keys [("k", d1); ("o", d2); ("j", d3); ("i", d4); ("m", d5);
                     ("a", d6)] (mkCheatBuffer "" t0) c)
     = set_god_mode (negb (god_mode c)) c
  /\ snd (type_keys [("k", d1); ("o", d2); ("j", d3); ("i", d4); ("m", d5)]
            (mkCheatBuffer "" t0) c) = c.
Proof.
  cbn [type_keys].
  destruct (process_key_kept "k" "k" d1 (mkCheatBuffer "" t0) c)
    as (t1 & ->); try reflexivity; try assumption.
  destruct (process_key_kept "o" "ko" d2 (mkCheatBuffer "k" t1) c)
    as (t2 & ->); try reflexivity; try assumption.
  destruct (process_key_kept "j" "koj" d3 (mkCheatBuffer "ko" t2) c)
    as (t3 & ->); try reflexivity; try assumption.
  destruct (process_key_kept "i" "koji" d4 (mkCheatBuffer "koj" t3) c)
    as (t4 & ->); try reflexivity; try assumption.
  destruct (process_key_kept "m" "kojim" d5 (mkCheatBuffer "koji" t4) c)
    as (t5 & ->); try reflexivity; try assumption.
  destruct (process_key_trigger "a" "kojima" d6 (mkCheatBuffer "kojim" t5) c)
    as (t6 & ->); try reflexivity; try assumption.
  repeat split.
Qed.

Lemma kojima_toggles_god_mode_witness :
  god_mode
    (snd (type_keys [("k", 1 # 2); ("o", 1 # 2); ("j", 1 # 2); ("i", 1 # 2);
                     ("m", 1 # 2); ("a", 2)]
            (mkCheatBuffer "" 0) (Samurai1 demo_assets 150 335))) = true.
Proof.
  destruct (kojima_toggles_god_mode (1 # 2) (1 # 2) (1 # 2) (1 # 2) (1 # 2) 2 0
              (Samurai1 demo_assets 150 335))
    as (_ & -> & _); try discriminate.
  reflexivity.
Defined.

Lemma process_cheat_input_late (character : string) (dt : Q) (k : CheatBuffer)
    (c : Character) :
  String.eqb character "" = false -> 2 < dt -> cheat_input k = "" ->
  (String.length character < 6)%nat ->
  process_cheat_input character dt k c = (mkCheatBuffer "" 0, c).
Proof.
  intros Hc Hdt Hk Hlen. unfold process_cheat_input. rewrite Hc, Hk.
  cbn [negb cheat_input cheat_timer append].
  assert (L : Nat.ltb 6 (String.length (lower character)) = false)
    by (apply Nat.ltb_ge; rewrite lower_length; lia).
  rewrite L. cbn [cheat_input cheat_timer].
  rewrite contains_short by (rewrite lower_length; simpl; exact Hlen).
  cbn [cheat_input cheat_timer].
  assert (E : Qltb 2 (0 + dt) = true) by (apply Qltb_true_iff; lra).
  rewrite E. reflexivity.
Qed.

Lemma isalpha_not_empty (s : string) :
  isalpha s = true -> String.eqb s "" = false.
Proof.
  unfold isalpha. intro H. apply andb_true_iff in H. destruct H as [H _].
  apply negb_true_iff in H. exact H.
Qed.

Lemma pause_keys_cheat (events : list KeyDown) :
  forall (k : CheatBuffer) (s : Level2Scene.t),
    2 < Level2Scene.round_time s ->
    cheat_input k = "" ->
    Forall (fun e => (String.length (unicode e) < 6)%nat) events ->
    cheat_input (snd (fst (Level2Scene_pause_keys events k s))) = ""
    /\ god_mode (Level2Scene.player1 (snd (Level2Scene_pause_keys events k s)))
       = god_mode (Level2Scene.player1 s).
Proof.
  induction events as [|e rest IH]; intros k s Hrt Hk Hall.
  - simpl. auto.
  - inversion Hall as [|e0 l0 He Hrest]; subst.
    cbn [Level2Scene_pause_keys].
    set (s1 := match key e with
               | K_ESCAPE =>
                   Level2Scene.set_is_paused (negb (Level2Scene.is_paused s)) s
               | _ => s
               end).
    assert (R1 : Level2Scene.round_time s1 = Level2Scene.round_time s)
      by (subst s1; destruct (key e); reflexivity).
    assert (P1 : Level2Scene.player1 s1 = Level2Scene.player1 s)
      by (subst s1; destruct (key e); reflexivity).
    clearbody s1.
    assert (Step :
      (if isalpha (unicode e)
       then process_cheat_input (unicode e) (Level2Scene.round_time s1) k
              (Level2Scene.player1 s1)
       else (k, Level2Scene.player1 s1))
      = ((if isalpha (unicode e) then mkCheatBuffer "" 0 else k),
         Level2Scene.player1 s1)).
    { destruct (isalpha (unicode e)) eqn:Ea; [|reflexivity].
      apply process_cheat_input_late; try assumption.
      - apply isalpha_not_empty. exact Ea.
      - rewrite R1. exact Hrt. }
    assert (Tail :
      cheat_input
        (snd (fst (Level2Scene_pause_keys rest
                     (if isalpha (unicode e) then mkCheatBuffer "" 0 else k)
                     (Level2Scene.set_player1 (Level2Scene.player1 s1) s1)))) = ""
      /\ god_mode
           (Level2Scene.player1
              (snd (Level2Scene_pause_keys rest
                      (if isalpha (unicode e) then mkCheatBuffer "" 0 else k)
                      (Level2Scene.set_player1 (Level2Scene.player1 s1) s1))))
         = god_mode (Level2Scene.player1 s)).
    { destruct (IH (if isalpha (unicode e) then mkCheatBuffer "" 0 else k)
                   (Level2Scene.set_player1 (Level2Scene.player1 s1) s1))
        as [T1 T2];
        [ simpl; rewrite R1; exact Hrt
        | destruct (isalpha (unicode e)); [reflexivity | exact Hk]
        | exact Hrest
        | ].
      split; [exact T1|]. rewrite T2. simpl. rewrite P1. reflexivity. }
    destruct (key e) eqn:Ek; try (rewrite Step; exact Tail).
    destruct (Level2Scene.match_over s); [simpl; auto|].
    rewrite Step. exact Tail.
Qed.

(** X19.  In Level 2 the cheat code is out of reach while more than two
    seconds remain on the clock.  [Level2Scene.handle_input] passes
    [self.round_time] where [process_cheat_input] expects the time since
    the last frame, so every letter times the buffer out at once: from an
    empty buffer, no sequence of key strokes changes god mode. *)
Theorem level2_cheat_is_out_of_reach
    (events : list KeyDown) (k : CheatBuffer) (s : Level2Scene.t)
    (Hclock : 2 < Level2Scene.round_time s)
    (Hempty : cheat_input k = "")
    (Hkeys : Forall (fun e => (String.length (unicode e) < 6)%nat) events) :
  cheat_input (snd (fst (Level2Scene_handle_input events k s))) = ""
  /\ god_mode (Level2Scene.player1 (snd (Level2Scene_handle_input events k s)))
     = god_mode (Level2Scene.player1 s).
Proof.
  unfold Level2Scene_handle_input.
  destruct (Level2Scene.showing_dialogue s).
  - destruct (Level2Scene__handle_dialogue_input events s) as [action s'] eqn:E.
    cbn [fst snd]. split; [exact Hempty|].
    assert (P : forall evs, Level2Scene.player1
                              (snd (Level2Scene__handle_dialogue_input evs s))
                            = Level2Scene.player1 s).
    { induction evs as [|e rest IH]; [reflexivity|].
      cbn [Level2Scene__handle_dialogue_input].
      destruct (key e); try exact IH; reflexivity. }
    specialize (P events). rewrite E in P. cbn [snd] in P. rewrite P.
    reflexivity.
  - apply pause_keys_cheat; assumption.
Qed.

Lemma level2_cheat_is_out_of_reach_witness :
  god_mode
    (Level2Scene.player1
       (snd (Level2Scene_handle_input
               [mkKeyDown K_other "k"; mkKeyDown K_other "o";
                mkKeyDown K_other "j"; mkKeyDown K_other "i";
                mkKeyDown K_other "m"; mkKeyDown K_other "a"]
               CheatBuffer_init
               (Level2Scene_init 600 demo_assets 32 32 None)))) = false.
Proof.
  destruct (level2_cheat_is_out_of_reach
              [mkKeyDown K_other "k"; mkKeyDown K_other "o";
               mkKeyDown K_other "j"; mkKeyDown K_other "i";
               mkKeyDown K_other "m"; mkKeyDown K_other "a"]
              CheatBuffer_init
              (Level2Scene_init 600 demo_assets 32 32 None)) as [_ ->].
  - reflexivity.
  - reflexivity.
  - repeat constructor.
  - reflexivity.
Defined.

(** ** The input handler *)

Lemma InputHandler_update_ok (keys : KeysHeld) (dt : Q) (h : InputHandler) :
  0 <= dt -> parry_state_ok h -> parry_state_ok (InputHandler_update keys dt h).
Proof.
  unfold parry_state_ok, InputHandler_update, parry_window_duration.
  intros Hdt (H1 & H2 & H3 & H4). cbv zeta.
  destruct (held_block keys); repeat split_test;
    cbn [is_parrying parry_window_time shift_press_time shift_was_pressed
         player1_input block negb andb] in *;
    order_facts;
    repeat split; intros; try discriminate; try reflexivity;
    try match goal with
        | E : is_parrying h = true |- _ => specialize (H1 E)
        end;
    try match goal with
        | E : is_parrying h = false |- _ => specialize (H2 E)
        end;
    try lra; try congruence.
Qed.

(** X20.  The parry window is consistent in every frame: it is open
    exactly while time remains in it, it never holds more than its 0.3 s,
    and the block intent is set only with LEFT SHIFT held outside a
    window. *)
Theorem parry_window_is_consistent (frames : list (KeysHeld * Q)) :
  forall h : InputHandler,
    parry_state_ok h ->
    Forall (fun f => 0 <= snd f) frames ->
    parry_state_ok (InputHandler_updates frames h).
Proof.
  induction frames as [|[keys dt] rest IH]; intros h Hok Hall; [exact Hok|].
  inversion Hall as [|f l Hdt Hrest]; subst.
  unfold InputHandler_updates. cbn [fold_left fst snd].
  apply IH; [|exact Hrest].
  apply InputHandler_update_ok; assumption.
Qed.

Lemma parry_window_is_consistent_witness :
  parry_state_ok
    (InputHandler_updates
       [(shift_held, 1 # 60); (shift_held, 1 # 60); (no_keys, 1 # 60);
        (shift_held, 1 # 60); (no_keys, 1 # 2)]
       InputHandler_init).
Proof.
  apply (parry_window_is_consistent
           [(shift_held, 1 # 60); (shift_held, 1 # 60); (no_keys, 1 # 60);
            (shift_held, 1 # 60); (no_keys, 1 # 2)]).
  - unfold parry_state_ok. simpl.
    repeat split; intros; try discriminate; reflexivity.
  - repeat constructor; discriminate.
Defined.

Lemma no_shift_no_parry (frames : list (KeysHeld * Q)) :
  forall h : InputHandler,
    is_parrying h = false -> shift_was_pressed h = false ->
    Forall (fun f => held_block (fst f) = false) frames ->
    is_parrying (InputHandler_updates frames h) = false.
Proof.
  induction frames as [|[keys dt] rest IH]; intros h Hp Hs Hall; [exact Hp|].
  inversion Hall as [|f l Hk Hrest]; subst. cbn [fst] in Hk.
  unfold InputHandler_updates. cbn [fold_left fst snd].
  apply IH; [| |exact Hrest];
    unfold InputHandler_update; cbv zeta; rewrite Hk, Hs;
    cbn [andb is_parrying parry_window_time shift_press_time
         shift_was_pressed player1_input];
    rewrite ?Hp; reflexivity.
Qed.










(** ** The main menu *)

(** X23.  The menu selection never leaves the list of options, whatever
    keys arrive; the game starts only with the first option selected, and
    the handler answers with one of its three actions. *)
Theorem menu_selection_stays_in_range (events : list Key) :
  forall s : MainMenuScene.t,
    (0 <= MainMenuScene.selected_option s
     < Z.of_nat (List.length MainMenuScene.menu_options))%Z ->
    (0 <= MainMenuScene.selected_option
            (snd (MainMenuScene.handle_input events s))
     < Z.of_nat (List.length MainMenuScene.menu_options))%Z
    /\ (fst (MainMenuScene.handle_input events s) = "start_game" ->
        MainMenuScene.selected_option
          (snd (MainMenuScene.handle_input events s)) = 0%Z)
    /\ (fst (MainMenuScene.handle_input events s) = "continue"
        \/ fst (MainMenuScene.handle_input events s) = "start_game"
        \/ fst (MainMenuScene.handle_input events s) = "quit").
Proof.
  change (Z.of_nat (List.length MainMenuScene.menu_options)) with 2%Z.
  induction events as [|k rest IH]; intros s Hs.
  - simpl. repeat split; try lia; [discriminate | auto].
  - destruct k; cbn [MainMenuScene.handle_input];
      change (Z.of_nat (List.length MainMenuScene.menu_options)) with 2%Z;
      try (apply IH; exact Hs);
      try (apply IH; cbn [MainMenuScene.selected_option];
           apply Z.mod_pos_bound; lia).
    + destruct (MainMenuScene.selected_option s =? 0)%Z eqn:E0;
        [apply Z.eqb_eq in E0; simpl; repeat split; auto; lia|].
      destruct (MainMenuScene.selected_option s =? 1)%Z eqn:E1;
        [simpl; repeat split; auto; try lia; discriminate|].
      apply IH. exact Hs.
    + destruct (MainMenuScene.selected_option s =? 0)%Z eqn:E0;
        [apply Z.eqb_eq in E0; simpl; repeat split; auto; lia|].
      destruct (MainMenuScene.selected_option s =? 1)%Z eqn:E1;
        [simpl; repeat split; auto; try lia; discriminate|].
      apply IH. exact Hs.
    + simpl. repeat split; auto; try lia. discriminate.
Qed.

Lemma menu_selection_stays_in_range_witness :
  MainMenuScene.handle_input [K_UP; K_UP; K_UP; K_other; K_RETURN; K_DOWN]
    MainMenuScene.init
  = ("quit", MainMenuScene.mk 1 0)
  /\ (0 <= MainMenuScene.selected_option
             (snd (MainMenuScene.handle_input
                     [K_UP; K_UP; K_UP; K_other; K_RETURN; K_DOWN]
                     MainMenuScene.init)) < 2)%Z.
Proof.
  split; [reflexivity|].
  apply (menu_selection_stays_in_range
           [K_UP; K_UP; K_UP; K_other; K_RETURN; K_DOWN] MainMenuScene.init).
  simpl. lia.
Defined.

(** ** The AI controller *)

(** X24.  The AI never asks for two things at once.  Whatever action it
    is in, whatever its timers, the positions of the two fighters and the
    two draws, the intent that [_execute_action] fills in after
    [_reset_input] holds at most one of attack, block, special and up,
    and never down. *)
Theorem ai_asks_for_one_thing
    (draw1 draw2 : Q) (ai_character player_character : Character)
    (a : AIController) :
  let i :=
    ai_input (AIController__execute_action draw1 draw2 ai_character
                player_character (AIController__reset_input a)) in
  attack i && block i = false
  /\ attack i && special i = false
  /\ block i && special i = false
  /\ up i && (attack i || block i || special i) = false
  /\ down i = false.
Proof.
  intro i. subst i.
  unfold AIController__execute_action, AIController__reset_input,
    move_towards, move_away, press, set_current_action. cbv zeta.
  cbn [current_action action_timer block_duration ai_input].
  repeat split_test;
    cbn [ai_input with_left with_right with_up with_attack with_block
         with_special left right up down attack block special
         PlayerInput_init andb orb negb];
    repeat split; reflexivity.
Qed.
